(** * FLOWER_BOT: the storage layer, the helpers, the keyboards and the
    conversation handlers of the flower-shop bot, embedded from the Python
    sources, with the properties of the specification proved about them. *)

From Stdlib Require Import ZArith NArith List String Ascii Bool Lia Sorted.
From stdpp Require Import gmap strings list.

Set Default Goal Selector "!".

(** * Python values the sources rely on *)

(** A Python [str] is a sequence of Unicode code points. *)
Abbreviation char := N (only parsing).
Abbreviation str := (list N) (only parsing).

Module Py.

(** The source files are UTF-8: a string literal of the sources is written
    here as the same literal and decoded into its code points. *)
Fixpoint utf8_decode (bs : list N) : str :=
  match bs with
  | [] => []
  | b0 :: t0 =>
    if (b0 <? 128)%N then b0 :: utf8_decode t0 else
    match t0 with
    | [] => []
    | b1 :: t1 =>
      if (b0 <? 224)%N then ((b0 mod 32) * 64 + b1 mod 64)%N :: utf8_decode t1 else
      match t1 with
      | [] => []
      | b2 :: t2 =>
        if (b0 <? 240)%N
        then ((b0 mod 16) * 4096 + (b1 mod 64) * 64 + b2 mod 64)%N :: utf8_decode t2
        else
          match t2 with
          | [] => []
          | b3 :: t3 =>
            ((b0 mod 8) * 262144 + (b1 mod 64) * 4096 + (b2 mod 64) * 64 + b3 mod 64)%N
              :: utf8_decode t3
          end
      end
    end
  end.

Definition lit (s : string) : str :=
  utf8_decode (map N_of_ascii (list_ascii_of_string s)).

(** ** Exceptions *)

Inductive exn :=
  | RuntimeError (msg : str)
  | AttributeError     (* an attribute looked up on [None] *)
  | KeyError (key : string)
  | ValueError
  | IndexError
  | OverflowError
  | TypeError
  | IntegrityError     (* sqlite3: a constraint of the schema failed *)
  | TelegramAPIError.  (* a request to the chat platform failed *)

Inductive result (A : Type) :=
  | Ok (a : A)
  | Raise (e : exn).
Arguments Ok {A} a.
Arguments Raise {A} e.

Definition rbind {A B} (r : result A) (k : A → result B) : result B :=
  match r with
  | Ok a => k a
  | Raise e => Raise e
  end.

#[export] Instance result_ret : MRet result := λ A a, Ok a.
#[export] Instance result_bind : MBind result := λ A B k r, rbind r k.

(** [[f(x) for x in l]] where [f] may raise. *)
Fixpoint traverse {A B} (f : A → result B) (l : list A) : result (list B) :=
  match l with
  | [] => Ok []
  | x :: l' => y ← f x; ys ← traverse f l'; Ok (y :: ys)
  end.

(** ** Character classes

    [str.strip()] without argument and the class [\s] of [re] both use
    [Py_UNICODE_ISSPACE]; its table is short and written out. *)
Definition isspace_char (c : char) : bool :=
  ((9 <=? c) && (c <=? 13) || (28 <=? c) && (c <=? 32) || (c =? 133) || (c =? 160)
   || (c =? 5760) || (8192 <=? c) && (c <=? 8202) || (c =? 8232) || (c =? 8233)
   || (c =? 8239) || (c =? 8287) || (c =? 12288))%N.

Definition in_ascii (c : char) : bool := (c <? 128)%N.

(** The Russian alphabet without the letter io: U+0410 .. U+044F. *)
Definition in_cyrillic (c : char) : bool := ((1040 <=? c) && (c <=? 1103))%N.

(** The rest of the Unicode character database is not part of the
    repository: outside the blocks written out below, the decimal value of a
    character ([Py_UNICODE_TODECIMAL], behind [\d] and [int]), the digit
    characters that have no decimal value ([str.isdigit] accepts them, as
    superscript two), and the lower-case mapping (which for capital sigma
    depends on the characters before and after) are parameters. *)
Class UnicodeData := {
  uni_decimal : char → option N;
  uni_digit_only : char → bool;
  uni_lower : str → char → str → str;
}.

Section WithUnicode.
Context {U : UnicodeData}.

Definition decimal_value (c : char) : option N :=
  if in_ascii c
  then (if (48 <=? c) && (c <=? 57) then Some (c - 48) else None)%N
  else uni_decimal c.

Definition isdecimal_char (c : char) : bool :=
  match decimal_value c with Some _ => true | None => false end.

Definition isdigit_char (c : char) : bool :=
  isdecimal_char c || (negb (in_ascii c) && uni_digit_only c).

Definition lower_char (before : str) (c : char) (after : str) : str :=
  if in_ascii c then [if (65 <=? c) && (c <=? 90) then c + 32 else c]%N
  else if in_cyrillic c then [if (c <=? 1071) then c + 32 else c]%N
  else uni_lower before c after.

(** [s.lower()] *)
Fixpoint lower_from (before s : str) : str :=
  match s with
  | [] => []
  | c :: rest => lower_char before c rest ++ lower_from (before ++ [c]) rest
  end.

Definition lower (s : str) : str := lower_from [] s.

(** [s.isdigit()]: at least one character, and all of them digits. *)
Definition isdigit (s : str) : bool :=
  match s with
  | [] => false
  | _ => forallb isdigit_char s
  end.

(** [int(s)] for a string without sign, blank or underscore, which is the
    only kind the sources pass: the fields of the bot's own callback data and
    a string that passed [isdigit].  A character without a decimal value is
    a [ValueError]. *)
Fixpoint int_digits (acc : Z) (s : str) : result Z :=
  match s with
  | [] => Ok acc
  | c :: rest =>
    match decimal_value c with
    | Some d => int_digits (10 * acc + Z.of_N d) rest
    | None => Raise ValueError
    end
  end.

Definition int (s : str) : result Z :=
  match s with
  | [] => Raise ValueError
  | _ => int_digits 0 s
  end.

End WithUnicode.

(** ** String operations that need no table beyond white space *)

Fixpoint lstrip (s : str) : str :=
  match s with
  | [] => []
  | c :: rest => if isspace_char c then lstrip rest else s
  end.

Definition rstrip (s : str) : str := rev (lstrip (rev s)).

(** [s.strip()] *)
Definition strip (s : str) : str := rstrip (lstrip s).

(** Nothing but white space. *)
Definition blank (w : str) : Prop := Forall (λ c, isspace_char c = true) w.

(** [s.startswith(p)] *)
Fixpoint startswith (s p : str) {struct p} : bool :=
  match p, s with
  | [], _ => true
  | _ :: _, [] => false
  | a :: p', b :: s' => (a =? b)%N && startswith s' p'
  end.

(** [s[n:]] *)
Definition slice_from (n : nat) (s : str) : str := skipn n s.

(** [s[:n]] *)
Definition slice_to (n : nat) (s : str) : str := firstn n s.

(** [s.split(sep)] for a one-character separator, and [s.split(sep, 1)]. *)
Fixpoint split (sep : char) (s : str) : list str :=
  match s with
  | [] => [[]]
  | c :: rest =>
    if (c =? sep)%N then [] :: split sep rest
    else match split sep rest with
         | [] => [[c]]
         | w :: ws => (c :: w) :: ws
         end
  end.

Fixpoint split1 (sep : char) (s : str) : list str :=
  match s with
  | [] => [[]]
  | c :: rest =>
    if (c =? sep)%N then [[]; rest]
    else match split1 sep rest with
         | [] => [[c]]
         | w :: ws => (c :: w) :: ws
         end
  end.

(** [str(n)] for an integer. *)
Fixpoint digits_of_pos (fuel : nat) (n : N) (acc : str) : str :=
  match fuel with
  | O => acc
  | S fuel' =>
    let acc' := (48 + n mod 10)%N :: acc in
    if (n <? 10)%N then acc' else digits_of_pos fuel' (n / 10)%N acc'
  end.

Definition str_of_N (n : N) : str := digits_of_pos (S (N.to_nat (N.log2 n))) n [].

Definition str_of_Z (z : Z) : str :=
  if (z <? 0)%Z then 45%N :: str_of_N (Z.to_N (- z)) else str_of_N (Z.to_N z).

(** [f"{n:02d}"] and [f"{n:04d}"] for a number that is not negative. *)
Definition zfill (width : nat) (s : str) : str :=
  repeat 48%N (width - length s) ++ s.

End Py.

Import Py.

(** * The part of [datetime] the sources use *)

Module datetime.
#[local] Open Scope Z_scope.

Record date := mkdate { year : Z; month : Z; day : Z }.

Record time := mktime { hour : Z; minute : Z; second : Z; microsecond : Z }.

Record t := mk { date_of : date; time_of : time }.

Definition is_leap (y : Z) : bool :=
  (y mod 4 =? 0) && (negb (y mod 100 =? 0) || (y mod 400 =? 0)).

Definition days_before_year (y : Z) : Z :=
  let y := y - 1 in y * 365 + y / 4 - y / 100 + y / 400.

Definition DAYS_IN_MONTH : list Z := [-1; 31; 28; 31; 30; 31; 30; 31; 31; 30; 31; 30; 31].

Definition DAYS_BEFORE_MONTH : list Z :=
  [-1; 0; 31; 59; 90; 120; 151; 181; 212; 243; 273; 304; 334].

Definition days_in_month (y m : Z) : Z :=
  if (m =? 2) && is_leap y then 29 else nth (Z.to_nat m) DAYS_IN_MONTH 0.

Definition days_before_month (y m : Z) : Z :=
  nth (Z.to_nat m) DAYS_BEFORE_MONTH 0 + (if (2 <? m) && is_leap y then 1 else 0).

Definition ymd2ord (y m d : Z) : Z := days_before_year y + days_before_month y m + d.

Definition DI400Y : Z := days_before_year 401.
Definition DI100Y : Z := days_before_year 101.
Definition DI4Y : Z := days_before_year 5.
Definition MAXORDINAL : Z := 3652059.

Definition ord2ymd (n : Z) : date :=
  let n := n - 1 in
  let n400 := n / DI400Y in
  let n := n mod DI400Y in
  let y := n400 * 400 + 1 in
  let n100 := n / DI100Y in
  let n := n mod DI100Y in
  let n4 := n / DI4Y in
  let n := n mod DI4Y in
  let n1 := n / 365 in
  let n := n mod 365 in
  let y := y + n100 * 100 + n4 * 4 + n1 in
  if (n1 =? 4) || (n100 =? 4) then mkdate (y - 1) 12 31
  else
    let leapyear := (n1 =? 3) && (negb (n4 =? 24) || (n100 =? 3)) in
    let m := Z.shiftr (n + 50) 5 in
    let preceding :=
      nth (Z.to_nat m) DAYS_BEFORE_MONTH 0 + (if (2 <? m) && leapyear then 1 else 0) in
    if n <? preceding
    then
      let m := m - 1 in
      let preceding :=
        preceding - (nth (Z.to_nat m) DAYS_IN_MONTH 0
                     + (if (m =? 2) && leapyear then 1 else 0)) in
      mkdate y m (n - preceding + 1)
    else mkdate y m (n - preceding + 1).

Definition toordinal (d : date) : Z := ymd2ord (year d) (month d) (day d).

(** [d + timedelta(days=n)] *)
Definition add_days (d : date) (n : Z) : result date :=
  let o := toordinal d + n in
  if (0 <? o) && (o <=? MAXORDINAL) then Ok (ord2ymd o) else Raise OverflowError.

Definition two (n : Z) : str := zfill 2 (str_of_Z n).

(** [d.isoformat()]: "%04d-%02d-%02d" *)
Definition isoformat (d : date) : str :=
  zfill 4 (str_of_Z (year d)) ++ [45%N] ++ two (month d) ++ [45%N] ++ two (day d).

(** [d.strftime("%d.%m")] *)
Definition strftime_d_m (d : date) : str := two (day d) ++ [46%N] ++ two (month d).

Definition ascii_number (w : str) : option Z :=
  if forallb (λ c, (48 <=? c)%N && (c <=? 57)%N) w
  then Some (fold_left (λ acc c, 10 * acc + Z.of_N (c - 48)) w 0)
  else None.

(** [date.fromisoformat(s)] for the format YYYY-MM-DD, the one [isoformat]
    writes; anything else is a [ValueError] here. *)
Definition fromisoformat (s : str) : result date :=
  match s with
  | [y1; y2; y3; y4; 45%N; m1; m2; 45%N; d1; d2] =>
    match ascii_number [y1; y2; y3; y4], ascii_number [m1; m2], ascii_number [d1; d2] with
    | Some y, Some m, Some d =>
      if (1 <=? y) && (1 <=? m) && (m <=? 12) && (1 <=? d) && (d <=? days_in_month y m)
      then Ok (mkdate y m d) else Raise ValueError
    | _, _, _ => Raise ValueError
    end
  | _ => Raise ValueError
  end.

(** [a >= b] on times of day. *)
Definition time_ge (a b : time) : bool :=
  match hour a ?= hour b with
  | Gt => true
  | Lt => false
  | Eq =>
    match minute a ?= minute b with
    | Gt => true
    | Lt => false
    | Eq =>
      match second a ?= second b with
      | Gt => true
      | Lt => false
      | Eq => microsecond b <=? microsecond a
      end
    end
  end.

End datetime.

(** * The part of [re] that [is_phone_valid] uses *)

Module re.

(** Patterns: a literal character, the classes [\d] and [\s], the anchors
    [^] and [$], sequence, [r?] and the bounded repetition [r{lo,hi}]
    ([r{n}] is [r{n,n}]). *)
Inductive pattern :=
  | Lit (c : char)
  | Digit
  | Space
  | Bol
  | Eol
  | Seq (r1 r2 : pattern)
  | Opt (r : pattern)
  | Rep (r : pattern) (lo hi : nat).

(** The position of the matcher: how many characters are behind it, and the
    characters ahead. *)
Definition cursor : Type := nat * str.

Section Matcher.
Context {U : UnicodeData}.

(** One character of a class. *)
Definition eat (p : char → bool) (cu : cursor) (k : cursor → bool) : bool :=
  match snd cu with
  | c :: rest => p c && k (S (fst cu), rest)
  | [] => false
  end.

(** Without [re.MULTILINE], [$] holds at the end of the string and just
    before a line feed that ends the string. *)
Definition at_eol (cu : cursor) : bool :=
  match snd cu with
  | [] => true
  | [c] => (c =? 10)%N
  | _ => false
  end.

(** The backtracking matcher, with the rest of the pattern as a
    continuation; greedy operators try the longer match first. *)
Fixpoint run (r : pattern) (cu : cursor) (k : cursor → bool) {struct r} : bool :=
  match r with
  | Lit c => eat (N.eqb c) cu k
  | Digit => eat isdecimal_char cu k
  | Space => eat isspace_char cu k
  | Bol => (fst cu =? 0)%nat && k cu
  | Eol => at_eol cu && k cu
  | Seq r1 r2 => run r1 cu (fun cu' => run r2 cu' k)
  | Opt r1 => run r1 cu k || k cu
  | Rep r1 lo hi =>
    (fix must (n : nat) (cu : cursor) {struct n} : bool :=
       match n with
       | S n' => run r1 cu (must n')
       | O =>
         (fix may (j : nat) (cu : cursor) {struct j} : bool :=
            match j with
            | S j' => run r1 cu (may j') || k cu
            | O => k cu
            end) (hi - lo)%nat cu
       end) lo cu
  end.

(** [re.match(r, s)] as a truth value: a match that starts at the start. *)
Definition match_ (r : pattern) (s : str) : bool := run r (O, s) (fun _ => true).

End Matcher.

(** What a pattern means, without reference to the order in which the
    matcher tries things: [den r cu cu'] when [r] can take the cursor from
    [cu] to [cu']. *)
Fixpoint iter (n : nat) (R : cursor → cursor → Prop) (cu cu' : cursor) : Prop :=
  match n with
  | O => cu' = cu
  | S n' => ∃ mid, R cu mid ∧ iter n' R mid cu'
  end.

Section Meaning.
Context {U : UnicodeData}.

Definition den_class (p : char → bool) (cu cu' : cursor) : Prop :=
  ∃ c, p c = true ∧ snd cu = c :: snd cu' ∧ fst cu' = S (fst cu).

Fixpoint den (r : pattern) (cu cu' : cursor) : Prop :=
  match r with
  | Lit c => den_class (N.eqb c) cu cu'
  | Digit => den_class isdecimal_char cu cu'
  | Space => den_class isspace_char cu cu'
  | Bol => fst cu = O ∧ cu' = cu
  | Eol => (snd cu = [] ∨ snd cu = [10%N]) ∧ cu' = cu
  | Seq r1 r2 => ∃ mid, den r1 cu mid ∧ den r2 mid cu'
  | Opt r1 => den r1 cu cu' ∨ cu' = cu
  | Rep r1 lo hi => ∃ n, (lo ≤ n ≤ lo + (hi - lo))%nat ∧ iter n (den r1) cu cu'
  end.

(** The tail of a pattern, up to its [$]. *)
Definition accepts_tail (r : pattern) (P : str → Prop) : Prop :=
  ∀ cu, (∃ cu', den r cu cu') ↔
        (P (snd cu) ∨ ∃ w', snd cu = w' ++ [10%N] ∧ P w').

End Meaning.

(** A piece of a pattern consumes a word of a given kind; the tail of a
    pattern that ends in [$] accepts what is left when it is such a word,
    or such a word and one final line feed. *)
Definition consumes (P : str → Prop) (cu cu' : cursor) : Prop :=
  ∃ w, P w ∧ snd cu = w ++ snd cu' ∧ fst cu' = (fst cu + length w)%nat.

Definition cat (P Q : str → Prop) (w : str) : Prop :=
  ∃ w1 w2, w = w1 ++ w2 ∧ P w1 ∧ Q w2.

Definition upto_newline (P : str → Prop) (w : str) : Prop :=
  P w ∨ ∃ w', w = w' ++ [10%N] ∧ P w'.

Definition one_of (p : char → bool) (w : str) : Prop := ∃ c, p c = true ∧ w = [c].

Definition run_of (p : char → bool) (lo hi : nat) (w : str) : Prop :=
  (lo ≤ length w ≤ lo + (hi - lo))%nat ∧ Forall (λ c, p c = true) w.

Definition maybe (P : str → Prop) (w : str) : Prop := P w ∨ w = [].

Definition empty (w : str) : Prop := w = [].

End re.

Declare Scope re_scope.
Delimit Scope re_scope with re.
Infix "⋅" := re.Seq (at level 60, right associativity) : re_scope.

(** * utils/helpers.py *)

Module helpers.

Section WithUnicode.
Context {U : UnicodeData}.

(** r"^\+\d{2}\s?\d{3}\s?\d{3}\s?\d{4}$" *)
Definition pattern_grouped : re.pattern :=
  (re.Bol ⋅ re.Lit 43 ⋅ re.Rep re.Digit 2 2 ⋅ re.Opt re.Space ⋅ re.Rep re.Digit 3 3
   ⋅ re.Opt re.Space ⋅ re.Rep re.Digit 3 3 ⋅ re.Opt re.Space ⋅ re.Rep re.Digit 4 4
   ⋅ re.Eol)%re.

(** r"^0\d{9}$" *)
Definition pattern_local : re.pattern :=
  (re.Bol ⋅ re.Lit 48 ⋅ re.Rep re.Digit 9 9 ⋅ re.Eol)%re.

(** r"^\+\d{9,15}$" *)
Definition pattern_plus : re.pattern :=
  (re.Bol ⋅ re.Lit 43 ⋅ re.Rep re.Digit 9 15 ⋅ re.Eol)%re.

Definition is_phone_valid (phone : str) : bool :=
  let phone := strip phone in
  let patterns := [pattern_grouped; pattern_local; pattern_plus] in
  existsb (fun pattern => re.match_ pattern phone) patterns.

End WithUnicode.

(** The three shapes in the words of the specification: a digit is a
    character of the class [\d], a space one of the class [\s]. *)
Module shapes.
Section WithUnicode.
Context {U : UnicodeData}.

Definition digits (w : str) : Prop := Forall (λ c, isdecimal_char c = true) w.

Definition optional_space (w : str) : Prop :=
  w = [] ∨ ∃ c, isspace_char c = true ∧ w = [c].

(** '+', a country code of two digits, then groups of 3, 3 and 4 digits,
    with at most one space before each group. *)
Definition grouped (t : str) : Prop :=
  ∃ cc sp1 g1 sp2 g2 sp3 g3,
    t = 43%N :: cc ++ sp1 ++ g1 ++ sp2 ++ g2 ++ sp3 ++ g3
    ∧ digits cc ∧ length cc = 2%nat
    ∧ optional_space sp1 ∧ digits g1 ∧ length g1 = 3%nat
    ∧ optional_space sp2 ∧ digits g2 ∧ length g2 = 3%nat
    ∧ optional_space sp3 ∧ digits g3 ∧ length g3 = 4%nat.

(** Ten digits, the first of them '0'. *)
Definition local (t : str) : Prop :=
  length t = 10%nat ∧ digits t ∧ head t = Some 48%N.

(** '+' and then 9 to 15 digits. *)
Definition plus (t : str) : Prop :=
  ∃ ds, t = 43%N :: ds ∧ digits ds ∧ (9 ≤ length ds ≤ 15)%nat.

Definition phone (t : str) : Prop := grouped t ∨ local t ∨ plus t.

End WithUnicode.

(** The same three shapes read to the letter, to compare the code with: a
    digit is one of '0' .. '9', a space is the character U+0020, and the
    string is taken as it comes. *)
Module literal.

Definition digits (w : str) : Prop := Forall (λ c, (48 ≤ c ≤ 57)%N) w.

Definition optional_space (w : str) : Prop := w = [] ∨ w = [32%N].

Definition grouped (t : str) : Prop :=
  ∃ cc sp1 g1 sp2 g2 sp3 g3,
    t = 43%N :: cc ++ sp1 ++ g1 ++ sp2 ++ g2 ++ sp3 ++ g3
    ∧ digits cc ∧ length cc = 2%nat
    ∧ optional_space sp1 ∧ digits g1 ∧ length g1 = 3%nat
    ∧ optional_space sp2 ∧ digits g2 ∧ length g2 = 3%nat
    ∧ optional_space sp3 ∧ digits g3 ∧ length g3 = 4%nat.

Definition local (t : str) : Prop :=
  length t = 10%nat ∧ digits t ∧ head t = Some 48%N.

Definition plus (t : str) : Prop :=
  ∃ ds, t = 43%N :: ds ∧ digits ds ∧ (9 ≤ length ds ≤ 15)%nat.

Definition phone (t : str) : Prop := grouped t ∨ local t ∨ plus t.

(** The characters such a string is written in. *)
Definition alphabet (c : char) : bool :=
  ((c =? 43) || (c =? 32) || (48 <=? c) && (c <=? 57))%N.

End literal.
End shapes.

Definition normalize_card_text (text : str) : str := slice_to 200 (strip text).

(** The digits of [f"{n:,}"], from the last one: a separator after every
    third digit that has a digit behind it. *)
Fixpoint group_rev (r : str) : str :=
  match r with
  | a :: b :: c :: ((_ :: _) as rest) => a :: b :: c :: 32%N :: group_rev rest
  | _ => r
  end.

(** [f"{price:,}".replace(",", " ")] *)
Definition grouped_amount (price : Z) : str :=
  let digits := rev (group_rev (rev (str_of_N (Z.to_N (Z.abs price))))) in
  if (price <? 0)%Z then 45%N :: digits else digits.

Definition format_price (price : Z) (price_from : bool) : str :=
  let amount := grouped_amount price in
  if price_from then lit "от " ++ amount ++ lit " VND" else amount ++ lit " VND".

(** [now = now or datetime.now()]; [clock] is what [datetime.now()] reads. *)
Definition is_after_six_pm (now : option datetime.t) (clock : datetime.t) : bool :=
  let now := default clock now in
  datetime.time_ge (datetime.time_of now) (datetime.mktime 18 0 0 0).

(** [int(price * 0.5)]: the product is exact in floating point for a price
    below 2^53 in size, and [int] drops the fraction towards zero. *)
Definition half (price : Z) : Z := Z.quot price 2.

End helpers.

(** * Effects: state threaded through calls that may raise *)

(** A computation over a state [S]: it returns or raises, and in both cases
    leaves a state behind (what was done before an exception stays done). *)
Definition M (S A : Type) : Type := S → result A * S.

#[export] Instance M_ret {S} : MRet (M S) := λ A a s, (Ok a, s).

#[export] Instance M_bind {S} : MBind (M S) := λ A B k m s,
  match m s with
  | (Ok a, s') => k a s'
  | (Raise e, s') => (Raise e, s')
  end.

Definition raise {S A} (e : exn) : M S A := λ s, (Raise e, s).

Definition get {S} : M S S := λ s, (Ok s, s).

Definition put {S} (s : S) : M S unit := λ _, (Ok (), s).

(** [try: m except Exception: h] *)
Definition try_except {S A} (m : M S A) (h : M S A) : M S A := λ s,
  match m s with
  | (Raise _, s') => h s'
  | r => r
  end.

(** A value that is already a [result]. *)
Definition lift {S A} (r : result A) : M S A := λ s, (r, s).

(** * database/models.py *)

(** [created_at] is held as the number of seconds the engine's
    [CURRENT_TIMESTAMP] text stands for; the texts sort as these numbers. *)
Module Category.
Record t := mk { id : Z; name : str; created_at : Z }.
End Category.

Module Product.
Record t := mk {
  id : Z;
  category_id : Z;
  name : str;
  price : Z;
  price_from : bool;
  description : str;
  photo_file_id : str;
  is_active : bool;
  created_at : Z;
}.
End Product.

Module Order.
Record t := mk {
  id : Z;
  user_id : Z;
  username : option str;
  product_id : Z;
  price : Z;
  delivery_date : str;
  delivery_time : str;
  address : str;
  card_text : option str;
  phone : str;
  status : str;
  created_at : Z;
}.
End Order.

Module SupportMessage.
Record t := mk { id : Z; user_id : Z; username : option str; text : str; created_at : Z }.
End SupportMessage.

(** The four status labels. *)
Definition status_new : str := lit "🟡 Новый".
Definition status_in_progress : str := lit "🔵 В работе".
Definition status_completed : str := lit "🟢 Завершён".
Definition status_cancelled : str := lit "❌ Отменён".

(** * database/db.py *)

Module Database.

(** What the open connection holds: the rows of the four tables in rowid
    order, the AUTOINCREMENT counters of [sqlite_sequence], the rowid of the
    last successful insert, and the engine's clock.  Statements run one at a
    time here: the [asyncio.Lock] around the writes has nothing to order. *)
Record Connection := mkConnection {
  categories : list Category.t;
  products : list Product.t;
  orders : list Order.t;
  support_messages : list SupportMessage.t;
  seq_categories : Z;
  seq_products : Z;
  seq_orders : Z;
  seq_support_messages : Z;
  last_insert_rowid : Z;
  current_timestamp : Z;
}.

Record t := mk {
  db_path : str;
  _conn : option Connection;
}.

(** [Database(db_path)] *)
Definition __init__ (db_path : str) : t := {| db_path := db_path; _conn := None |}.

(** [self._conn.<method>] raises [AttributeError] while [_conn] is [None]. *)
Definition conn : M t Connection := λ self,
  match _conn self with
  | Some c => (Ok c, self)
  | None => (Raise AttributeError, self)
  end.

Definition set_conn (c : Connection) : M t unit := λ self,
  (Ok (), {| db_path := db_path self; _conn := Some c |}).

(** The rowid an AUTOINCREMENT table gives to a new row. *)
Definition next_rowid (seq : Z) (ids : list Z) : Z := (foldr Z.max seq ids + 1)%Z.

Definition not_initialized : exn :=
  RuntimeError (lit "Database connection is not initialized").

Definition default_categories : list str :=
  [lit "🌹 Розы"; lit "🌸 Сезонные"; lit "🎁 В коробке"; lit "💍 Свадебные";
   lit "🌿 Мини"; lit "🌈 Индивидуальный заказ"].

Definition str_eqb (a b : str) : bool := bool_decide (a = b).

Definition get_categories : M t (list Category.t) :=
  c ← conn; mret (categories c).

(** INSERT OR IGNORE INTO categories (name): a name that is already there
    breaks UNIQUE and the row is dropped.  The id the row would have had is
    used up all the same: the engine has advanced the counter of the table
    before it meets the conflict, and [cursor.lastrowid] still reads the id
    of the last row that was inserted on the connection. *)
Definition add_category (name : str) : M t Z :=
  c ← conn;
  let rowid := next_rowid (seq_categories c) (map Category.id (categories c)) in
  if existsb (λ row, str_eqb (Category.name row) name) (categories c)
  then
    set_conn {| categories := categories c; products := products c; orders := orders c;
                support_messages := support_messages c;
                seq_categories := rowid; seq_products := seq_products c;
                seq_orders := seq_orders c;
                seq_support_messages := seq_support_messages c;
                last_insert_rowid := last_insert_rowid c;
                current_timestamp := current_timestamp c |};;
    mret (last_insert_rowid c)
  else
    set_conn {| categories := categories c
                  ++ [Category.mk rowid name (current_timestamp c)];
                products := products c; orders := orders c;
                support_messages := support_messages c;
                seq_categories := rowid; seq_products := seq_products c;
                seq_orders := seq_orders c;
                seq_support_messages := seq_support_messages c;
                last_insert_rowid := rowid;
                current_timestamp := current_timestamp c |};;
    mret rowid.

Definition with_categories (c : Connection) (rows : list Category.t) : Connection :=
  {| categories := rows; products := products c; orders := orders c;
     support_messages := support_messages c;
     seq_categories := seq_categories c; seq_products := seq_products c;
     seq_orders := seq_orders c; seq_support_messages := seq_support_messages c;
     last_insert_rowid := last_insert_rowid c;
     current_timestamp := current_timestamp c |}.

Definition with_products (c : Connection) (rows : list Product.t) : Connection :=
  {| categories := categories c; products := rows; orders := orders c;
     support_messages := support_messages c;
     seq_categories := seq_categories c; seq_products := seq_products c;
     seq_orders := seq_orders c; seq_support_messages := seq_support_messages c;
     last_insert_rowid := last_insert_rowid c;
     current_timestamp := current_timestamp c |}.

Definition with_orders (c : Connection) (rows : list Order.t) : Connection :=
  {| categories := categories c; products := products c; orders := rows;
     support_messages := support_messages c;
     seq_categories := seq_categories c; seq_products := seq_products c;
     seq_orders := seq_orders c; seq_support_messages := seq_support_messages c;
     last_insert_rowid := last_insert_rowid c;
     current_timestamp := current_timestamp c |}.

Definition renamed (category_id : Z) (new_name : str) (row : Category.t) : Category.t :=
  if (Category.id row =? category_id)%Z
  then Category.mk (Category.id row) new_name (Category.created_at row)
  else row.

(** UPDATE categories SET name = ? WHERE id = ?: the statement fails, and
    changes nothing, when the row exists and another row has the name. *)
Definition rename_category (category_id : Z) (new_name : str) : M t unit :=
  c ← conn;
  if existsb (λ row, (Category.id row =? category_id)%Z) (categories c)
     && existsb (λ row, negb (Category.id row =? category_id)%Z
                        && str_eqb (Category.name row) new_name) (categories c)
  then raise IntegrityError
  else set_conn (with_categories c (map (renamed category_id new_name) (categories c))).

(** DELETE FROM categories WHERE id = ?, with foreign keys enforced: the
    products of the category go with it (ON DELETE CASCADE), unless an order
    still refers to one of them (orders.product_id has no ON DELETE action),
    in which case the statement fails and changes nothing. *)
Definition delete_category (category_id : Z) : M t unit :=
  c ← conn;
  if negb (existsb (λ row, (Category.id row =? category_id)%Z) (categories c))
  then mret ()
  else
    let doomed := filter (λ p, Product.category_id p = category_id) (products c) in
    if existsb (λ o, existsb (λ p, (Product.id p =? Order.product_id o)%Z) doomed) (orders c)
    then raise IntegrityError
    else set_conn
      (with_products
         (with_categories c
            (filter (λ row, Category.id row ≠ category_id) (categories c)))
         (filter (λ p, Product.category_id p ≠ category_id) (products c))).

(** A column of [products] with its new value: one keyword argument of
    [update_product].  (Keywords that name no column, or carry a value of
    another type, are outside this model; Python keeps keywords distinct.) *)
Inductive field :=
  | set_category_id (v : Z)
  | set_name (v : str)
  | set_price (v : Z)
  | set_price_from (v : bool)
  | set_description (v : str)
  | set_photo_file_id (v : str)
  | set_is_active (v : bool).

Definition assign (p : Product.t) (f : field) : Product.t :=
  match f with
  | set_category_id v =>
    Product.mk (Product.id p) v (Product.name p) (Product.price p) (Product.price_from p)
      (Product.description p) (Product.photo_file_id p) (Product.is_active p)
      (Product.created_at p)
  | set_name v =>
    Product.mk (Product.id p) (Product.category_id p) v (Product.price p)
      (Product.price_from p) (Product.description p) (Product.photo_file_id p)
      (Product.is_active p) (Product.created_at p)
  | set_price v =>
    Product.mk (Product.id p) (Product.category_id p) (Product.name p) v
      (Product.price_from p) (Product.description p) (Product.photo_file_id p)
      (Product.is_active p) (Product.created_at p)
  | set_price_from v =>
    Product.mk (Product.id p) (Product.category_id p) (Product.name p) (Product.price p) v
      (Product.description p) (Product.photo_file_id p) (Product.is_active p)
      (Product.created_at p)
  | set_description v =>
    Product.mk (Product.id p) (Product.category_id p) (Product.name p) (Product.price p)
      (Product.price_from p) v (Product.photo_file_id p) (Product.is_active p)
      (Product.created_at p)
  | set_photo_file_id v =>
    Product.mk (Product.id p) (Product.category_id p) (Product.name p) (Product.price p)
      (Product.price_from p) (Product.description p) v (Product.is_active p)
      (Product.created_at p)
  | set_is_active v =>
    Product.mk (Product.id p) (Product.category_id p) (Product.name p) (Product.price p)
      (Product.price_from p) (Product.description p) (Product.photo_file_id p) v
      (Product.created_at p)
  end.

Definition category_exists (c : Connection) (category_id : Z) : bool :=
  existsb (λ row, (Category.id row =? category_id)%Z) (categories c).

Definition product_exists (c : Connection) (product_id : Z) : bool :=
  existsb (λ row, (Product.id row =? product_id)%Z) (products c).

(** INSERT INTO products: the category must exist (foreign key). *)
Definition add_product (category_id : Z) (name : str) (price : Z) (price_from : bool)
    (description photo_file_id : str) (is_active : bool) : M t Z :=
  c ← conn;
  if negb (category_exists c category_id) then raise IntegrityError
  else
    let rowid := next_rowid (seq_products c) (map Product.id (products c)) in
    set_conn {| categories := categories c;
                products := products c
                  ++ [Product.mk rowid category_id name price price_from description
                        photo_file_id is_active (current_timestamp c)];
                orders := orders c; support_messages := support_messages c;
                seq_categories := seq_categories c; seq_products := rowid;
                seq_orders := seq_orders c;
                seq_support_messages := seq_support_messages c;
                last_insert_rowid := rowid;
                current_timestamp := current_timestamp c |};;
    mret rowid.

(** UPDATE products SET ... WHERE id = ?; nothing at all without fields.  A
    new category_id must name a category (foreign key). *)
Definition update_product (product_id : Z) (fields : list field) : M t unit :=
  match fields with
  | [] => mret ()
  | _ =>
    c ← conn;
    let updated row := foldl assign row fields in
    if existsb (λ f, match f with set_category_id _ => true | _ => false end) fields
       && existsb (λ row, (Product.id row =? product_id)%Z
                          && negb (category_exists c (Product.category_id (updated row))))
            (products c)
    then raise IntegrityError
    else set_conn (with_products c
           (map (λ row, if (Product.id row =? product_id)%Z then updated row else row)
              (products c)))
  end.

(** DELETE FROM products WHERE id = ?: fails while an order refers to it. *)
Definition delete_product (product_id : Z) : M t unit :=
  c ← conn;
  if product_exists c product_id
     && existsb (λ o, (Order.product_id o =? product_id)%Z) (orders c)
  then raise IntegrityError
  else set_conn (with_products c
         (filter (λ row, Product.id row ≠ product_id) (products c))).

(** ORDER BY created_at DESC: an insertion sort that keeps rows of equal
    time in table order (the engine promises no order among them). *)
Fixpoint insert_desc {A} (key : A → Z) (x : A) (l : list A) : list A :=
  match l with
  | [] => [x]
  | y :: l' => if (key y <=? key x)%Z then x :: l else y :: insert_desc key x l'
  end.

Definition order_by_desc {A} (key : A → Z) (l : list A) : list A :=
  foldr (insert_desc key) [] l.

(** LIMIT ? OFFSET ?: a negative limit is no limit, a negative offset is 0. *)
Definition limit_offset {A} (limit offset : Z) (l : list A) : list A :=
  let rest := skipn (Z.to_nat offset) l in
  if (limit <? 0)%Z then rest else firstn (Z.to_nat limit) rest.

Definition active_in (category_id : Z) (p : Product.t) : bool :=
  (Product.category_id p =? category_id)%Z && Product.is_active p.

Definition get_products_by_category (category_id limit offset : Z) : M t (list Product.t) :=
  c ← conn;
  mret (limit_offset limit offset
          (order_by_desc Product.created_at (List.filter (active_in category_id) (products c)))).

Definition count_products_in_category (category_id : Z) : M t Z :=
  c ← conn;
  mret (Z.of_nat (length (List.filter (active_in category_id) (products c)))).

Definition get_product (product_id : Z) : M t (option Product.t) :=
  c ← conn;
  mret (List.find (λ row, (Product.id row =? product_id)%Z) (products c)).

(** INSERT INTO orders: the product must exist (foreign key). *)
Definition create_order (user_id : Z) (username : option str) (product_id price : Z)
    (delivery_date delivery_time address : str) (card_text : option str) (phone : str)
    (status : str) : M t Z :=
  c ← conn;
  if negb (product_exists c product_id) then raise IntegrityError
  else
    let rowid := next_rowid (seq_orders c) (map Order.id (orders c)) in
    set_conn {| categories := categories c; products := products c;
                orders := orders c
                  ++ [Order.mk rowid user_id username product_id price delivery_date
                        delivery_time address card_text phone status
                        (current_timestamp c)];
                support_messages := support_messages c;
                seq_categories := seq_categories c; seq_products := seq_products c;
                seq_orders := rowid;
                seq_support_messages := seq_support_messages c;
                last_insert_rowid := rowid;
                current_timestamp := current_timestamp c |};;
    mret rowid.

Definition set_status (status : str) (o : Order.t) : Order.t :=
  Order.mk (Order.id o) (Order.user_id o) (Order.username o) (Order.product_id o)
    (Order.price o) (Order.delivery_date o) (Order.delivery_time o) (Order.address o)
    (Order.card_text o) (Order.phone o) status (Order.created_at o).

Definition update_order_status (order_id : Z) (status : str) : M t unit :=
  c ← conn;
  set_conn (with_orders c
    (map (λ o, if (Order.id o =? order_id)%Z then set_status status o else o) (orders c))).

Definition get_user_orders (user_id limit : Z) : M t (list Order.t) :=
  c ← conn;
  mret (limit_offset limit 0
          (order_by_desc Order.created_at
             (List.filter (λ o, (Order.user_id o =? user_id)%Z) (orders c)))).

Definition get_last_completed_orders (user_id limit : Z) : M t (list Order.t) :=
  c ← conn;
  mret (limit_offset limit 0
          (order_by_desc Order.created_at
             (List.filter (λ o, (Order.user_id o =? user_id)%Z
                                && str_eqb (Order.status o) status_completed) (orders c)))).

Definition get_order (order_id : Z) : M t (option Order.t) :=
  c ← conn;
  mret (List.find (λ o, (Order.id o =? order_id)%Z) (orders c)).

Definition save_support_message (user_id : Z) (username : option str) (text : str) : M t Z :=
  c ← conn;
  let rowid := next_rowid (seq_support_messages c)
                 (map SupportMessage.id (support_messages c)) in
  set_conn {| categories := categories c; products := products c; orders := orders c;
              support_messages := support_messages c
                ++ [SupportMessage.mk rowid user_id username text (current_timestamp c)];
              seq_categories := seq_categories c; seq_products := seq_products c;
              seq_orders := seq_orders c; seq_support_messages := rowid;
              last_insert_rowid := rowid;
              current_timestamp := current_timestamp c |};;
  mret rowid.

(** [for name in defaults: await self.add_category(name)] *)
Fixpoint add_categories (names : list str) : M t unit :=
  match names with
  | [] => mret ()
  | name :: rest => add_category name;; add_categories rest
  end.

(** The CREATE TABLE IF NOT EXISTS statements change no row; then the
    default categories are seeded into an empty table. *)
Definition create_schema : M t unit :=
  self ← get;
  match _conn self with
  | None => raise not_initialized
  | Some _ =>
    rows ← get_categories;
    match rows with
    | [] => add_categories default_categories
    | _ => mret ()
    end
  end.

(** [connect] opens the file at [db_path]; [stored] is what the file holds
    (empty tables for a file that is new). *)
Definition connect (stored : Connection) : M t unit := set_conn stored.

Definition close : M t unit := λ self,
  (Ok (), {| db_path := db_path self; _conn := None |}).

(** Every operation on categories, products, orders and support messages,
    with its arguments. *)
Inductive operation :=
  | op_create_schema
  | op_add_category (name : str)
  | op_rename_category (category_id : Z) (new_name : str)
  | op_delete_category (category_id : Z)
  | op_get_categories
  | op_add_product (category_id : Z) (name : str) (price : Z) (price_from : bool)
      (description photo_file_id : str) (is_active : bool)
  | op_update_product (product_id : Z) (fields : list field)
  | op_delete_product (product_id : Z)
  | op_get_products_by_category (category_id limit offset : Z)
  | op_count_products_in_category (category_id : Z)
  | op_get_product (product_id : Z)
  | op_create_order (user_id : Z) (username : option str) (product_id price : Z)
      (delivery_date delivery_time address : str) (card_text : option str) (phone : str)
      (status : str)
  | op_update_order_status (order_id : Z) (status : str)
  | op_get_user_orders (user_id limit : Z)
  | op_get_last_completed_orders (user_id limit : Z)
  | op_get_order (order_id : Z)
  | op_save_support_message (user_id : Z) (username : option str) (text : str).

(** What a call returned, or the exception it raised, with its value
    forgotten. *)
Definition outcome {A} (r : result A * t) : result unit * t :=
  match r with
  | (Ok _, self) => (Ok (), self)
  | (Raise e, self) => (Raise e, self)
  end.

Definition call (op : operation) (self : t) : result unit * t :=
  match op with
  | op_create_schema => outcome (create_schema self)
  | op_add_category name => outcome (add_category name self)
  | op_rename_category i n => outcome (rename_category i n self)
  | op_delete_category i => outcome (delete_category i self)
  | op_get_categories => outcome (get_categories self)
  | op_add_product c n p pf d ph a => outcome (add_product c n p pf d ph a self)
  | op_update_product i fs => outcome (update_product i fs self)
  | op_delete_product i => outcome (delete_product i self)
  | op_get_products_by_category c l o => outcome (get_products_by_category c l o self)
  | op_count_products_in_category c => outcome (count_products_in_category c self)
  | op_get_product i => outcome (get_product i self)
  | op_create_order u un p pr dd dt a ct ph st =>
    outcome (create_order u un p pr dd dt a ct ph st self)
  | op_update_order_status i st => outcome (update_order_status i st self)
  | op_get_user_orders u l => outcome (get_user_orders u l self)
  | op_get_last_completed_orders u l => outcome (get_last_completed_orders u l self)
  | op_get_order i => outcome (get_order i self)
  | op_save_support_message u un tx => outcome (save_support_message u un tx self)
  end.

(** The operations that write to [categories]. *)
Definition touches_categories (op : operation) : bool :=
  match op with
  | op_create_schema | op_add_category _ | op_rename_category _ _ | op_delete_category _ =>
    true
  | _ => false
  end.

(** A run of operations, one after the other; an operation that raises
    leaves the state it reached and the next one goes on from there. *)
Definition perform (ops : list operation) (self : t) : t :=
  foldl (λ self op, snd (call op self)) self ops.

(** The rows of [categories] as an open connection sees them. *)
Definition category_rows (self : t) : list Category.t :=
  match _conn self with
  | Some c => categories c
  | None => []
  end.

(** The constraints of the table: id INTEGER PRIMARY KEY, name UNIQUE. *)
Definition category_ids_distinct (self : t) : Prop :=
  NoDup (map Category.id (category_rows self)).

Definition category_names_distinct (self : t) : Prop :=
  NoDup (map Category.name (category_rows self)).

End Database.

(** * config.py *)

Module Settings.
Record t := mk {
  bot_token : str;
  admin_ids : list Z;
  db_path : str;
  admin_chat_id : option Z;
  timezone : str;
}.
End Settings.

(** * What the chat platform hands to a handler and takes from it *)

Module User.
Record t := mk { id : Z; username : option str }.
End User.

(** A coordinate is kept as the text that formatting the float gives. *)
Module Location.
Record t := mk { latitude : str; longitude : str }.
End Location.

Module Contact.
Record t := mk { phone_number : str }.
End Contact.

Module Message.
Record t := mk {
  from_user : User.t;
  text : option str;
  location : option Location.t;
  contact : option Contact.t;
}.
End Message.

Module CallbackQuery.
Record t := mk { from_user : User.t; data : str }.
End CallbackQuery.

Module InlineKeyboardButton.
Record t := mk { text : str; callback_data : str }.
End InlineKeyboardButton.

Module KeyboardButton.
Record t := mk { text : str; request_contact : bool; request_location : bool }.
End KeyboardButton.

Inductive markup :=
  | InlineKeyboardMarkup (inline_keyboard : list (list InlineKeyboardButton.t))
  | ReplyKeyboardMarkup (keyboard : list (list KeyboardButton.t)).

(** What went out, oldest first.  An answer into the chat of the event is
    taken to arrive; a message the bot sends to another chat may fail (see
    [bot.send_message]). *)
Inductive sent :=
  | answer (text : str) (reply_markup : option markup)      (* to the chat of the event *)
  | answer_photo (photo caption : str) (reply_markup : option markup)
  | cb_answer (text : option str) (show_alert : bool)
  | send_message (chat_id : Z) (text : str) (reply_markup : option markup).

(** * states/order.py, states/admin.py *)

Module OrderStates.
Inductive t :=
  | waiting_for_delivery_date
  | waiting_for_delivery_time
  | waiting_for_address
  | waiting_for_card_text
  | waiting_for_phone
  | waiting_for_confirmation.
End OrderStates.

Module AdminAddProductStates.
Inductive t :=
  | waiting_for_photo
  | waiting_for_name
  | waiting_for_category
  | waiting_for_price
  | waiting_for_description
  | waiting_for_confirmation.
End AdminAddProductStates.

Module AdminCategoryStates.
Inductive t :=
  | waiting_for_action
  | waiting_for_name
  | waiting_for_new_name.
End AdminCategoryStates.

Inductive State :=
  | order_state (s : OrderStates.t)
  | admin_add_product_state (s : AdminAddProductStates.t)
  | admin_category_state (s : AdminCategoryStates.t).

(** A value of the data bag of a conversation. *)
Inductive value :=
  | v_none
  | v_int (z : Z)
  | v_bool (b : bool)
  | v_str (s : str).

(** * The world a handler runs in *)

(** The storage, the conversation context that aiogram binds to the chat and
    user of the event ([FSMContext]: a state and a data bag), the clock, the
    chats the bot cannot write to, and what was sent. *)
Record World := mkWorld {
  db : Database.t;
  fsm_state : option State;
  fsm_data : gmap string value;
  clock : datetime.t;
  unreachable : Z → bool;
  outbox : list sent;
}.

Definition put_db (w : World) (d : Database.t) : World :=
  mkWorld d (fsm_state w) (fsm_data w) (clock w) (unreachable w) (outbox w).

Definition put_outbox (w : World) (out : list sent) : World :=
  mkWorld (db w) (fsm_state w) (fsm_data w) (clock w) (unreachable w) out.

Definition on_db {A} (m : M Database.t A) : M World A := λ w,
  let '(r, db') := m (db w) in
  (r, mkWorld db' (fsm_state w) (fsm_data w) (clock w) (unreachable w) (outbox w)).

Definition emit (x : sent) : M World unit := λ w,
  (Ok (), mkWorld (db w) (fsm_state w) (fsm_data w) (clock w) (unreachable w)
            (outbox w ++ [x])).

Module state.

Definition update_data (items : list (string * value)) : M World unit := λ w,
  (Ok (), mkWorld (db w) (fsm_state w)
            (foldl (λ d kv, <[kv.1 := kv.2]> d) (fsm_data w) items)
            (clock w) (unreachable w) (outbox w)).

Definition set_data (d : gmap string value) : M World unit := λ w,
  (Ok (), mkWorld (db w) (fsm_state w) d (clock w) (unreachable w) (outbox w)).

Definition get_data : M World (gmap string value) := λ w, (Ok (fsm_data w), w).

Definition set_state (st : State) : M World unit := λ w,
  (Ok (), mkWorld (db w) (Some st) (fsm_data w) (clock w) (unreachable w) (outbox w)).

Definition clear : M World unit := λ w,
  (Ok (), mkWorld (db w) None ∅ (clock w) (unreachable w) (outbox w)).

End state.

Module bot.

(** A request to a chat the bot cannot write to raises. *)
Definition send_message (chat_id : Z) (text : str) (reply_markup : option markup)
    : M World unit := λ w,
  if unreachable w chat_id then (Raise TelegramAPIError, w)
  else emit (send_message chat_id text reply_markup) w.

End bot.

(** [data[key]] and [data.get(key)] *)
Definition item (d : gmap string value) (key : string) : M World value :=
  match d !! key with
  | Some v => mret v
  | None => raise (KeyError key)
  end.

Definition item_get (d : gmap string value) (key : string) : value :=
  default v_none (d !! key).

(** The handlers write integers under the integer keys and strings under
    the string keys; a value of another type where one of these is needed
    is reported as a [TypeError]. *)
Definition as_int (v : value) : M World Z :=
  match v with
  | v_int z => mret z
  | _ => raise TypeError
  end.

Definition as_str (v : value) : M World str :=
  match v with
  | v_str s => mret s
  | _ => raise TypeError
  end.

Definition as_opt_str (v : value) : M World (option str) :=
  match v with
  | v_str s => mret (Some s)
  | v_none => mret None
  | _ => raise TypeError
  end.

(** [f"{v}"] *)
Definition fmt (v : value) : str :=
  match v with
  | v_none => lit "None"
  | v_int z => str_of_Z z
  | v_bool b => if b then lit "True" else lit "False"
  | v_str s => s
  end.

(** [v or alt] for a string or [None]: the empty string counts as absent. *)
Definition or_else (v : option str) (alt : str) : str :=
  match v with
  | Some (_ :: _ as s) => s
  | _ => alt
  end.

(** [date.today()] *)
Definition date_today : M World datetime.date := λ w, (Ok (datetime.date_of (clock w)), w).

(** * keyboards/reply.py *)

Module reply.

Definition main_menu_kb : markup :=
  ReplyKeyboardMarkup
    [[KeyboardButton.mk (lit "🛍 Магазин") false false;
      KeyboardButton.mk (lit "📦 Заказы") false false];
     [KeyboardButton.mk (lit "🔁 Повторить заказ") false false;
      KeyboardButton.mk (lit "💬 Поддержка") false false]].

Definition phone_request_kb : markup :=
  ReplyKeyboardMarkup [[KeyboardButton.mk (lit "📱 Отправить мой номер") true false]].

Definition location_request_kb : markup :=
  ReplyKeyboardMarkup [[KeyboardButton.mk (lit "📍 Отправить геолокацию") false true]].

End reply.

(** * keyboards/inline.py *)

Module inline.

Definition button (text callback_data : str) : InlineKeyboardButton.t :=
  InlineKeyboardButton.mk text callback_data.

(** [[l[i : i + n] for i in range(0, len(l), n)]] *)
Fixpoint chunks {A} (fuel n : nat) (l : list A) : list (list A) :=
  match fuel, l with
  | S fuel', _ :: _ => firstn n l :: chunks fuel' n (skipn n l)
  | _, _ => []
  end.

Definition products_navigation_kb (category_id page : Z) (has_prev has_next : bool) : markup :=
  let row :=
    (if has_prev
     then [button (lit "⬅️ Назад")
             (lit "prev_page:" ++ str_of_Z category_id ++ lit ":" ++ str_of_Z (page - 1))]
     else [])
    ++ (if has_next
        then [button (lit "➡️ Далее")
                (lit "next_page:" ++ str_of_Z category_id ++ lit ":" ++ str_of_Z (page + 1))]
        else []) in
  InlineKeyboardMarkup
    ((match row with [] => [] | _ => [row] end)
     ++ [[button (lit "📂 К категориям") (lit "back_to_categories");
          button (lit "🏠 Главное меню") (lit "main_menu")]]).

Definition product_list_action_kb (product_id category_id page : Z) : markup :=
  InlineKeyboardMarkup
    [[button (lit "✅ Заказать")
        (lit "product_view:" ++ str_of_Z product_id ++ lit ":" ++ str_of_Z category_id
         ++ lit ":" ++ str_of_Z page)]].

(** One button of the calendar grid: [today + timedelta(days=i)]. *)
Definition day_button (today : datetime.date) (i : nat) : result InlineKeyboardButton.t :=
  target ← datetime.add_days today (Z.of_nat i);
  Ok (button (datetime.strftime_d_m target) (lit "date_selected:" ++ datetime.isoformat target)).

(** [today] is what [date.today()] reads when the keyboard is built. *)
Definition order_date_kb (today : datetime.date) (include_today : bool) : result markup :=
  let row :=
    (if include_today then [button (lit "🚀 Сегодня") (lit "date_selected:today")] else [])
    ++ [button (lit "📆 Завтра") (lit "date_selected:tomorrow")] in
  days ← traverse (day_button today) (seq 0 14);
  Ok (InlineKeyboardMarkup
        ([row] ++ chunks (length days) 7 days
         ++ [[button (lit "❌ Отменить заказ") (lit "order_cancel")]])).

Definition order_time_kb : markup :=
  InlineKeyboardMarkup
    [[button (lit "09:00 - 12:00") (lit "time_selected:09:00-12:00")];
     [button (lit "12:00 - 15:00") (lit "time_selected:12:00-15:00")];
     [button (lit "15:00 - 18:00") (lit "time_selected:15:00-18:00")];
     [button (lit "18:00 - 21:00") (lit "time_selected:18:00-21:00")];
     [button (lit "⬅️ Назад к дате") (lit "back_to_date")];
     [button (lit "❌ Отменить") (lit "order_cancel")]].

Definition card_text_kb : markup :=
  InlineKeyboardMarkup
    [[button (lit "✍️ Написать текст") (lit "card_write")];
     [button (lit "❌ Без открытки") (lit "card_skip")];
     [button (lit "⬅️ Назад") (lit "card_back")]].

Definition categories_kb (categories : list Category.t) : markup :=
  InlineKeyboardMarkup
    (map (λ category,
            [button (Category.name category)
               (lit "category:" ++ str_of_Z (Category.id category))]) categories
     ++ [[button (lit "🏠 Главное меню") (lit "main_menu")]]).

(** Actions on the detailed product card. *)
Definition product_detail_kb (product_id category_id page : Z) : markup :=
  InlineKeyboardMarkup
    [[button (lit "✅ Заказать")
        (lit "order_start:" ++ str_of_Z product_id ++ lit ":" ++ str_of_Z category_id
         ++ lit ":" ++ str_of_Z page)];
     [button (lit "⬅️ Назад к товарам")
        (lit "back_to_products:" ++ str_of_Z category_id ++ lit ":" ++ str_of_Z page)]].

Definition back_to_categories_kb : markup :=
  InlineKeyboardMarkup [[button (lit "📂 К категориям") (lit "back_to_categories")]].

Definition support_menu_kb : markup :=
  InlineKeyboardMarkup
    [[button (lit "💬 Написать флористу") (lit "contact_florist")];
     [button (lit "🚚 Условия доставки") (lit "delivery_info")];
     [button (lit "💳 Способы оплаты") (lit "payment_info")];
     [button (lit "⏰ Время работы") (lit "working_hours")];
     [button (lit "🏠 Главное меню") (lit "main_menu")]].

Definition support_faq_kb : markup :=
  InlineKeyboardMarkup [[button (lit "🏠 Главное меню") (lit "main_menu")]].

Definition admin_main_menu_kb : markup :=
  InlineKeyboardMarkup
    [[button (lit "➕ Добавить товар") (lit "admin:add_product")];
     [button (lit "✏️ Редактировать товар") (lit "admin:edit_product")];
     [button (lit "🗑 Удалить товар") (lit "admin:delete_product")];
     [button (lit "📂 Управление категориями") (lit "admin:categories")];
     [button (lit "📊 Статистика") (lit "admin:stats")];
     [button (lit "📦 Все заказы") (lit "admin:orders")];
     [button (lit "🏠 Главное меню") (lit "main_menu")]].

Definition admin_categories_kb (categories : list Category.t) : markup :=
  InlineKeyboardMarkup
    (map (λ cat,
            [button (Category.name cat) (lit "admin:category:" ++ str_of_Z (Category.id cat))])
       categories
     ++ [[button (lit "➕ Добавить категорию") (lit "admin:add_category");
          button (lit "⬅️ Назад") (lit "admin:back")]]).

Definition orders_list_nav_kb (order_id : Z) : markup :=
  InlineKeyboardMarkup
    [[button (lit "📋 Детали") (lit "order_details:" ++ str_of_Z order_id)];
     [button (lit "🏠 Главное меню") (lit "main_menu")]].

(** Every button of an inline keyboard. *)
Definition buttons (kb : markup) : list InlineKeyboardButton.t :=
  match kb with
  | InlineKeyboardMarkup rows => concat rows
  | ReplyKeyboardMarkup _ => []
  end.

End inline.

(** * Pieces shared by the handlers *)

Definition nl : str := [10%N].

(** [for x in l: body(x)] *)
Fixpoint for_each {S A} (l : list A) (body : A → M S unit) : M S unit :=
  match l with
  | [] => mret ()
  | x :: l' => body x;; for_each l' body
  end.

(** [parts[i]] *)
Definition index {S} (parts : list str) (i : nat) : M S str :=
  match parts !! i with
  | Some x => mret x
  | None => raise IndexError
  end.

(** [message.text.strip()] and the like: [None] has no attributes. *)
Definition text_of {S} (text : option str) : M S str :=
  match text with
  | Some x => mret x
  | None => raise AttributeError
  end.

(** [v or alt] inside an f-string. *)
Definition value_or (v : value) (alt : str) : str :=
  match v with
  | v_none | v_str [] | v_int 0 | v_bool false => alt
  | _ => fmt v
  end.

Definition as_bool (v : value) : M World bool :=
  match v with
  | v_bool b => mret b
  | _ => raise TypeError
  end.

(** [sep.join(l)] *)
Fixpoint join (sep : str) (l : list str) : str :=
  match l with
  | [] => []
  | [x] => x
  | x :: rest => x ++ sep ++ join sep rest
  end.

(** [l[-n:]] for a positive [n] *)
Definition last_n {A} (n : nat) (l : list A) : list A := skipn (length l - n) l.

(** * utils/notifications.py *)

Definition notify_admins (admin_ids : list Z) (text : str) (reply_markup : option markup)
    : M World unit :=
  for_each admin_ids
    (λ admin_id, try_except (bot.send_message admin_id text reply_markup) (mret ())).

(** * handlers/catalog.py *)

Module catalog.
Section WithUnicode.
Context {U : UnicodeData}.
#[local] Open Scope Z_scope.

Definition PAGE_SIZE : Z := 5.

(** [math.ceil(a / b)]: the quotient is a float, and exact enough for the
    ceiling to be the integer one while [a] stays below 2^53. *)
Definition ceil_div (a b : Z) : Z := - ((- a) / b).

(** The three kinds of message a page is made of. *)
Definition page_header (categories : list Category.t) (category_id page total_pages : Z) : sent :=
  let category_name :=
    match List.find (λ c, Category.id c =? category_id) categories with
    | Some c => Category.name c
    | None => lit "Категория"
    end in
  answer
    (lit "Товары в категории " ++ category_name ++ lit " (страница " ++ str_of_Z page
     ++ lit " из " ++ str_of_Z total_pages ++ lit ")")
    None.

Definition product_card (category_id page : Z) (product : Product.t) : sent :=
  let caption :=
    Product.name product ++ nl ++ lit "Цена: "
    ++ helpers.format_price (Product.price product) (Product.price_from product)
    ++ nl ++ nl ++ Product.description product in
  answer_photo (Product.photo_file_id product) caption
    (Some (inline.product_list_action_kb (Product.id product) category_id page)).

Definition page_navigation (category_id page total_pages : Z) : sent :=
  let has_prev := 1 <? page in
  let has_next := page <? total_pages in
  answer (lit "Навигация по товарам:")
    (Some (inline.products_navigation_kb category_id page has_prev has_next)).

Definition send_products_page (category_id page : Z) : M World unit :=
  total_products ← on_db (Database.count_products_in_category category_id);
  let total_pages := Z.max 1 (ceil_div total_products PAGE_SIZE) in
  let page := Z.min (Z.max 1 page) total_pages in
  let offset := (page - 1) * PAGE_SIZE in
  products ← on_db (Database.get_products_by_category category_id PAGE_SIZE offset);
  categories ← on_db Database.get_categories;
  emit (page_header categories category_id page total_pages);;
  for_each products (λ product, emit (product_card category_id page product));;
  emit (page_navigation category_id page total_pages).

(** The handler of the callbacks that start with "order_start:". *)
Definition order_start (cb : CallbackQuery.t) : M World unit :=
  match split 58 (CallbackQuery.data cb) with
  | [_; product_id_str; category_id_str; page_str] =>
    product_id ← lift (int product_id_str);
    product ← on_db (Database.get_product product_id);
    match product with
    | None => emit (cb_answer (Some (lit "Товар не найден")) true)
    | Some product =>
      category_id ← lift (int category_id_str);
      category_page ← lift (int page_str);
      state.update_data
        [("product_id"%string, v_int product_id);
         ("product_price"%string, v_int (Product.price product));
         ("product_name"%string, v_str (Product.name product));
         ("category_id"%string, v_int category_id);
         ("category_page"%string, v_int category_page)];;
      w ← get;
      let include_today := negb (helpers.is_after_six_pm None (clock w)) in
      today ← date_today;
      kb ← lift (inline.order_date_kb today include_today);
      emit (answer (lit "📅 Выберите дату доставки:") (Some kb));;
      state.set_state (order_state OrderStates.waiting_for_delivery_date);;
      emit (cb_answer None false)
    end
  | _ => raise ValueError
  end.

(** A message with the text "🛍 Магазин". *)
Definition show_categories (message : Message.t) : M World unit :=
  categories ← on_db Database.get_categories;
  emit (answer (lit "Выберите категорию:") (Some (inline.categories_kb categories))).

(** The callback "back_to_categories". *)
Definition cb_back_to_categories (cb : CallbackQuery.t) : M World unit :=
  categories ← on_db Database.get_categories;
  emit (answer (lit "Категории:") (Some (inline.categories_kb categories)));;
  emit (cb_answer None false).

(** Callbacks that start with "category:". *)
Definition open_category (cb : CallbackQuery.t) : M World unit :=
  match split 58 (CallbackQuery.data cb) with
  | [_; category_id_str] =>
    category_id ← lift (int category_id_str);
    send_products_page category_id 1;;
    emit (cb_answer None false)
  | _ => raise ValueError
  end.

(** Callbacks that start with "next_page:" or "prev_page:". *)
Definition paginate_products (cb : CallbackQuery.t) : M World unit :=
  match split 58 (CallbackQuery.data cb) with
  | [_; category_id_str; page_str] =>
    category_id ← lift (int category_id_str);
    page ← lift (int page_str);
    send_products_page category_id page;;
    emit (cb_answer None false)
  | _ => raise ValueError
  end.

(** Callbacks that start with "back_to_products:". *)
Definition back_to_products (cb : CallbackQuery.t) : M World unit :=
  match split 58 (CallbackQuery.data cb) with
  | [_; category_id_str; page_str] =>
    category_id ← lift (int category_id_str);
    page ← lift (int page_str);
    send_products_page category_id page;;
    emit (cb_answer None false)
  | _ => raise ValueError
  end.

(** Callbacks that start with "product_view:". *)
Definition product_view (cb : CallbackQuery.t) : M World unit :=
  match split 58 (CallbackQuery.data cb) with
  | [_; product_id_str; category_id_str; page_str] =>
    product_id ← lift (int product_id_str);
    product ← on_db (Database.get_product product_id);
    match product with
    | None => emit (cb_answer (Some (lit "Товар не найден")) true)
    | Some product =>
      let caption :=
        Product.name product ++ nl ++ lit "Цена: "
        ++ helpers.format_price (Product.price product) (Product.price_from product)
        ++ nl ++ nl ++ Product.description product in
      category_id ← lift (int category_id_str);
      page ← lift (int page_str);
      emit (answer_photo (Product.photo_file_id product) caption
              (Some (inline.product_detail_kb (Product.id product) category_id page)));;
      emit (cb_answer None false)
    end
  | _ => raise ValueError
  end.

(** The callback "main_menu". *)
Definition to_main_menu (cb : CallbackQuery.t) : M World unit :=
  emit (answer (lit "Главное меню") (Some reply.main_menu_kb));;
  emit (cb_answer None false).

End WithUnicode.
End catalog.

(** * handlers/orders.py *)

Module orders.
Section WithUnicode.
Context {U : UnicodeData}.
#[local] Open Scope Z_scope.

(** In state waiting_for_delivery_date, callbacks that start with
    "date_selected:". *)
Definition date_selected (cb : CallbackQuery.t) : M World unit :=
  value ← index (split1 58 (CallbackQuery.data cb)) 1;
  today ← date_today;
  selected ←
    (if Database.str_eqb value (lit "today") then mret today
     else if Database.str_eqb value (lit "tomorrow") then lift (datetime.add_days today 1)
     else lift (datetime.fromisoformat value));
  state.update_data [("delivery_date"%string, v_str (datetime.isoformat selected))];;
  emit (answer (lit "⏰ Выберите время доставки:") (Some inline.order_time_kb));;
  state.set_state (order_state OrderStates.waiting_for_delivery_time);;
  emit (cb_answer None false).

(** In state waiting_for_delivery_time, callbacks that start with
    "time_selected:". *)
Definition time_selected (cb : CallbackQuery.t) : M World unit :=
  slot ← index (split1 58 (CallbackQuery.data cb)) 1;
  state.update_data [("delivery_time"%string, v_str slot)];;
  emit (answer (lit "📍 Укажите адрес доставки:") (Some reply.location_request_kb));;
  state.set_state (order_state OrderStates.waiting_for_address);;
  emit (cb_answer None false).

(** In state waiting_for_address, a message with a location. *)
Definition address_location (message : Message.t) : M World unit :=
  match Message.location message with
  | None => raise AttributeError
  | Some loc =>
    let address_text :=
      lit "geo:" ++ Location.latitude loc ++ lit "," ++ Location.longitude loc in
    state.update_data [("address"%string, v_str address_text)];;
    emit (answer (lit "Укажите квартиру/офис/этаж/домофон текстом.") None)
  end.

(** In state waiting_for_address, a message with text. *)
Definition address_text (message : Message.t) : M World unit :=
  text ← text_of (Message.text message);
  if (length (strip text) <? 10)%nat
  then emit (answer (lit "Пожалуйста, укажите полный адрес (минимум 10 символов).") None)
  else
    state.update_data [("address"%string, v_str (strip text))];;
    emit (answer (lit "💌 Хотите добавить открытку?") (Some inline.card_text_kb));;
    state.set_state (order_state OrderStates.waiting_for_card_text).

Definition ask_phone : M World unit :=
  state.set_state (order_state OrderStates.waiting_for_phone);;
  emit (answer (lit "📞 Укажите контактный номер для связи:") (Some reply.phone_request_kb)).

(** In state waiting_for_card_text, the callback "card_skip". *)
Definition card_skip (cb : CallbackQuery.t) : M World unit :=
  state.update_data [("card_text"%string, v_none)];;
  ask_phone;;
  emit (cb_answer None false).

(** In state waiting_for_card_text, a message with text. *)
Definition card_text (message : Message.t) : M World unit :=
  raw ← text_of (Message.text message);
  let text := helpers.normalize_card_text raw in
  state.update_data [("card_text"%string, v_str text)];;
  emit (answer (lit "Ваша открытка:" ++ nl ++ nl ++ text ++ nl ++ nl ++ lit "Всё верно?") None);;
  ask_phone.

Definition create_confirmation_kb : markup :=
  InlineKeyboardMarkup
    [[inline.button (lit "✅ Подтвердить заказ") (lit "order_confirm")];
     [inline.button (lit "✏️ Изменить") (lit "order_edit")];
     [inline.button (lit "❌ Отменить заказ") (lit "order_cancel")]].

Definition show_summary : M World unit :=
  data ← state.get_data;
  let product_name := fmt (default (v_str (lit "Букет")) (data !! "product_name"%string)) in
  price ← as_int (default (v_int 0) (data !! "product_price"%string));
  let delivery_date := fmt (item_get data "delivery_date") in
  let delivery_time := fmt (item_get data "delivery_time") in
  let address := fmt (item_get data "address") in
  let card_text := value_or (item_get data "card_text") (lit "Без открытки") in
  let phone := fmt (item_get data "phone") in
  let prepayment := helpers.half price in
  let summary :=
    lit "📋 ПОДТВЕРЖДЕНИЕ ЗАКАЗА" ++ nl ++ nl
    ++ lit "🌹 Букет: " ++ product_name ++ nl
    ++ lit "💰 Цена: " ++ helpers.format_price price false ++ nl ++ nl
    ++ lit "📅 Дата: " ++ delivery_date ++ nl
    ++ lit "⏰ Время: " ++ delivery_time ++ nl
    ++ lit "📍 Адрес: " ++ address ++ nl
    ++ lit "💌 Открытка: " ++ card_text ++ nl
    ++ lit "📞 Телефон: " ++ phone ++ nl ++ nl
    ++ lit "💳 Предоплата: " ++ helpers.format_price prepayment false ++ nl ++ nl
    ++ lit "Всё верно?" in
  emit (answer summary (Some create_confirmation_kb));;
  state.set_state (order_state OrderStates.waiting_for_confirmation).

(** In state waiting_for_phone, a message with a contact. *)
Definition phone_contact (message : Message.t) : M World unit :=
  match Message.contact message with
  | None => raise AttributeError
  | Some contact =>
    state.update_data [("phone"%string, v_str (Contact.phone_number contact))];;
    show_summary
  end.

(** In state waiting_for_phone, a message with text. *)
Definition phone_text (message : Message.t) : M World unit :=
  text ← text_of (Message.text message);
  let phone := strip text in
  if negb (helpers.is_phone_valid phone)
  then emit (answer (lit "Введите номер в формате +XX XXX XXX XXXX или 0XXXXXXXXX.") None)
  else
    state.update_data [("phone"%string, v_str phone)];;
    show_summary.

(** In state waiting_for_confirmation, the callback "order_confirm". *)
Definition order_confirm (cb : CallbackQuery.t) (settings : Settings.t) : M World unit :=
  data ← state.get_data;
  product_id ← (v ← item data "product_id"; as_int v);
  product ← on_db (Database.get_product product_id);
  match product with
  | None => emit (cb_answer (Some (lit "Товар не найден")) true)
  | Some product =>
    let user := CallbackQuery.from_user cb in
    delivery_date ← item data "delivery_date";
    delivery_time ← item data "delivery_time";
    address ← item data "address";
    phone ← item data "phone";
    delivery_date_s ← as_str delivery_date;
    delivery_time_s ← as_str delivery_time;
    address_s ← as_str address;
    card_text_o ← as_opt_str (item_get data "card_text");
    phone_s ← as_str phone;
    order_id ← on_db (Database.create_order (User.id user) (User.username user) product_id
                        (Product.price product) delivery_date_s delivery_time_s address_s
                        card_text_o phone_s status_new);
    let prepayment := helpers.half (Product.price product) in
    let admin_text :=
      lit "🔔 НОВЫЙ ЗАКАЗ #" ++ str_of_Z order_id ++ nl ++ nl
      ++ lit "👤 Клиент: @" ++ or_else (User.username user) (lit "unknown")
      ++ lit " (ID: " ++ str_of_Z (User.id user) ++ lit ")" ++ nl
      ++ lit "🌹 Букет: " ++ Product.name product ++ nl
      ++ lit "💰 Сумма: " ++ helpers.format_price (Product.price product) false ++ nl
      ++ lit "💳 Предоплата: " ++ helpers.format_price prepayment false ++ nl ++ nl
      ++ lit "📅 Дата: " ++ fmt delivery_date ++ nl
      ++ lit "⏰ Время: " ++ fmt delivery_time ++ nl
      ++ lit "📍 Адрес: " ++ fmt address ++ nl
      ++ lit "💌 Открытка: " ++ value_or (item_get data "card_text") (lit "Без открытки") ++ nl
      ++ lit "📞 Телефон: " ++ fmt phone in
    let admin_kb :=
      InlineKeyboardMarkup
        [[inline.button (lit "✅ Принять в работу")
            (lit "admin_order_accept:" ++ str_of_Z order_id)];
         [inline.button (lit "❌ Отклонить")
            (lit "admin_order_reject:" ++ str_of_Z order_id)]] in
    notify_admins (Settings.admin_ids settings) admin_text (Some admin_kb);;
    emit (answer
            (lit "✅ Заказ #" ++ str_of_Z order_id ++ lit " оформлен!" ++ nl ++ nl
             ++ lit "Для подтверждения необходима предоплата:" ++ nl
             ++ lit "💳 " ++ helpers.format_price prepayment false ++ lit " (50%)" ++ nl ++ nl
             ++ lit "Реквизиты для оплаты:" ++ nl
             ++ lit "📱 Номер карты: 9704 XXXX XXXX 1234" ++ nl
             ++ lit "🏦 Банк: Vietcombank" ++ nl
             ++ lit "👤 Получатель: NGUYEN VAN A" ++ nl ++ nl
             ++ lit "После оплаты отправьте скриншот чека." ++ nl ++ nl
             ++ lit "📞 Вопросы? Нажмите «💬 Поддержка»")
            (Some reply.main_menu_kb));;
    state.clear;;
    emit (cb_answer None false)
  end.

Definition _ensure_admin (user_id : Z) (settings : Settings.t) : bool :=
  bool_decide (user_id ∈ Settings.admin_ids settings).

(** [int(cb.data.split(":")[1])] *)
Definition callback_id (cb : CallbackQuery.t) : result Z :=
  match split 58 (CallbackQuery.data cb) !! 1%nat with
  | Some part => int part
  | None => Raise IndexError
  end.

(** Callbacks that start with "admin_order_accept:". *)
Definition admin_order_accept (cb : CallbackQuery.t) (settings : Settings.t) : M World unit :=
  if negb (_ensure_admin (User.id (CallbackQuery.from_user cb)) settings)
  then emit (cb_answer (Some (lit "Недостаточно прав")) true)
  else
    order_id ← lift (callback_id cb);
    order ← on_db (Database.get_order order_id);
    match order with
    | None => emit (cb_answer (Some (lit "Заказ не найден")) true)
    | Some order =>
      on_db (Database.update_order_status order_id status_in_progress);;
      try_except
        (bot.send_message (Order.user_id order)
           (lit "Ваш заказ #" ++ str_of_Z order_id ++ lit " принят в работу! 🚀") None)
        (mret ());;
      emit (cb_answer (Some (lit "Статус обновлён")) false)
    end.

(** Callbacks that start with "admin_order_reject:". *)
Definition admin_order_reject (cb : CallbackQuery.t) (settings : Settings.t) : M World unit :=
  if negb (_ensure_admin (User.id (CallbackQuery.from_user cb)) settings)
  then emit (cb_answer (Some (lit "Недостаточно прав")) true)
  else
    order_id ← lift (callback_id cb);
    order ← on_db (Database.get_order order_id);
    match order with
    | None => emit (cb_answer (Some (lit "Заказ не найден")) true)
    | Some order =>
      on_db (Database.update_order_status order_id status_cancelled);;
      try_except
        (bot.send_message (Order.user_id order)
           (lit "К сожалению, заказ #" ++ str_of_Z order_id
            ++ lit " отклонён. Свяжитесь с поддержкой для уточнения.") None)
        (mret ());;
      emit (cb_answer (Some (lit "Статус обновлён")) false)
    end.

(** One turn of the loop of show_orders: [text_lines] is the list the loop
    appends to, [idx] the number of the order. *)
Fixpoint order_blocks (text_lines : list str) (idx : Z) (orders : list Order.t)
    : M World unit :=
  match orders with
  | [] => mret ()
  | order :: rest =>
    let text_lines :=
      text_lines
      ++ [str_of_Z idx ++ lit "️⃣ Заказ #" ++ str_of_Z (Order.id order) ++ lit " — "
          ++ Order.status order] in
    product ← on_db (Database.get_product (Order.product_id order));
    let text_lines :=
      match product with
      | Some product => text_lines ++ [lit "   🌹 " ++ Product.name product]
      | None => text_lines
      end in
    let text_lines :=
      text_lines
      ++ [lit "   📅 Доставка: " ++ Order.delivery_date order ++ lit ", "
          ++ Order.delivery_time order]
      ++ [lit "   💰 " ++ helpers.format_price (Order.price order) false]
      ++ [[]] in
    emit (answer (join nl (last_n 5 text_lines))
            (Some (inline.orders_list_nav_kb (Order.id order))));;
    order_blocks text_lines (idx + 1) rest
  end.

(** A message with the text "📦 Заказы". *)
Definition show_orders (message : Message.t) : M World unit :=
  orders ← on_db (Database.get_user_orders (User.id (Message.from_user message)) 10);
  match orders with
  | [] =>
    emit (answer (lit "У вас пока нет заказов 😊" ++ nl
                  ++ lit "Нажмите «🛍 Магазин», чтобы сделать первый!") None)
  | _ =>
    order_blocks [lit "📦 ВАШИ ЗАКАЗЫ"; []] 1 orders;;
    emit (answer (lit "🏠 Главное меню") (Some reply.main_menu_kb))
  end.

(** One offer of repeat_order. *)
Definition repeat_offer (order : Order.t) : M World unit :=
  product ← on_db (Database.get_product (Order.product_id order));
  let product_name :=
    match product with Some product => Product.name product | None => lit "Букет" end in
  let text :=
    lit "🔁 Заказ #" ++ str_of_Z (Order.id order) ++ nl
    ++ lit "🌹 " ++ product_name ++ nl
    ++ lit "📅 Доставлен: " ++ Order.delivery_date order ++ nl
    ++ lit "💰 " ++ helpers.format_price (Order.price order) false in
  let kb :=
    InlineKeyboardMarkup
      [[inline.button (lit "🔁 Повторить заказ #" ++ str_of_Z (Order.id order))
          (lit "repeat_order:" ++ str_of_Z (Order.id order))]] in
  emit (answer text (Some kb)).

(** A message with the text "🔁 Повторить заказ". *)
Definition repeat_order (message : Message.t) : M World unit :=
  orders ← on_db (Database.get_last_completed_orders
                    (User.id (Message.from_user message)) 3);
  match orders with
  | [] => emit (answer (lit "У вас пока нет завершённых заказов для повтора 😊") None)
  | _ =>
    state.set_data ∅;;
    emit (answer (join nl [lit "🔁 ПОВТОРИТЬ ЗАКАЗ"; []; lit "Выберите заказ из истории:"])
            None);;
    for_each orders repeat_offer;;
    emit (answer (lit "🏠 Главное меню") (Some reply.main_menu_kb))
  end.

(** Callbacks that start with "repeat_order:". *)
Definition repeat_order_callback (cb : CallbackQuery.t) : M World unit :=
  order_id ← lift (callback_id cb);
  order ← on_db (Database.get_order order_id);
  match order with
  | None => emit (cb_answer (Some (lit "Заказ не найден")) true)
  | Some order =>
    product ← on_db (Database.get_product (Order.product_id order));
    let product_name :=
      match product with Some product => Product.name product | None => lit "Букет" end in
    state.update_data
      [("product_id"%string, v_int (Order.product_id order));
       ("product_price"%string, v_int (Order.price order));
       ("product_name"%string, v_str product_name)];;
    emit (answer (lit "Повторный заказ на основе #" ++ str_of_Z (Order.id order)) None);;
    today ← date_today;
    kb ← lift (inline.order_date_kb today true);
    emit (answer (lit "📅 Выберите дату доставки:") (Some kb));;
    state.set_state (order_state OrderStates.waiting_for_delivery_date);;
    emit (cb_answer None false)
  end.

(** In state waiting_for_delivery_time, the callback "back_to_date". *)
Definition back_to_date (cb : CallbackQuery.t) : M World unit :=
  state.set_state (order_state OrderStates.waiting_for_delivery_date);;
  today ← date_today;
  kb ← lift (inline.order_date_kb today true);
  emit (answer (lit "📅 Выберите дату доставки:") (Some kb));;
  emit (cb_answer None false).

(** The callback "order_cancel", in any state. *)
Definition cancel_order (cb : CallbackQuery.t) : M World unit :=
  state.clear;;
  emit (answer (lit "❌ Заказ отменён") (Some reply.main_menu_kb));;
  emit (cb_answer None false).

(** In state waiting_for_card_text, the callback "card_write". *)
Definition card_write (cb : CallbackQuery.t) : M World unit :=
  emit (answer (lit "Напишите текст открытки (до 200 символов).") None);;
  emit (cb_answer None false).

(** In state waiting_for_card_text, the callback "card_back". *)
Definition card_back (cb : CallbackQuery.t) : M World unit :=
  state.set_state (order_state OrderStates.waiting_for_address);;
  emit (answer (lit "📍 Укажите адрес доставки:") (Some reply.location_request_kb));;
  emit (cb_answer None false).

(** In state waiting_for_confirmation, the callback "order_edit". *)
Definition order_edit (cb : CallbackQuery.t) : M World unit :=
  state.set_state (order_state OrderStates.waiting_for_delivery_date);;
  today ← date_today;
  kb ← lift (inline.order_date_kb today true);
  emit (answer (lit "Что изменим? Начнём с даты доставки.") (Some kb));;
  emit (cb_answer None false).

End WithUnicode.
End orders.

(** * handlers/admin.py *)

Module admin.
Section WithUnicode.
Context {U : UnicodeData}.

(** In state waiting_for_price, a message with text. *)
Definition admin_add_price (message : Message.t) : M World unit :=
  text ← text_of (Message.text message);
  let raw := strip text in
  let price_from := startswith (lower raw) (lit "от") in
  let raw := if price_from then strip (slice_from 2 raw) else raw in
  if negb (isdigit raw)
  then emit (answer (lit "Введите число или 'от 1800000'.") None)
  else
    price ← lift (int raw);
    state.update_data [("price"%string, v_int price); ("price_from"%string, v_bool price_from)];;
    state.set_state (admin_add_product_state AdminAddProductStates.waiting_for_description);;
    emit (answer (lit "📋 Введите описание букета (до 500 символов)") None).

Definition is_admin (user_id : Z) (settings : Settings.t) : bool :=
  bool_decide (user_id ∈ Settings.admin_ids settings).

(** The command /admin. *)
Definition admin_entry (message : Message.t) (settings : Settings.t) : M World unit :=
  if negb (is_admin (User.id (Message.from_user message)) settings) then mret ()
  else emit (answer (lit "🔧 АДМИН-ПАНЕЛЬ") (Some inline.admin_main_menu_kb)).

(** The callback "admin:add_product". *)
Definition admin_add_product_start (cb : CallbackQuery.t) (settings : Settings.t)
    : M World unit :=
  if negb (is_admin (User.id (CallbackQuery.from_user cb)) settings)
  then emit (cb_answer (Some (lit "Недостаточно прав")) true)
  else
    state.set_state (admin_add_product_state AdminAddProductStates.waiting_for_photo);;
    emit (answer (lit "📸 Отправьте фото букета (JPEG/PNG, до 5MB)") None);;
    emit (cb_answer None false).

(** In state waiting_for_name, a message with text. *)
Definition admin_add_name (message : Message.t) : M World unit :=
  text ← text_of (Message.text message);
  let name := strip text in
  if negb ((3 <=? length name)%nat && (length name <=? 50)%nat)
  then emit (answer (lit "Название должно быть от 3 до 50 символов.") None)
  else
    state.update_data [("name"%string, v_str name)];;
    categories ← on_db Database.get_categories;
    state.set_state (admin_add_product_state AdminAddProductStates.waiting_for_category);;
    emit (answer (lit "📂 Выберите категорию:") (Some (inline.admin_categories_kb categories))).

(** In state waiting_for_category, callbacks that start with
    "admin:category:". *)
Definition admin_add_category_selected (cb : CallbackQuery.t) : M World unit :=
  part ← index (split 58 (CallbackQuery.data cb)) 2;
  category_id ← lift (int part);
  state.update_data [("category_id"%string, v_int category_id)];;
  state.set_state (admin_add_product_state AdminAddProductStates.waiting_for_price);;
  emit (answer (lit "💰 Введите цену (только число в VND или 'от XXXX')") None);;
  emit (cb_answer None false).

Definition confirm_product_kb : markup :=
  InlineKeyboardMarkup
    [[inline.button (lit "✅ Сохранить") (lit "admin:product_save")];
     [inline.button (lit "✏️ Изменить") (lit "admin:back")];
     [inline.button (lit "❌ Отменить") (lit "admin:cancel_add")]].

(** In state waiting_for_description, a message with text. *)
Definition admin_add_description (message : Message.t) : M World unit :=
  text ← text_of (Message.text message);
  let description := strip text in
  if (500 <? length description)%nat
  then emit (answer (lit "Описание должно быть до 500 символов.") None)
  else
    state.update_data [("description"%string, v_str description)];;
    state.set_state (admin_add_product_state AdminAddProductStates.waiting_for_confirmation);;
    data ← state.get_data;
    name ← item data "name";
    price ← (v ← item data "price"; as_int v);
    price_from ← (v ← item data "price_from"; as_bool v);
    let summary :=
      lit "🌹 " ++ fmt name ++ nl
      ++ lit "💰 " ++ helpers.format_price price price_from ++ nl ++ nl
      ++ lit "📋 Описание:" ++ nl ++ description ++ nl ++ nl
      ++ lit "Всё верно?" in
    photo ← (v ← item data "photo_file_id"; as_str v);
    emit (answer_photo photo summary (Some confirm_product_kb)).

(** In state waiting_for_confirmation, the callback "admin:product_save". *)
Definition admin_save_product (cb : CallbackQuery.t) (settings : Settings.t) : M World unit :=
  data ← state.get_data;
  category_id ← (v ← item data "category_id"; as_int v);
  name ← item data "name";
  price ← (v ← item data "price"; as_int v);
  price_from ← (v ← item data "price_from"; as_bool v);
  description ← (v ← item data "description"; as_str v);
  photo_file_id ← (v ← item data "photo_file_id"; as_str v);
  name_s ← as_str name;
  product_id ← on_db (Database.add_product category_id name_s price price_from description
                        photo_file_id true);
  emit (answer (lit "✅ Товар '" ++ fmt name ++ lit "' успешно добавлен! (ID: "
                ++ str_of_Z product_id ++ lit ")") None);;
  state.clear;;
  emit (cb_answer None false).

(** In state waiting_for_confirmation, the callback "admin:cancel_add". *)
Definition admin_cancel_add (cb : CallbackQuery.t) : M World unit :=
  state.clear;;
  emit (answer (lit "Операция добавления товара отменена.") None);;
  emit (cb_answer None false).

(** In state waiting_for_action, the callback "admin:add_category". *)
Definition admin_add_category (cb : CallbackQuery.t) : M World unit :=
  state.set_state (admin_category_state AdminCategoryStates.waiting_for_name);;
  emit (answer (lit "Введите название новой категории (с эмодзи).") None);;
  emit (cb_answer None false).

(** In state waiting_for_name of the category dialogue, a message with
    text. *)
Definition admin_category_name (message : Message.t) : M World unit :=
  text ← text_of (Message.text message);
  let name := strip text in
  on_db (Database.add_category name);;
  emit (answer (lit "Категория '" ++ name ++ lit "' добавлена.") None);;
  state.clear.

(** The two ways the step ends: the price and the flag are stored and the
    dialogue moves on to the description, or the question is asked again. *)
Definition advanced (w : World) (price : Z) (price_from : bool) : result unit * World :=
  (Ok (),
   mkWorld (db w)
     (Some (admin_add_product_state AdminAddProductStates.waiting_for_description))
     (<["price_from"%string := v_bool price_from]>
        (<["price"%string := v_int price]> (fsm_data w)))
     (clock w) (unreachable w)
     (outbox w ++ [answer (lit "📋 Введите описание букета (до 500 символов)") None])).

Definition asked_again (w : World) : result unit * World :=
  (Ok (), put_outbox w (outbox w ++ [answer (lit "Введите число или 'от 1800000'.") None])).

(** What a number written in decimal digits of any script denotes. *)
Definition decimal_number (ds : str) : Z :=
  fold_left (λ acc c, (10 * acc + Z.of_N (default 0%N (decimal_value c)))%Z) ds 0%Z.

End WithUnicode.

(** A number written in the digits 0 to 9, and what it denotes. *)
Definition plain_digits (ds : str) : Prop :=
  ds ≠ [] ∧ Forall (λ c, (48 ≤ c ≤ 57)%N) ds.

Definition number_of (ds : str) : Z :=
  fold_left (λ acc c, (10 * acc + Z.of_N (c - 48))%Z) ds 0%Z.

(** The prefix in any letter case. *)
Definition ot_prefix (p : str) : Prop :=
  p = lit "от" ∨ p = lit "От" ∨ p = lit "оТ" ∨ p = lit "ОТ".

End admin.

(** * A shop to run the handlers in *)

Module sample.

(** Tables for text that stays within Basic Latin and the Russian alphabet:
    no other character is a digit, no other character changes case. *)
Definition plain_tables : UnicodeData :=
  {| uni_decimal := λ _, None; uni_digit_only := λ _, false; uni_lower := λ _ c _, [c] |}.

Definition settings : Settings.t :=
  Settings.mk (lit "token") [1001%Z] (lit "flower_bot/data/bot.db") None
    (lit "Asia/Ho_Chi_Minh").

Definition customer : User.t := User.mk 42 (Some (lit "anna")).

Definition florist : User.t := User.mk 1001 (Some (lit "florist")).

Definition roses : Category.t := Category.mk 1 (lit "🌹 Розы") 1715000000.

Definition bouquet : Product.t :=
  Product.mk 7 1 (lit "Красные розы") 1800000 false (lit "25 красных роз")
    (lit "AgACAgIAAxkBAAIB") true 1715000100.

(** The file of the shop: one category, one product, no order yet. *)
Definition stored : Database.Connection :=
  Database.mkConnection [roses] [bouquet] [] [] 1 7 0 0 7 1715335200.

Definition storage : Database.t :=
  Database.mk (lit "flower_bot/data/bot.db") (Some stored).

(** Friday 10 May 2024, half past six in the evening. *)
Definition evening : datetime.t :=
  datetime.mk (datetime.mkdate 2024 5 10) (datetime.mktime 18 30 0 0).

(** The same day at noon. *)
Definition noon : datetime.t :=
  datetime.mk (datetime.mkdate 2024 5 10) (datetime.mktime 12 0 0 0).

Definition world (now : datetime.t) : World :=
  mkWorld storage None ∅ now (λ _, false) [].

(** The customer presses "order" on the bouquet. *)
Definition press_order : CallbackQuery.t := CallbackQuery.mk customer (lit "order_start:7:1:1").

Definition press (data : str) : CallbackQuery.t := CallbackQuery.mk customer data.

Definition says (text : str) : Message.t := Message.mk customer (Some text) None None.

Definition shares_location (latitude longitude : str) : Message.t :=
  Message.mk customer None (Some (Location.mk latitude longitude)) None.

(** The world after a handler ran. *)
Definition then_ (w : World) (handler : M World unit) : World := snd (handler w).

Section Dialogue.
#[local] Existing Instance plain_tables.

(** The customer orders the bouquet at noon, for tomorrow between 12 and 15,
    skips the card and gives a phone number; before the order is confirmed
    the price of the bouquet is raised from 1 800 000 to 2 000 000. *)
Definition at_confirmation : World :=
  let w := then_ (world noon) (catalog.order_start press_order) in
  let w := then_ w (orders.date_selected (press (lit "date_selected:tomorrow"))) in
  let w := then_ w (orders.time_selected (press (lit "time_selected:12:00-15:00"))) in
  let w := then_ w (orders.address_text (says (lit "123 Main Street Apt 4"))) in
  let w := then_ w (orders.card_skip (press (lit "card_skip"))) in
  let w := then_ w (orders.phone_text (says (lit "0912345678"))) in
  then_ w (on_db (Database.update_product 7 [Database.set_price 2000000]) ≫= λ _, mret ()).

Definition repriced : Product.t :=
  Product.mk 7 1 (lit "Красные розы") 2000000 false (lit "25 красных роз")
    (lit "AgACAgIAAxkBAAIB") true 1715000100.

End Dialogue.

(** A shop with twelve active bouquets in the category, and one that is
    withdrawn. *)
Definition twelve : list Product.t :=
  map (λ i, Product.mk (Z.of_nat i) 1 (lit "Букет") 900000 false (lit "Сезонный букет")
              (lit "AgACAgIAAxkBAAIC") (negb (i =? 13)%nat) (1715000000 + Z.of_nat i))
    (seq 1 13).

Definition full_shelves : Database.Connection :=
  Database.mkConnection [roses] twelve [] [] 1 13 0 0 13 1715335200.

Definition full_shop : World :=
  mkWorld (Database.mk (lit "flower_bot/data/bot.db") (Some full_shelves)) None ∅ noon
    (λ _, false) [].

(** An order of the customer, who has since blocked the bot. *)
Definition placed : Order.t :=
  Order.mk 1 42 (Some (lit "anna")) 7 1800000 (lit "2024-05-11") (lit "12:00-15:00")
    (lit "123 Main Street Apt 4") None (lit "0912345678") status_new 1715335200.

Definition with_order : World :=
  mkWorld
    (Database.mk (lit "flower_bot/data/bot.db")
       (Some (Database.mkConnection [roses] [bouquet] [placed] [] 1 7 1 0 1 1715335300)))
    None ∅ noon (λ chat_id, (chat_id =? 42)%Z) [].

(** The administrator is asked for the price of a new bouquet. *)
Definition at_price : World :=
  mkWorld storage (Some (admin_add_product_state AdminAddProductStates.waiting_for_price))
    {[ "name"%string := v_str (lit "Пионы") ]} noon (λ _, false) [].

Definition florist_says (text : str) : Message.t := Message.mk florist (Some text) None None.

Definition florist_presses (data : str) : CallbackQuery.t := CallbackQuery.mk florist data.

Definition not_connected : Database.t := Database.__init__ (lit "flower_bot/data/bot.db").

End sample.

(** * More of the sample shop *)

Module scene.

(** Tables that know, beyond Basic Latin and the Russian alphabet, the
    Arabic-Indic digits U+0660 .. U+0669, which have the decimal values 0 to
    9, and the superscript digits U+00B2, U+00B3 and U+00B9, which are digits
    without a decimal value. *)
Definition more_digits : UnicodeData :=
  {| uni_decimal := λ c, if ((1632 <=? c) && (c <=? 1641))%N then Some (c - 1632)%N else None;
     uni_digit_only := λ c, ((c =? 178) || (c =? 179) || (c =? 185))%N;
     uni_lower := λ _ c _, [c] |}.

(** A number with a tab, a line feed and a no-break space between its
    groups. *)
Definition tabbed_number : str :=
  lit "+84" ++ [9%N] ++ lit "912" ++ [10%N] ++ lit "345" ++ [160%N] ++ lit "6789".

(** The administrator has answered every question of the add-product
    dialogue. *)
Definition ready_to_save : World :=
  mkWorld sample.storage
    (Some (admin_add_product_state AdminAddProductStates.waiting_for_confirmation))
    (<["photo_file_id"%string := v_str (lit "AgACAgIAAxkBAAIC")]>
       (<["description"%string := v_str (lit "Сезонный букет")]>
          (<["price_from"%string := v_bool true]>
             (<["price"%string := v_int 950000]>
                (<["category_id"%string := v_int 1]>
                   (<["name"%string := v_str (lit "Пионы")]> ∅))))))
    sample.noon (λ _, false) [].

(** The calendar as it is built on 10 May 2024 after the cutoff, and the
    button of the next day. *)
Definition friday : datetime.date := datetime.mkdate 2024 5 10.

Definition saturday_button : InlineKeyboardButton.t :=
  inline.button (lit "11.05") (lit "date_selected:2024-05-11").

(** The shop with twelve active bouquets of roses and a withdrawn one, and
    beside them a newer, active bouquet of another category. *)
Definition seasonal : Category.t := Category.mk 2 (lit "🌸 Сезонные") 1715000000.

Definition mixed_shelves : Database.Connection :=
  Database.mkConnection [sample.roses; seasonal]
    (sample.twelve
     ++ [Product.mk 14 2 (lit "Букет") 900000 false (lit "Сезонный букет")
           (lit "AgACAgIAAxkBAAIC") true 1715000014])
    [] [] 2 14 0 0 14 1715335200.

Definition mixed_shop : World :=
  mkWorld (Database.mk (lit "flower_bot/data/bot.db") (Some mixed_shelves)) None ∅
    sample.noon (λ _, false) [].

(** A customer whose dialogue names a product that is not in the shop. *)
Definition stale : World :=
  mkWorld sample.storage (Some (order_state OrderStates.waiting_for_confirmation))
    (<["product_id"%string := v_int 99]> ∅) sample.noon (λ _, false) [].

End scene.

(** * Vocabulary of the properties *)

(** A property of the world that a handler keeps, however it ends. *)
Definition preserves {A} (P : World → Prop) (m : M World A) : Prop :=
  ∀ w, P w → P (snd (m w)).

(** A property of the world that is one of the storage. *)
Definition on_storage (Q : Database.t → Prop) (w : World) : Prop := Q (db w).

(** No order has the status that get_last_completed_orders selects. *)
Definition never_completed (self : Database.t) : Prop :=
  ∀ c o, Database._conn self = Some c → In o (Database.orders c) →
         Order.status o ≠ status_completed.

(** An integer that SQLite can keep: 64 bits with a sign.  sqlite3 refuses
    to bind any other (OverflowError), and a table whose AUTOINCREMENT counter
    has reached the last of them takes no more rows. *)
Definition int64 (z : Z) : Prop := (- 2 ^ 63 ≤ z < 2 ^ 63)%Z.

Arguments lit : simpl never.
Arguments str_of_Z : simpl never.
Arguments helpers.format_price : simpl never.

(** * Properties *)

Section ReFacts.
Context {U : UnicodeData}.

Lemma eat_den (p : char → bool) cu k :
  re.eat p cu k = true ↔ ∃ cu', re.den_class p cu cu' ∧ k cu' = true.
Proof.
  unfold re.eat, re.den_class. destruct cu as [i s]; simpl. split.
  - destruct s as [|c rest]; [discriminate|].
    intros [Hp Hk]%andb_true_iff. exists (S i, rest). eauto.
  - intros [[i' s'] [(c & Hp & Hs & Hi) Hk]]. simpl in *. subst.
    by rewrite Hp.
Qed.

Lemma run_den r : ∀ cu k,
  re.run r cu k = true ↔ ∃ cu', re.den r cu cu' ∧ k cu' = true.
Proof.
  induction r as [c| | | | |r1 IH1 r2 IH2|r1 IH1|r1 IH1 lo hi]; intros cu k; simpl.
  - apply eat_den.
  - apply eat_den.
  - apply eat_den.
  - rewrite andb_true_iff, Nat.eqb_eq. split.
    + intros [? ?]. eauto.
    + intros [cu' [[? ->] ?]]. eauto.
  - rewrite andb_true_iff. unfold re.at_eol. split.
    + intros [He Hk]. exists cu. split; [|done]. split; [|done].
      destruct (snd cu) as [|c [|? ?]]; [by left| |discriminate].
      apply N.eqb_eq in He. subst. by right.
    + intros [cu' [[He ->] ?]]. split; [|done].
      destruct He as [-> | ->]; done.
  - rewrite IH1. split.
    + intros [mid [H1 H2]]. apply IH2 in H2 as [cu' [H2 Hk]]. eauto.
    + intros [cu' [[mid [H1 H2]] Hk]]. exists mid. split; [done|].
      apply IH2. eauto.
  - rewrite orb_true_iff, IH1. split.
    + intros [[cu' [? ?]] | ?]; eauto.
    + intros [cu' [[? | ->] ?]]; eauto.
  - set (may := fix may (j : nat) (cu : re.cursor) {struct j} : bool :=
            match j with
            | S j' => re.run r1 cu (may j') || k cu
            | O => k cu
            end).
    set (must := fix must (n : nat) (cu : re.cursor) {struct n} : bool :=
       match n with
       | S n' => re.run r1 cu (must n')
       | O => may (hi - lo)%nat cu
       end).
    assert (Hmay : ∀ j cu, may j cu = true ↔
              ∃ n cu', (n ≤ j)%nat ∧ re.iter n (re.den r1) cu cu' ∧ k cu' = true).
    { induction j as [|j IHj]; intros cu0; simpl.
      - split.
        + intros Hk. exists O, cu0. simpl. eauto.
        + intros (n & cu' & Hn & Hit & Hk). assert (n = O) as -> by lia.
          simpl in Hit. by subst.
      - rewrite orb_true_iff, IH1. split.
        + intros [[mid [Hd Hm]] | Hk].
          * apply IHj in Hm as (n & cu' & Hn & Hit & Hk).
            exists (S n), cu'. simpl. split; [lia|]. eauto.
          * exists O, cu0. simpl. split; [lia|]. eauto.
        + intros (n & cu' & Hn & Hit & Hk). destruct n as [|n]; simpl in Hit.
          * subst. by right.
          * destruct Hit as (mid & Hd & Hit). left. exists mid. split; [done|].
            apply IHj. exists n, cu'. split; [lia|]. eauto. }
    assert (Hmust : ∀ m cu, must m cu = true ↔
              ∃ n cu', (m ≤ n ≤ m + (hi - lo))%nat ∧ re.iter n (re.den r1) cu cu'
                       ∧ k cu' = true).
    { induction m as [|m IHm]; intros cu0; simpl.
      - rewrite Hmay. split.
        + intros (n & cu' & Hn & Hit & Hk). exists n, cu'. split; [lia|]. eauto.
        + intros (n & cu' & Hn & Hit & Hk). exists n, cu'. split; [lia|]. eauto.
      - rewrite IH1. split.
        + intros [mid [Hd Hm]]. apply IHm in Hm as (n & cu' & Hn & Hit & Hk).
          exists (S n), cu'. simpl. split; [lia|]. eauto.
        + intros (n & cu' & Hn & Hit & Hk). destruct n as [|n]; [lia|].
          simpl in Hit. destruct Hit as (mid & Hd & Hit).
          exists mid. split; [done|]. apply IHm. exists n, cu'.
          split; [lia|]. eauto. }
    rewrite Hmust. split.
    + intros (n & cu' & Hn & Hit & Hk). exists cu'. split; [|done]. eauto.
    + intros (cu' & (n & Hn & Hit) & Hk). eauto.
Qed.

End ReFacts.

(** ** White space *)

Lemma lstrip_head s c r : lstrip s = c :: r → isspace_char c = false.
Proof.
  induction s as [|a s IH]; simpl; [discriminate|].
  destruct (isspace_char a) eqn:Ha; [done|]. intros [= -> _]. done.
Qed.

Lemma lstrip_split s : ∃ l, s = l ++ lstrip s ∧ blank l.
Proof.
  induction s as [|a s (l & Hs & Hl)]; simpl.
  - exists []. split; [done|constructor].
  - destruct (isspace_char a) eqn:Ha.
    + exists (a :: l). split; [by rewrite Hs at 1|by constructor].
    + exists []. split; [done|constructor].
Qed.

Lemma lstrip_fixed s : (∀ c r, s = c :: r → isspace_char c = false) → lstrip s = s.
Proof.
  destruct s as [|c r]; [done|]. intros Hs. simpl. by rewrite (Hs c r).
Qed.

Lemma lstrip_idem s : lstrip (lstrip s) = lstrip s.
Proof. apply lstrip_fixed. intros c r. apply lstrip_head. Qed.

Lemma lstrip_blank_app l s : blank l → lstrip (l ++ s) = lstrip s.
Proof. induction 1 as [|c l Hc _ IH]; simpl; [done|]. by rewrite Hc. Qed.

Lemma lstrip_blank l : blank l → lstrip l = [].
Proof. intros Hl. rewrite <- (app_nil_r l). by rewrite lstrip_blank_app. Qed.

Lemma lstrip_app_solid s r c t : lstrip s = c :: t → lstrip (s ++ r) = lstrip s ++ r.
Proof.
  induction s as [|a s IH]; simpl; [discriminate|].
  destruct (isspace_char a); [apply IH|done].
Qed.

Lemma blank_rev l : blank l → blank (rev l).
Proof. apply Forall_rev. Qed.

Lemma rstrip_blank_app s r : blank r → rstrip (s ++ r) = rstrip s.
Proof.
  intros Hr. unfold rstrip. rewrite rev_app_distr.
  rewrite lstrip_blank_app; [done|]. by apply blank_rev.
Qed.

(** What [strip] returns has no white space at either end. *)
Lemma strip_last s u c : strip s = u ++ [c] → isspace_char c = false.
Proof.
  unfold strip, rstrip. intros Hs.
  apply (f_equal (@rev N)) in Hs. rewrite rev_involutive, rev_app_distr in Hs.
  simpl in Hs. by apply lstrip_head in Hs.
Qed.

Lemma strip_first s c r : strip s = c :: r → isspace_char c = false.
Proof.
  unfold strip, rstrip. intros Hs.
  destruct (lstrip_split (rev (lstrip s))) as (l & Hl & _).
  apply (f_equal (@rev N)) in Hl. rewrite rev_involutive, rev_app_distr, Hs in Hl.
  simpl in Hl. by apply lstrip_head in Hl.
Qed.

Lemma strip_fixed t :
  (∀ c r, t = c :: r → isspace_char c = false) →
  (∀ u c, t = u ++ [c] → isspace_char c = false) →
  strip t = t.
Proof.
  intros Hfirst Hlast. unfold strip, rstrip.
  rewrite (lstrip_fixed t) by done.
  rewrite lstrip_fixed; [apply rev_involutive|].
  intros c r Hr. apply (Hlast (rev r)).
  apply (f_equal (@rev N)) in Hr. by rewrite rev_involutive in Hr.
Qed.

Lemma strip_idem s : strip (strip s) = strip s.
Proof.
  apply strip_fixed.
  - intros c r. apply strip_first.
  - intros u c. apply strip_last.
Qed.

Lemma strip_blank_around l s r : blank l → blank r → strip (l ++ s ++ r) = strip s.
Proof.
  intros Hl Hr. unfold strip. rewrite lstrip_blank_app by done.
  destruct (lstrip s) as [|c t] eqn:Hs.
  - destruct (lstrip_split s) as (l' & Hs' & Hl'). rewrite Hs, app_nil_r in Hs'. subst l'.
    rewrite lstrip_blank_app by done. rewrite (lstrip_blank r) by done. done.
  - rewrite (lstrip_app_solid s r c t) by done. rewrite Hs. by apply rstrip_blank_app.
Qed.

Lemma strip_no_final_newline s u : strip s ≠ u ++ [10%N].
Proof. intros Hs. apply strip_last in Hs. discriminate. Qed.

(** ** The patterns of [is_phone_valid], piece by piece *)

Section PatternFacts.
Context {U : UnicodeData}.

Lemma cursor_eq (cu cu' : re.cursor) : fst cu' = fst cu → snd cu' = snd cu → cu' = cu.
Proof. destruct cu, cu'. simpl. by intros -> ->. Qed.

Lemma den_class_consumes p cu cu' :
  re.den_class p cu cu' ↔ re.consumes (re.one_of p) cu cu'.
Proof.
  unfold re.den_class, re.consumes, re.one_of. split.
  - intros (c & Hp & Hs & Hi). exists [c]. simpl. split; [eauto|]. split; [done|lia].
  - intros (w & (c & Hp & ->) & Hs & Hi). exists c. simpl in *.
    split; [done|]. split; [done|lia].
Qed.

Lemma consumes_empty cu cu' : re.consumes re.empty cu cu' ↔ cu' = cu.
Proof.
  unfold re.consumes, re.empty. split.
  - intros (w & -> & Hs & Hi). simpl in *. apply cursor_eq; [lia|done].
  - intros ->. exists []. simpl. split; [done|]. split; [done|lia].
Qed.

Lemma consumes_cat P Q cu cu' :
  (∃ mid, re.consumes P cu mid ∧ re.consumes Q mid cu') ↔ re.consumes (re.cat P Q) cu cu'.
Proof.
  unfold re.consumes, re.cat. split.
  - intros (mid & (w1 & HP & Hs1 & Hi1) & (w2 & HQ & Hs2 & Hi2)).
    exists (w1 ++ w2). split; [eauto|].
    rewrite Hs1, Hs2, Hi2, Hi1, length_app, <- app_assoc. split; [done|lia].
  - intros (w & (w1 & w2 & -> & HP & HQ) & Hs & Hi).
    exists ((fst cu + length w1)%nat, w2 ++ snd cu'). simpl. split.
    + exists w1. rewrite Hs, <- app_assoc. eauto.
    + exists w2. rewrite Hi, length_app. split; [done|]. split; [done|lia].
Qed.

Lemma den_seq_consumes r1 r2 P Q :
  (∀ cu cu', re.den r1 cu cu' ↔ re.consumes P cu cu') →
  (∀ cu cu', re.den r2 cu cu' ↔ re.consumes Q cu cu') →
  ∀ cu cu', re.den (re.Seq r1 r2) cu cu' ↔ re.consumes (re.cat P Q) cu cu'.
Proof.
  intros H1 H2 cu cu'. rewrite <- consumes_cat. simpl.
  split; intros (mid & Ha & Hb); exists mid; split; by (apply H1 || apply H2).
Qed.

Lemma den_opt_consumes r P :
  (∀ cu cu', re.den r cu cu' ↔ re.consumes P cu cu') →
  ∀ cu cu', re.den (re.Opt r) cu cu' ↔ re.consumes (re.maybe P) cu cu'.
Proof.
  intros Hr cu cu'. simpl. rewrite Hr. unfold re.maybe, re.consumes. split.
  - intros [(w & HP & Hs)| ->]; [eauto|].
    exists []. simpl. split; [by right|]. split; [done|lia].
  - intros (w & [HP| ->] & Hs & Hi); [left; eauto|].
    right. simpl in *. apply cursor_eq; [lia|done].
Qed.

Lemma iter_class_consumes p n : ∀ cu cu',
  re.iter n (re.den_class p) cu cu' ↔ re.consumes (re.run_of p n n) cu cu'.
Proof.
  unfold re.run_of. induction n as [|n IH]; intros cu cu'; simpl.
  - rewrite <- consumes_empty. unfold re.consumes, re.empty. split.
    + intros (w & -> & Hs). exists []. simpl. split; [|done]. split; [lia|constructor].
    + intros (w & [Hlen _] & Hs). exists w. split; [|done].
      destruct w; [done|simpl in Hlen; lia].
  - split.
    + intros (mid & Hd & Hit). apply IH in Hit. apply den_class_consumes in Hd.
      assert (Hc : re.consumes (re.cat (re.one_of p) (re.run_of p n n)) cu cu')
        by (apply consumes_cat; eauto).
      destruct Hc as (w & (w1 & w2 & -> & (c & Hp & ->) & (Hlen & Hall)) & Hs).
      exists ([c] ++ w2). split; [|done]. simpl. split; [lia|by constructor].
    + intros (w & [Hlen Hall] & Hs & Hi). destruct w as [|c w]; [simpl in Hlen; lia|].
      inversion Hall as [|? ? Hp Hall']; subst.
      assert (Hc : re.consumes (re.cat (re.one_of p) (re.run_of p n n)) cu cu').
      { exists ([c] ++ w). split; [|done]. exists [c], w. split; [done|].
        split; [by exists c|]. unfold re.run_of. simpl in Hlen. split; [lia|done]. }
      apply consumes_cat in Hc as (mid & Hd & Hit). exists mid.
      split; [by apply den_class_consumes|]. by apply IH.
Qed.

Lemma den_rep_digit lo hi cu cu' :
  re.den (re.Rep re.Digit lo hi) cu cu' ↔ re.consumes (re.run_of isdecimal_char lo hi) cu cu'.
Proof.
  simpl. split.
  - intros (n & Hn & Hit). apply iter_class_consumes in Hit as (w & [Hlen Hall] & Hs).
    exists w. split; [|done]. unfold re.run_of. split; [lia|done].
  - intros (w & [Hlen Hall] & Hs). exists (length w). split; [done|].
    apply iter_class_consumes. exists w. split; [|done]. split; [lia|done].
Qed.

Lemma den_lit c cu cu' : re.den (re.Lit c) cu cu' ↔ re.consumes (re.one_of (N.eqb c)) cu cu'.
Proof. apply den_class_consumes. Qed.

Lemma den_space cu cu' : re.den re.Space cu cu' ↔ re.consumes (re.one_of isspace_char) cu cu'.
Proof. apply den_class_consumes. Qed.

Lemma tail_eol : re.accepts_tail re.Eol re.empty.
Proof.
  intros cu. simpl. unfold re.upto_newline, re.empty. split.
  - intros (cu' & [Hs| Hs] & _); [by left|]. right. by exists [].
  - intros [Hs|(w' & Hs & ->)]; exists cu; split; auto.
Qed.

Lemma tail_seq r1 r2 P Q :
  (∀ cu cu', re.den r1 cu cu' ↔ re.consumes P cu cu') →
  re.accepts_tail r2 Q → re.accepts_tail (re.Seq r1 r2) (re.cat P Q).
Proof.
  intros H1 H2 cu. simpl. unfold re.upto_newline, re.cat. split.
  - intros (cu' & mid & Hd1 & Hd2). apply H1 in Hd1 as (w1 & HP & Hs & _).
    assert (Hm : re.upto_newline Q (snd mid)) by (apply H2; eauto).
    destruct Hm as [HQ|(w' & Hw & HQ)].
    + left. eauto.
    + right. exists (w1 ++ w'). rewrite Hs, Hw, app_assoc. eauto 7.
  - intros [(w1 & w2 & Hs & HP & HQ)|(w' & Hs & w1 & w2 & -> & HP & HQ)].
    + destruct (proj2 (H2 ((fst cu + length w1)%nat, w2))) as [cu' Hd2]; [by left|].
      exists cu', ((fst cu + length w1)%nat, w2). split; [|done].
      apply H1. exists w1. eauto.
    + destruct (proj2 (H2 ((fst cu + length w1)%nat, w2 ++ [10%N]))) as [cu' Hd2].
      { right. eauto. }
      exists cu', ((fst cu + length w1)%nat, w2 ++ [10%N]). split; [|done].
      apply H1. exists w1. simpl. rewrite Hs, <- app_assoc. eauto.
Qed.

Lemma match_anchored r P t :
  re.accepts_tail r P → re.match_ (re.Seq re.Bol r) t = true ↔ re.upto_newline P t.
Proof.
  intros Hr. unfold re.match_. rewrite run_den. rewrite <- (Hr (O, t)). simpl. split.
  - intros (cu' & (mid & [_ ->] & Hd) & _). eauto.
  - intros (cu' & Hd). exists cu'. split; [|done]. exists (O, t). eauto.
Qed.

End PatternFacts.

(** ** Phone validation *)

Section PhoneFacts.
Context {U : UnicodeData}.

Ltac tail_of_pattern :=
  repeat (apply tail_seq;
          [first [apply den_lit | apply den_rep_digit
                 | apply den_opt_consumes; apply den_space]|]);
  apply tail_eol.

Lemma upto_newline_strip P s : re.upto_newline P (strip s) ↔ P (strip s).
Proof.
  unfold re.upto_newline. split; [|by left].
  intros [HP|(w' & Hs & _)]; [done|]. by apply strip_no_final_newline in Hs.
Qed.

Lemma optional_space_maybe w :
  re.maybe (re.one_of isspace_char) w ↔ helpers.shapes.optional_space w.
Proof. unfold re.maybe, re.one_of, helpers.shapes.optional_space. tauto. Qed.

Lemma run_of_exact n w :
  re.run_of isdecimal_char n n w ↔ helpers.shapes.digits w ∧ length w = n.
Proof. unfold re.run_of, helpers.shapes.digits. split; intros [? ?]; split; (done || lia). Qed.

Lemma one_of_lit c w : re.one_of (N.eqb c) w ↔ w = [c].
Proof.
  unfold re.one_of. split.
  - intros (x & ->%N.eqb_eq & ->). done.
  - intros ->. exists c. by rewrite N.eqb_refl.
Qed.

Lemma match_grouped t :
  re.match_ helpers.pattern_grouped t = true ↔ re.upto_newline helpers.shapes.grouped t.
Proof.
  unfold helpers.pattern_grouped. rewrite match_anchored by tail_of_pattern.
  assert (Heq : ∀ w,
    re.cat (re.one_of (N.eqb 43))
      (re.cat (re.run_of isdecimal_char 2 2)
        (re.cat (re.maybe (re.one_of isspace_char))
          (re.cat (re.run_of isdecimal_char 3 3)
            (re.cat (re.maybe (re.one_of isspace_char))
              (re.cat (re.run_of isdecimal_char 3 3)
                (re.cat (re.maybe (re.one_of isspace_char))
                  (re.cat (re.run_of isdecimal_char 4 4) re.empty))))))) w
    ↔ helpers.shapes.grouped w).
  { intros w. unfold re.cat, helpers.shapes.grouped, re.empty. split.
    - intros (p & ? & -> & ->%one_of_lit & cc & ? & -> & [Hcc Lcc]%run_of_exact
              & sp1 & ? & -> & Hsp1%optional_space_maybe
              & g1 & ? & -> & [Hg1 Lg1]%run_of_exact
              & sp2 & ? & -> & Hsp2%optional_space_maybe
              & g2 & ? & -> & [Hg2 Lg2]%run_of_exact
              & sp3 & ? & -> & Hsp3%optional_space_maybe
              & g3 & ? & -> & [Hg3 Lg3]%run_of_exact & ->).
      exists cc, sp1, g1, sp2, g2, sp3, g3. rewrite app_nil_r. simpl. tauto.
    - intros (cc & sp1 & g1 & sp2 & g2 & sp3 & g3 & -> & Hcc & Lcc & Hsp1 & Hg1 & Lg1
              & Hsp2 & Hg2 & Lg2 & Hsp3 & Hg3 & Lg3).
      exists [43%N], (cc ++ sp1 ++ g1 ++ sp2 ++ g2 ++ sp3 ++ g3).
      split; [done|]. split; [by apply one_of_lit|].
      exists cc, (sp1 ++ g1 ++ sp2 ++ g2 ++ sp3 ++ g3).
      split; [done|]. split; [by apply run_of_exact|].
      exists sp1, (g1 ++ sp2 ++ g2 ++ sp3 ++ g3).
      split; [done|]. split; [by apply optional_space_maybe|].
      exists g1, (sp2 ++ g2 ++ sp3 ++ g3).
      split; [done|]. split; [by apply run_of_exact|].
      exists sp2, (g2 ++ sp3 ++ g3).
      split; [done|]. split; [by apply optional_space_maybe|].
      exists g2, (sp3 ++ g3).
      split; [done|]. split; [by apply run_of_exact|].
      exists sp3, g3.
      split; [done|]. split; [by apply optional_space_maybe|].
      exists g3, []. rewrite app_nil_r.
      split; [done|]. split; [by apply run_of_exact|done]. }
  unfold re.upto_newline. rewrite Heq. by setoid_rewrite Heq.
Qed.

Lemma match_local t :
  re.match_ helpers.pattern_local t = true ↔ re.upto_newline helpers.shapes.local t.
Proof.
  unfold helpers.pattern_local. rewrite match_anchored by tail_of_pattern.
  assert (Heq : ∀ w,
    re.cat (re.one_of (N.eqb 48)) (re.cat (re.run_of isdecimal_char 9 9) re.empty) w
    ↔ helpers.shapes.local w).
  { intros w. unfold re.cat, helpers.shapes.local, re.empty, helpers.shapes.digits. split.
    - intros (p & ? & -> & ->%one_of_lit & ds & ? & -> & [Hds Lds]%run_of_exact & ->).
      rewrite app_nil_r. simpl. split; [lia|]. split; [|done].
      constructor; done.
    - intros (Hlen & Hall & Hhd). destruct w as [|c ds]; [done|].
      simpl in Hhd. injection Hhd as ->. inversion Hall; subst.
      exists [48%N], ds. split; [done|]. split; [by apply one_of_lit|].
      exists ds, []. rewrite app_nil_r. split; [done|]. split; [|done].
      apply run_of_exact. simpl in Hlen. split; [done|lia]. }
  unfold re.upto_newline. rewrite Heq. by setoid_rewrite Heq.
Qed.

Lemma match_plus t :
  re.match_ helpers.pattern_plus t = true ↔ re.upto_newline helpers.shapes.plus t.
Proof.
  unfold helpers.pattern_plus. rewrite match_anchored by tail_of_pattern.
  assert (Heq : ∀ w,
    re.cat (re.one_of (N.eqb 43)) (re.cat (re.run_of isdecimal_char 9 15) re.empty) w
    ↔ helpers.shapes.plus w).
  { intros w. unfold re.cat, helpers.shapes.plus, re.empty, re.run_of, helpers.shapes.digits.
    split.
    - intros (p & ? & -> & ->%one_of_lit & ds & ? & -> & [Lds Hds] & ->).
      rewrite app_nil_r. exists ds. simpl in *. split; [done|]. split; [done|lia].
    - intros (ds & -> & Hds & Lds).
      exists [43%N], ds. split; [done|]. split; [by apply one_of_lit|].
      exists ds, []. rewrite app_nil_r. split; [done|]. split; [|done].
      simpl. split; [lia|done]. }
  unfold re.upto_newline. rewrite Heq. by setoid_rewrite Heq.
Qed.

Lemma is_phone_valid_shapes s :
  helpers.is_phone_valid s = true ↔ helpers.shapes.phone (strip s).
Proof.
  unfold helpers.is_phone_valid, helpers.shapes.phone. simpl.
  rewrite !orb_true_iff, match_grouped, match_local, match_plus, !upto_newline_strip.
  intuition discriminate.
Qed.

End PhoneFacts.


(** ** The shapes read to the letter *)

Lemma literal_digits_alphabet w :
  helpers.shapes.literal.digits w → forallb helpers.shapes.literal.alphabet w = true.
Proof.
  intros H. apply forallb_forall. intros c Hc.
  unfold helpers.shapes.literal.digits in H. rewrite List.Forall_forall in H.
  specialize (H c Hc). unfold helpers.shapes.literal.alphabet.
  apply orb_true_iff. right. apply andb_true_iff. split; apply N.leb_le; lia.
Qed.

Lemma literal_space_alphabet w :
  helpers.shapes.literal.optional_space w →
  forallb helpers.shapes.literal.alphabet w = true.
Proof. by intros [->| ->]. Qed.

Lemma literal_phone_alphabet t :
  helpers.shapes.literal.phone t → forallb helpers.shapes.literal.alphabet t = true.
Proof.
  intros [(cc & sp1 & g1 & sp2 & g2 & sp3 & g3 & -> & Hcc & _ & H1 & Hg1 & _ & H2 & Hg2 & _
           & H3 & Hg3 & _)|[(_ & Hds & _)|(ds & -> & Hds & _)]].
  - cbn [forallb]. rewrite !forallb_app.
    rewrite (literal_digits_alphabet cc), (literal_digits_alphabet g1),
      (literal_digits_alphabet g2), (literal_digits_alphabet g3),
      (literal_space_alphabet sp1), (literal_space_alphabet sp2),
      (literal_space_alphabet sp3) by done.
    reflexivity.
  - by apply literal_digits_alphabet.
  - cbn [forallb]. by rewrite literal_digits_alphabet.
Qed.

Lemma literal_phone_starts t :
  helpers.shapes.literal.phone t → head t = Some 43%N ∨ head t = Some 48%N.
Proof.
  intros [(cc & sp1 & g1 & sp2 & g2 & sp3 & g3 & -> & _)|[(_ & _ & Hhead)|(ds & -> & _)]];
    auto.
Qed.

Lemma shapes_phone_starts {U : UnicodeData} t :
  helpers.shapes.phone t → head t = Some 43%N ∨ head t = Some 48%N.
Proof.
  intros [(cc & sp1 & g1 & sp2 & g2 & sp3 & g3 & -> & _)|[(_ & _ & Hhead)|(ds & -> & _)]];
    auto.
Qed.

(** ** Claims on phone validation *)

(** C6, as the code has it.  Phone validation strips the input and then
    accepts exactly the strings of the three shapes: '+', a two-digit country
    code and digit groups of 3, 3 and 4 with at most one white-space character
    before each group; ten digits starting with '0'; '+' followed by 9 to 15
    digits.  A digit is a character of the class \d, any decimal digit of
    Unicode, and a white-space character one of the class \s.  It accepts
    "+84 912 345 6789", "0912345678" and "+123456789", and rejects "12345" and
    "abc". *)
Theorem C6_phone_validation_shapes {U : UnicodeData} :
  (∀ s, helpers.is_phone_valid s = true ↔ helpers.shapes.phone (strip s))
  ∧ (∀ s, strip s = s → (helpers.is_phone_valid s = true ↔ helpers.shapes.phone s))
  ∧ helpers.is_phone_valid (lit "+84 912 345 6789") = true
  ∧ helpers.is_phone_valid (lit "0912345678") = true
  ∧ helpers.is_phone_valid (lit "+123456789") = true
  ∧ helpers.is_phone_valid (lit "12345") = false
  ∧ helpers.is_phone_valid (lit "abc") = false.
Proof.
  split; [apply is_phone_valid_shapes|].
  split; [intros s Hs; rewrite <- Hs at 2; apply is_phone_valid_shapes|].
  repeat split; reflexivity.
Qed.

(** C10. Phone validation does not depend on surrounding white space:
    validating a string and validating it stripped give the same verdict, and
    so does validating it with any white space put around it. *)
Theorem C10_phone_validation_strip {U : UnicodeData} :
  (∀ s, helpers.is_phone_valid (strip s) = helpers.is_phone_valid s)
  ∧ (∀ l s r, blank l → blank r →
       helpers.is_phone_valid (l ++ s ++ r) = helpers.is_phone_valid s).
Proof.
  split.
  - intros s. unfold helpers.is_phone_valid. by rewrite strip_idem.
  - intros l s r Hl Hr. unfold helpers.is_phone_valid. by rewrite strip_blank_around.
Qed.

(** ** The storage layer *)

Ltac step_m :=
  unfold mbind, M_bind, mret, M_ret, raise, get, put, lift, Database.conn,
    Database.set_conn, Database.outcome in *; simpl in *.

Lemma str_eqb_eq a b : Database.str_eqb a b = true ↔ a = b.
Proof. unfold Database.str_eqb. apply bool_decide_eq_true. Qed.

Lemma next_rowid_fresh seq ids : ∀ i, In i ids → (i < Database.next_rowid seq ids)%Z.
Proof.
  unfold Database.next_rowid. induction ids as [|j ids IH]; simpl; [done|].
  intros i [->|Hi]; [lia|]. specialize (IH i Hi). lia.
Qed.

Lemma NoDup_snoc {A} (l : list A) x : NoDup l → ¬ In x l → NoDup (l ++ [x]).
Proof.
  intros Hl Hx. apply NoDup_app. split; [done|]. split.
  - intros y Hy ->%list_elem_of_singleton. by apply list_elem_of_In in Hy.
  - apply NoDup_singleton.
Qed.

Lemma existsb_name_false name rows :
  existsb (λ row, Database.str_eqb (Category.name row) name) rows = false →
  ¬ In name (map Category.name rows).
Proof.
  intros He Hin. apply in_map_iff in Hin as (row & Hn & Hrow).
  assert (Ht : existsb (λ row, Database.str_eqb (Category.name row) name) rows = true).
  { apply existsb_exists. exists row. split; [done|]. by apply str_eqb_eq. }
  congruence.
Qed.

Lemma add_category_keeps name self :
  Database.category_ids_distinct self → Database.category_names_distinct self →
  Database.category_ids_distinct (snd (Database.add_category name self))
  ∧ Database.category_names_distinct (snd (Database.add_category name self)).
Proof.
  unfold Database.category_ids_distinct, Database.category_names_distinct,
    Database.category_rows, Database.add_category.
  destruct self as [path [c|]]; step_m; [|done].
  intros Hids Hnames.
  destruct (existsb _ (Database.categories c)) eqn:He; simpl; [done|].
  rewrite !map_app. simpl. split.
  - apply NoDup_snoc; [done|]. intros Hin.
    apply (next_rowid_fresh (Database.seq_categories c)) in Hin. lia.
  - apply NoDup_snoc; [done|]. by apply existsb_name_false.
Qed.

Lemma renamed_keeps_ids category_id new_name rows :
  map Category.id (map (Database.renamed category_id new_name) rows) = map Category.id rows.
Proof.
  induction rows as [|row rows IH]; simpl; [done|]. rewrite IH. f_equal.
  unfold Database.renamed. by destruct (Category.id row =? category_id)%Z.
Qed.

Lemma renamed_absent category_id new_name rows :
  (∀ row, In row rows → Category.id row ≠ category_id) →
  map (Database.renamed category_id new_name) rows = rows.
Proof.
  induction rows as [|row rows IH]; simpl; [done|]. intros Hrows.
  rewrite IH by auto. f_equal. unfold Database.renamed.
  destruct (Z.eqb_spec (Category.id row) category_id) as [Heq|]; [|done].
  by apply Hrows in Heq; [|left].
Qed.

Lemma renamed_names_distinct category_id new_name rows :
  NoDup (map Category.id rows) → NoDup (map Category.name rows) →
  (∀ row, In row rows → Category.id row ≠ category_id → Category.name row ≠ new_name) →
  NoDup (map Category.name (map (Database.renamed category_id new_name) rows)).
Proof.
  induction rows as [|row rows IH]; simpl; [constructor|].
  intros [Hid Hids]%NoDup_cons [Hname Hnames]%NoDup_cons Hfree.
  apply NoDup_cons. split; [|apply IH; auto].
  rewrite list_elem_of_In, in_map_iff. intros (row' & Heq & Hin).
  apply in_map_iff in Hin as (row0 & <- & Hin0).
  unfold Database.renamed in Heq.
  destruct (Z.eqb_spec (Category.id row) category_id) as [Hrow|Hrow];
    destruct (Z.eqb_spec (Category.id row0) category_id) as [Hrow0|Hrow0];
    simpl in Heq.
  - apply Hid. rewrite list_elem_of_In, in_map_iff. exists row0. split; [congruence|done].
  - by apply (Hfree row0); auto.
  - by apply (Hfree row); auto.
  - apply Hname. rewrite list_elem_of_In, in_map_iff. by exists row0.
Qed.

Lemma rename_category_keeps category_id new_name self :
  Database.category_ids_distinct self → Database.category_names_distinct self →
  Database.category_ids_distinct (snd (Database.rename_category category_id new_name self))
  ∧ Database.category_names_distinct
      (snd (Database.rename_category category_id new_name self)).
Proof.
  unfold Database.category_ids_distinct, Database.category_names_distinct,
    Database.category_rows, Database.rename_category.
  destruct self as [path [c|]]; step_m; [|done].
  intros Hids Hnames.
  destruct (existsb _ (Database.categories c)) eqn:Hex; simpl.
  - destruct (existsb _ (Database.categories c)) eqn:Hclash in |- *; simpl; [done|].
    rewrite renamed_keeps_ids. split; [done|].
    apply renamed_names_distinct; [done..|].
    intros row Hin Hid Hname.
    assert (Ht : existsb (λ row, negb (Category.id row =? category_id)%Z
                   && Database.str_eqb (Category.name row) new_name)
                   (Database.categories c) = true); [|congruence].
    apply existsb_exists. exists row. split; [done|].
    apply andb_true_iff. split; [|by apply str_eqb_eq].
    apply negb_true_iff. by apply Z.eqb_neq.
  - rewrite renamed_absent; [done|].
    intros row Hin Hid.
    assert (Ht : existsb (λ row, (Category.id row =? category_id)%Z)
                   (Database.categories c) = true); [|congruence].
    apply existsb_exists. exists row. split; [done|]. by apply Z.eqb_eq.
Qed.

Lemma NoDup_map_filter {A B} (f : A → B) (P : A → Prop) `{∀ x, Decision (P x)} l :
  NoDup (map f l) → NoDup (map f (filter P l)).
Proof.
  induction l as [|x l IH]; simpl; [done|].
  intros [Hx Hl]%NoDup_cons. rewrite filter_cons. destruct (decide (P x)); [|auto].
  simpl. apply NoDup_cons. split; [|auto].
  rewrite list_elem_of_In, in_map_iff. intros (y & Hy & Hin). apply Hx.
  rewrite list_elem_of_In, in_map_iff. exists y. split; [done|].
  apply list_elem_of_In. apply list_elem_of_In in Hin.
  by apply list_elem_of_filter in Hin as [_ ?].
Qed.

Lemma delete_category_keeps category_id self :
  Database.category_ids_distinct self → Database.category_names_distinct self →
  Database.category_ids_distinct (snd (Database.delete_category category_id self))
  ∧ Database.category_names_distinct (snd (Database.delete_category category_id self)).
Proof.
  unfold Database.category_ids_distinct, Database.category_names_distinct,
    Database.category_rows, Database.delete_category.
  destruct self as [path [c|]]; step_m; [|done].
  intros Hids Hnames.
  destruct (existsb _ (Database.categories c)); simpl; [|done].
  destruct (existsb _ (Database.orders c)); simpl; [done|].
  split; by apply NoDup_map_filter.
Qed.

Lemma add_categories_keeps names : ∀ self,
  Database.category_ids_distinct self → Database.category_names_distinct self →
  Database.category_ids_distinct (snd (Database.add_categories names self))
  ∧ Database.category_names_distinct (snd (Database.add_categories names self)).
Proof.
  induction names as [|name names IH]; intros self Hids Hnames; simpl; [done|].
  destruct (add_category_keeps name self Hids Hnames) as [Hids' Hnames'].
  unfold mbind, M_bind.
  destruct (Database.add_category name self) as [[rowid|e] self']; simpl in *; [|done].
  by apply IH.
Qed.

Lemma create_schema_keeps self :
  Database.category_ids_distinct self → Database.category_names_distinct self →
  Database.category_ids_distinct (snd (Database.create_schema self))
  ∧ Database.category_names_distinct (snd (Database.create_schema self)).
Proof.
  intros Hids Hnames. unfold Database.create_schema, Database.get_categories.
  destruct self as [path [c|]]; [|done].
  unfold mbind, M_bind, mret, M_ret, get, Database.conn.
  cbn -[Database.add_categories Database.default_categories].
  destruct (Database.categories c) eqn:Hc; [|split; assumption].
  by apply add_categories_keeps.
Qed.

Lemma call_other_rows op self :
  Database.touches_categories op = false →
  Database.category_rows (snd (Database.call op self)) = Database.category_rows self.
Proof.
  unfold Database.category_rows.
  destruct op; simpl; try discriminate; intros _;
    destruct self as [path [c|]];
    unfold Database.call, Database.add_product, Database.update_product,
      Database.delete_product, Database.get_products_by_category,
      Database.count_products_in_category, Database.get_product, Database.create_order,
      Database.update_order_status, Database.get_user_orders,
      Database.get_last_completed_orders, Database.get_order,
      Database.save_support_message, Database.get_categories; step_m;
    repeat case_match; simplify_eq/=; done.
Qed.

Lemma call_keeps op self :
  Database.category_ids_distinct self → Database.category_names_distinct self →
  Database.category_ids_distinct (snd (Database.call op self))
  ∧ Database.category_names_distinct (snd (Database.call op self)).
Proof.
  intros Hids Hnames.
  destruct (Database.touches_categories op) eqn:Hop.
  - destruct op; try discriminate; simpl.
    + destruct (create_schema_keeps self Hids Hnames) as [? ?].
      by destruct (Database.create_schema self) as [[?|?] ?].
    + destruct (add_category_keeps name self Hids Hnames) as [? ?].
      by destruct (Database.add_category name self) as [[?|?] ?].
    + destruct (rename_category_keeps category_id new_name self Hids Hnames) as [? ?].
      by destruct (Database.rename_category category_id new_name self) as [[?|?] ?].
    + destruct (delete_category_keeps category_id self Hids Hnames) as [? ?].
      by destruct (Database.delete_category category_id self) as [[?|?] ?].
  - unfold Database.category_ids_distinct, Database.category_names_distinct.
    by rewrite call_other_rows.
Qed.

Lemma perform_keeps ops : ∀ self,
  Database.category_ids_distinct self → Database.category_names_distinct self →
  Database.category_ids_distinct (Database.perform ops self)
  ∧ Database.category_names_distinct (Database.perform ops self).
Proof.
  unfold Database.perform.
  induction ops as [|op ops IH]; intros self Hids Hnames; simpl; [done|].
  destruct (call_keeps op self Hids Hnames) as [? ?]. by apply IH.
Qed.

Lemma add_category_existing name path c :
  In name (map Category.name (Database.categories c)) →
  ∃ c', Database.add_category name (Database.mk path (Some c))
        = (Ok (Database.last_insert_rowid c), Database.mk path (Some c'))
        ∧ Database.categories c' = Database.categories c
        ∧ Database.products c' = Database.products c
        ∧ Database.orders c' = Database.orders c
        ∧ Database.support_messages c' = Database.support_messages c.
Proof.
  intros Hin. unfold Database.add_category. step_m.
  destruct (existsb _ (Database.categories c)) eqn:He.
  - eexists. split; [reflexivity|]. done.
  - by apply existsb_name_false in He.
Qed.

(** ** Claims on the storage layer *)

(** C9. The names of the categories stay pairwise distinct through any run
    of storage operations (the category operations among them) that starts
    from a table obeying its constraints; adding a name that is already
    there leaves the list of categories as it is, row for row, and the
    products, orders and support messages with it. *)
Theorem C9_category_names_stay_distinct :
  (∀ ops self,
     Database.category_ids_distinct self → Database.category_names_distinct self →
     Database.category_names_distinct (Database.perform ops self))
  ∧ (∀ name path c,
       In name (map Category.name (Database.categories c)) →
       ∃ c', Database.add_category name (Database.mk path (Some c))
             = (Ok (Database.last_insert_rowid c), Database.mk path (Some c'))
             ∧ Database.categories c' = Database.categories c
             ∧ Database.products c' = Database.products c
             ∧ Database.orders c' = Database.orders c
             ∧ Database.support_messages c' = Database.support_messages c).
Proof.
  split.
  - intros ops self Hids Hnames. by apply perform_keeps.
  - apply add_category_existing.
Qed.

Lemma before_connect_attribute_error self op :
  Database._conn self = None →
  op ≠ Database.op_create_schema →
  (∀ product_id, op ≠ Database.op_update_product product_id []) →
  Database.call op self = (Raise AttributeError, self).
Proof.
  destruct self as [path [c|]]; [discriminate|]. intros _ Hschema Hupdate.
  destruct op; try done.
  destruct fields; [by destruct (Hupdate product_id)|done].
Qed.

(** C3, as the code has it.  Before the connection is established,
    create_schema fails with the "not initialized" error; update_product
    without fields returns normally; every other operation fails too, on the
    absent connection, and nothing is changed. *)
Theorem C3_before_connect self :
  Database._conn self = None →
  Database.call Database.op_create_schema self = (Raise Database.not_initialized, self)
  ∧ (∀ product_id,
       Database.call (Database.op_update_product product_id []) self = (Ok (), self))
  ∧ (∀ op,
       (∀ product_id, op ≠ Database.op_update_product product_id []) →
       ∃ e, Database.call op self = (Raise e, self)).
Proof.
  intros Hconn. split; [|split].
  - destruct self as [path [c|]]; [discriminate|done].
  - destruct self as [path [c|]]; [discriminate|done].
  - intros op Hupdate.
    destruct self as [path [c|]]; [discriminate|].
    destruct op; try by eexists.
    destruct fields; [by destruct (Hupdate product_id)|by eexists].
Qed.

(** ** Running handlers *)

Lemma bind_ok {S A B} (m : M S A) (k : A → M S B) s a s' :
  m s = (Ok a, s') → (m ≫= k) s = k a s'.
Proof. unfold mbind, M_bind. by intros ->. Qed.

Lemma bind_raise {S A B} (m : M S A) (k : A → M S B) s e s' :
  m s = (Raise e, s') → (m ≫= k) s = (Raise e, s').
Proof. unfold mbind, M_bind. by intros ->. Qed.

Lemma for_each_emit {A} (f : A → sent) l : ∀ w,
  for_each l (λ x, emit (f x)) w = (Ok (), put_outbox w (outbox w ++ map f l)).
Proof.
  induction l as [|x l IH]; intros w; simpl.
  - unfold mret, M_ret, put_outbox. rewrite app_nil_r. by destruct w.
  - erewrite bind_ok; [|reflexivity]. rewrite IH. unfold put_outbox. simpl.
    by rewrite <- app_assoc.
Qed.

(** ** Pages of products *)

Lemma insert_desc_length {A} (key : A → Z) x l :
  length (Database.insert_desc key x l) = S (length l).
Proof.
  induction l as [|y l IH]; simpl; [done|].
  destruct (key y <=? key x)%Z; simpl; [done|]. by rewrite IH.
Qed.

Lemma order_by_desc_length {A} (key : A → Z) (l : list A) :
  length (Database.order_by_desc key l) = length l.
Proof.
  unfold Database.order_by_desc. induction l as [|x l IH]; simpl; [done|].
  by rewrite insert_desc_length, IH.
Qed.

Lemma ceil_div_5 n : (0 ≤ n)%Z → catalog.ceil_div n 5 = ((n + 4) / 5)%Z.
Proof.
  intros Hn. unfold catalog.ceil_div.
  pose proof (Z.div_mod (- n) 5 ltac:(lia)). pose proof (Z.mod_pos_bound (- n) 5 ltac:(lia)).
  pose proof (Z.div_mod (n + 4) 5 ltac:(lia)). pose proof (Z.mod_pos_bound (n + 4) 5 ltac:(lia)).
  lia.
Qed.

Lemma on_db_read {A} (m : M Database.t A) (a : A) w :
  m (db w) = (Ok a, db w) → on_db m w = (Ok a, w).
Proof. unfold on_db. intros ->. by destruct w. Qed.

(** A page of products, as send_products_page sends it. *)
Lemma pagination_runs (w : World) (c : Database.Connection) (category_id page : Z) :
  Database._conn (db w) = Some c →
  let active := List.filter (Database.active_in category_id) (Database.products c) in
  let n := Z.of_nat (length active) in
  let total_pages := Z.max 1 (catalog.ceil_div n catalog.PAGE_SIZE) in
  let p := Z.min (Z.max 1 page) total_pages in
  let rows :=
    firstn 5 (skipn (Z.to_nat ((p - 1) * 5))
                (Database.order_by_desc Product.created_at active)) in
  catalog.send_products_page category_id page w
  = (Ok (),
     put_outbox w
       (outbox w
        ++ [catalog.page_header (Database.categories c) category_id p total_pages]
        ++ map (catalog.product_card category_id p) rows
        ++ [catalog.page_navigation category_id p total_pages]))
  ∧ total_pages = Z.max 1 ((n + 4) / 5)
  ∧ (n = 0%Z → total_pages = 1%Z)
  ∧ (1 ≤ p ≤ total_pages)%Z
  ∧ (length rows ≤ 5)%nat
  ∧ Z.of_nat (length rows) = Z.min 5 (n - (p - 1) * 5)
  ∧ (n = 12%Z →
     total_pages = 3%Z ∧ (page = 0%Z → p = 1%Z) ∧ (page = 99%Z → p = 3%Z)
     ∧ (page = 3%Z → length rows = 2%nat)).
Proof.
  intros Hc active n total_pages p rows.
  assert (Hn : (0 ≤ n)%Z) by (unfold n; lia).
  assert (Htotal : total_pages = Z.max 1 ((n + 4) / 5)).
  { unfold total_pages, catalog.PAGE_SIZE. by rewrite ceil_div_5. }
  assert (Hdiv : (5 * ((n + 4) / 5) ≤ n + 4 < 5 * ((n + 4) / 5) + 5)%Z).
  { pose proof (Z.div_mod (n + 4) 5 ltac:(lia)).
    pose proof (Z.mod_pos_bound (n + 4) 5 ltac:(lia)). lia. }
  assert (Hp : (1 ≤ p ≤ total_pages)%Z) by (unfold p; lia).
  assert (Hoff : (0 ≤ (p - 1) * 5 ≤ n)%Z) by lia.
  assert (Hlen : Z.of_nat (length rows) = Z.min 5 (n - (p - 1) * 5)).
  { unfold rows. rewrite length_firstn, length_skipn, order_by_desc_length.
    fold active. unfold n in *. lia. }
  split; [|split; [done|split; [|split; [done|split; [lia|split; [done|]]]]]].
  - unfold catalog.send_products_page.
    erewrite bind_ok; cycle 1.
    { apply on_db_read. unfold Database.count_products_in_category. step_m.
      by rewrite Hc. }
    erewrite bind_ok; cycle 1.
    { apply on_db_read. unfold Database.get_products_by_category. step_m.
      by rewrite Hc. }
    erewrite bind_ok; cycle 1.
    { apply on_db_read. unfold Database.get_categories. step_m. by rewrite Hc. }
    erewrite bind_ok; [|reflexivity].
    erewrite bind_ok; [|apply for_each_emit].
    unfold emit, put_outbox, Database.limit_offset, catalog.PAGE_SIZE. simpl.
    fold active. fold n. fold total_pages. fold p. fold rows.
    by rewrite <- !app_assoc.
  - intros H0. rewrite Htotal, H0. reflexivity.
  - intros H12. rewrite H12 in *. change ((12 + 4) / 5)%Z with 3%Z in *.
    split; [lia|]. split; [intros ->; lia|]. split; [intros ->; lia|].
    intros ->. assert (p = 3%Z) as Hp3 by lia. rewrite Hp3 in Hlen. lia.
Qed.

(** ** Moderation of orders *)

Lemma on_db_write {A} (m : M Database.t A) (a : A) d w :
  m (db w) = (Ok a, d) → on_db m w = (Ok a, put_db w d).
Proof. unfold on_db, put_db. by intros ->. Qed.

Lemma send_best_effort chat text kb w :
  try_except (bot.send_message chat text kb) (mret ()) w
  = (Ok (), put_outbox w
              (outbox w ++ if unreachable w chat then [] else [send_message chat text kb])).
Proof.
  unfold try_except, bot.send_message, emit, put_outbox, mret, M_ret.
  destruct (unreachable w chat); simpl; [|done].
  rewrite app_nil_r. by destruct w.
Qed.

Lemma find_updated status order_id order rows :
  List.find (λ o, (Order.id o =? order_id)%Z) rows = Some order →
  List.find (λ o, (Order.id o =? order_id)%Z)
    (map (λ o, if (Order.id o =? order_id)%Z then Database.set_status status o else o) rows)
  = Some (Database.set_status status order).
Proof.
  induction rows as [|o rows IH]; simpl; [discriminate|].
  destruct (Order.id o =? order_id)%Z eqn:Ho; simpl.
  - intros [= ->]. by rewrite Ho.
  - rewrite Ho. apply IH.
Qed.

Section Moderation.
Context {U : UnicodeData}.
Variables (w : World) (cb : CallbackQuery.t) (settings : Settings.t).
Variables (c : Database.Connection) (order_id : Z) (order : Order.t).
Hypothesis Hadmin : User.id (CallbackQuery.from_user cb) ∈ Settings.admin_ids settings.
Hypothesis Hid : orders.callback_id cb = Ok order_id.
Hypothesis Hconn : Database._conn (db w) = Some c.
Hypothesis Hfound :
  List.find (λ o, (Order.id o =? order_id)%Z) (Database.orders c) = Some order.

Lemma relabelled_order label :
  fst (Database.get_order order_id
         (snd (Database.update_order_status order_id label (db w))))
  = Ok (Some (Database.set_status label order)).
Proof.
  unfold Database.get_order, Database.update_order_status. step_m.
  rewrite Hconn. simpl. by rewrite (find_updated label order_id order).
Qed.

Lemma other_orders_stay label other :
  other ≠ order_id →
  fst (Database.get_order other
         (snd (Database.update_order_status order_id label (db w))))
  = fst (Database.get_order other (db w)).
Proof.
  intros Hother. unfold Database.get_order, Database.update_order_status. step_m.
  rewrite Hconn. simpl. f_equal. clear Hfound.
  induction (Database.orders c) as [|o os IH]; simpl; [done|].
  destruct (Z.eqb_spec (Order.id o) order_id) as [Ho|Ho]; simpl.
  - rewrite (proj2 (Z.eqb_neq (Order.id o) other)) by lia. exact IH.
  - destruct (Order.id o =? other)%Z; [done|exact IH].
Qed.

Lemma moderation_runs label note answer_text
    (handler : CallbackQuery.t → Settings.t → M World unit) :
  (∀ w0, handler cb settings w0 =
     (if negb (orders._ensure_admin (User.id (CallbackQuery.from_user cb)) settings)
      then emit (cb_answer (Some (lit "Недостаточно прав")) true)
      else
        order_id ← lift (orders.callback_id cb);
        order ← on_db (Database.get_order order_id);
        match order with
        | None => emit (cb_answer (Some (lit "Заказ не найден")) true)
        | Some order =>
          on_db (Database.update_order_status order_id label);;
          try_except (bot.send_message (Order.user_id order) (note order_id) None) (mret ());;
          emit (cb_answer (Some answer_text) false)
        end) w0) →
  handler cb settings w
  = (Ok (),
     put_outbox (put_db w (snd (Database.update_order_status order_id label (db w))))
       (outbox w
        ++ (if unreachable w (Order.user_id order) then []
            else [send_message (Order.user_id order) (note order_id) None])
        ++ [cb_answer (Some answer_text) false])).
Proof.
  intros ->. unfold orders._ensure_admin. rewrite bool_decide_eq_true_2 by done. simpl.
  erewrite bind_ok; [|unfold lift; by rewrite Hid].
  erewrite bind_ok; cycle 1.
  { apply on_db_read. unfold Database.get_order. step_m. by rewrite Hconn. }
  rewrite Hfound.
  erewrite bind_ok; cycle 1.
  { apply on_db_write. unfold Database.update_order_status. step_m. by rewrite Hconn. }
  erewrite bind_ok; [|apply send_best_effort].
  unfold emit, put_outbox, put_db, Database.update_order_status. step_m.
  rewrite Hconn. simpl. by rewrite <- app_assoc.
Qed.

(** C5. For an order that exists, the accept action of an administrator
    sets its status to "🔵 В работе" and the reject action sets it to
    "❌ Отменён": afterwards the order reads back with that status and with
    every other field as it was, and the other orders read as before.
    Whether or not the customer can be reached, the handler returns normally
    and the status is written: a notification that fails is dropped, one
    that succeeds is in the outbox. *)
Theorem C5_order_moderation :
  let accepted := orders.admin_order_accept cb settings w in
  let rejected := orders.admin_order_reject cb settings w in
  let notified text :=
    if unreachable w (Order.user_id order) then []
    else [send_message (Order.user_id order) text None] in
  let with_status label :=
    Order.mk (Order.id order) (Order.user_id order) (Order.username order)
      (Order.product_id order) (Order.price order) (Order.delivery_date order)
      (Order.delivery_time order) (Order.address order) (Order.card_text order)
      (Order.phone order) label (Order.created_at order) in
  (fst accepted = Ok ()
   ∧ db (snd accepted)
     = snd (Database.update_order_status order_id status_in_progress (db w))
   ∧ fst (Database.get_order order_id (db (snd accepted)))
     = Ok (Some (with_status (lit "🔵 В работе")))
   ∧ (∀ other, other ≠ order_id →
        fst (Database.get_order other (db (snd accepted)))
        = fst (Database.get_order other (db w)))
   ∧ outbox (snd accepted)
     = outbox w
       ++ notified (lit "Ваш заказ #" ++ str_of_Z order_id ++ lit " принят в работу! 🚀")
       ++ [cb_answer (Some (lit "Статус обновлён")) false])
  ∧ (fst rejected = Ok ()
     ∧ db (snd rejected)
       = snd (Database.update_order_status order_id status_cancelled (db w))
     ∧ fst (Database.get_order order_id (db (snd rejected)))
       = Ok (Some (with_status (lit "❌ Отменён")))
     ∧ (∀ other, other ≠ order_id →
          fst (Database.get_order other (db (snd rejected)))
          = fst (Database.get_order other (db w)))
     ∧ outbox (snd rejected)
       = outbox w
         ++ notified (lit "К сожалению, заказ #" ++ str_of_Z order_id
                      ++ lit " отклонён. Свяжитесь с поддержкой для уточнения.")
         ++ [cb_answer (Some (lit "Статус обновлён")) false]).
Proof.
  intros accepted rejected notified with_status. split.
  - unfold accepted.
    rewrite (moderation_runs status_in_progress
               (λ i, lit "Ваш заказ #" ++ str_of_Z i ++ lit " принят в работу! 🚀")
               (lit "Статус обновлён") orders.admin_order_accept) by done.
    simpl. split; [done|]. split; [done|]. split; [apply relabelled_order|].
    split; [|done]. by apply other_orders_stay.
  - unfold rejected.
    rewrite (moderation_runs status_cancelled
               (λ i, lit "К сожалению, заказ #" ++ str_of_Z i
                     ++ lit " отклонён. Свяжитесь с поддержкой для уточнения.")
               (lit "Статус обновлён") orders.admin_order_reject) by done.
    simpl. split; [done|]. split; [done|]. split; [apply relabelled_order|].
    split; [|done]. by apply other_orders_stay.
Qed.

End Moderation.

(** ** Confirmation of an order *)

Lemma notify_admins_runs text kb admin_ids : ∀ w,
  notify_admins admin_ids text kb w
  = (Ok (),
     put_outbox w
       (outbox w
        ++ map (λ admin_id, send_message admin_id text kb)
             (List.filter (λ admin_id, negb (unreachable w admin_id)) admin_ids))).
Proof.
  unfold notify_admins.
  induction admin_ids as [|admin_id admin_ids IH]; intros w; simpl.
  - unfold mret, M_ret, put_outbox. rewrite app_nil_r. by destruct w.
  - erewrite bind_ok; [|apply send_best_effort]. rewrite IH.
    unfold put_outbox. simpl. destruct (unreachable w admin_id); simpl.
    + by rewrite app_nil_r.
    + by rewrite <- app_assoc.
Qed.

Section Confirmation.
Context {U : UnicodeData}.
Variables (w : World) (cb : CallbackQuery.t) (settings : Settings.t).
Variables (c : Database.Connection) (product : Product.t).
Variables (product_id snapshot : Z) (delivery_date delivery_time address phone : str).
Variable card_text : option str.

(** The data bag at confirmation, as the steps of the dialogue leave it;
    [snapshot] is the price that order_start copied into it. *)
Hypothesis Hproduct_id : fsm_data w !! "product_id"%string = Some (v_int product_id).
Hypothesis Hsnapshot : fsm_data w !! "product_price"%string = Some (v_int snapshot).
Hypothesis Hdate : fsm_data w !! "delivery_date"%string = Some (v_str delivery_date).
Hypothesis Htime : fsm_data w !! "delivery_time"%string = Some (v_str delivery_time).
Hypothesis Haddress : fsm_data w !! "address"%string = Some (v_str address).
Hypothesis Hphone : fsm_data w !! "phone"%string = Some (v_str phone).
Hypothesis Hcard :
  item_get (fsm_data w) "card_text"
  = match card_text with Some text => v_str text | None => v_none end.

(** The storage at confirmation. *)
Hypothesis Hconn : Database._conn (db w) = Some c.
Hypothesis Hstored :
  List.find (λ row, (Product.id row =? product_id)%Z) (Database.products c) = Some product.

(** C1. Confirming an order reads the product from storage and writes an
    order row whose price is the stored price at that moment, whatever
    price was copied into the conversation when the order was started; the
    row carries the collected fields and the status of a new order. *)
Theorem C1_order_price_at_confirmation :
  let after := orders.order_confirm cb settings w in
  let order_id := Database.next_rowid (Database.seq_orders c)
                    (map Order.id (Database.orders c)) in
  let user := CallbackQuery.from_user cb in
  let row :=
    Order.mk order_id (User.id user) (User.username user) product_id
      (Product.price product) delivery_date delivery_time address card_text phone
      status_new (Database.current_timestamp c) in
  fst after = Ok ()
  ∧ (∃ c', Database._conn (db (snd after)) = Some c'
           ∧ Database.orders c' = Database.orders c ++ [row])
  ∧ Order.price row = Product.price product
  ∧ (Product.price product ≠ snapshot → Order.price row ≠ snapshot).
Proof using All.
  intros after order_id user row.
  assert (Hexists : Database.product_exists c product_id = true).
  { unfold Database.product_exists. apply existsb_exists. exists product.
    apply find_some in Hstored. tauto. }
  set (c' := {| Database.categories := Database.categories c;
                Database.products := Database.products c;
                Database.orders := Database.orders c ++ [row];
                Database.support_messages := Database.support_messages c;
                Database.seq_categories := Database.seq_categories c;
                Database.seq_products := Database.seq_products c;
                Database.seq_orders := order_id;
                Database.seq_support_messages := Database.seq_support_messages c;
                Database.last_insert_rowid := order_id;
                Database.current_timestamp := Database.current_timestamp c |}).
  assert (Hcreate :
    on_db (Database.create_order (User.id user) (User.username user) product_id
             (Product.price product) delivery_date delivery_time address card_text phone
             status_new) w
    = (Ok order_id, put_db w (Database.mk (Database.db_path (db w)) (Some c')))).
  { apply on_db_write. unfold Database.create_order. step_m.
    rewrite Hconn. simpl. rewrite Hexists. reflexivity. }
  assert (Hrun : ∃ out, after
    = (Ok (), mkWorld (Database.mk (Database.db_path (db w)) (Some c')) None ∅ (clock w)
                (unreachable w) out)).
  { unfold after, orders.order_confirm.
    erewrite bind_ok; [|reflexivity].
    erewrite bind_ok; cycle 1.
    { unfold item. rewrite Hproduct_id. reflexivity. }
    erewrite bind_ok; cycle 1.
    { apply on_db_read. unfold Database.get_product. step_m. by rewrite Hconn. }
    rewrite Hstored. unfold item. rewrite Hdate, Htime, Haddress, Hphone, Hcard.
    do 7 (erewrite bind_ok; [|reflexivity]).
    erewrite bind_ok; cycle 1.
    { destruct card_text; reflexivity. }
    erewrite bind_ok; [|reflexivity].
    erewrite bind_ok; [|apply Hcreate].
    erewrite bind_ok; [|apply notify_admins_runs].
    erewrite bind_ok; [|reflexivity].
    erewrite bind_ok; [|reflexivity].
    eexists. reflexivity. }
  destruct Hrun as [out ->]. simpl. split; [done|]. split; [by exists c'|done].
Qed.

End Confirmation.

(** ** The address step *)

Lemma address_text_short w message text :
  Message.text message = Some text → (length (strip text) < 10)%nat →
  orders.address_text message w
  = (Ok (),
     put_outbox w
       (outbox w
        ++ [answer (lit "Пожалуйста, укажите полный адрес (минимум 10 символов).") None])).
Proof.
  intros Htext Hshort. unfold orders.address_text. rewrite Htext.
  erewrite bind_ok; [|reflexivity].
  by rewrite (proj2 (Nat.ltb_lt _ _) Hshort).
Qed.

Lemma address_text_long w message text :
  Message.text message = Some text → (10 ≤ length (strip text))%nat →
  fsm_data (snd (orders.address_text message w))
  = <["address"%string := v_str (strip text)]> (fsm_data w)
  ∧ fsm_state (snd (orders.address_text message w))
    = Some (order_state OrderStates.waiting_for_card_text).
Proof.
  intros Htext Hlong. unfold orders.address_text. rewrite Htext.
  erewrite bind_ok; [|reflexivity].
  by rewrite (proj2 (Nat.ltb_ge _ _) Hlong).
Qed.

(** C7, at a run of the code.  The customer shares a location and then, as
    asked, sends the flat and the floor.  The location is stored as the
    "geo:" marker; a line shorter than 10 characters is turned away and the
    step does not advance; the line that is long enough advances the step
    and replaces the marker: the address that goes on to the order is the
    text alone. *)
Theorem C7_location_replaced_by_text :
  let w0 :=
    mkWorld sample.storage (Some (order_state OrderStates.waiting_for_address))
      {[ "product_id"%string := v_int 7 ]} sample.noon (λ _, false) [] in
  let w1 := sample.then_ w0
              (orders.address_location
                 (sample.shares_location (lit "12.2388") (lit "109.1967"))) in
  let w_short := sample.then_ w1 (orders.address_text (sample.says (lit "кв. 12"))) in
  let w2 := sample.then_ w1
              (orders.address_text (sample.says (lit "квартира 12, этаж 3"))) in
  fsm_data w1 !! "address"%string = Some (v_str (lit "geo:12.2388,109.1967"))
  ∧ fsm_state w1 = Some (order_state OrderStates.waiting_for_address)
  ∧ outbox w1 = [answer (lit "Укажите квартиру/офис/этаж/домофон текстом.") None]
  ∧ fsm_state w_short = fsm_state w1
  ∧ fsm_data w_short = fsm_data w1
  ∧ fsm_state w2 = Some (order_state OrderStates.waiting_for_card_text)
  ∧ fsm_data w2 !! "address"%string = Some (v_str (lit "квартира 12, этаж 3")).
Proof. vm_compute. repeat split; reflexivity. Qed.

(** ** The date step *)

Lemma traverse_cons {A B} (f : A → result B) x l ys :
  traverse f (x :: l) = Ok ys →
  ∃ y ys', f x = Ok y ∧ traverse f l = Ok ys' ∧ ys = y :: ys'.
Proof.
  simpl. unfold mbind, result_bind, rbind.
  destruct (f x) as [y|e]; [|discriminate].
  destruct (traverse f l) as [ys'|e]; [|discriminate].
  intros [= <-]. eauto.
Qed.

(** Whatever the flag, the first button of the calendar is the day the
    keyboard is built on. *)
Lemma calendar_starts_today today include_today kb :
  inline.order_date_kb today include_today = Ok kb →
  ∃ day, datetime.add_days today 0 = Ok day
         ∧ In (inline.button (datetime.strftime_d_m day)
                 (lit "date_selected:" ++ datetime.isoformat day))
              (inline.buttons kb).
Proof.
  unfold inline.order_date_kb, mbind, result_bind, rbind.
  destruct (traverse (inline.day_button today) (seq 0 14)) as [days|e] eqn:Hdays;
    [|discriminate].
  intros [= <-].
  apply traverse_cons in Hdays as (b & rest & Hb & _ & ->).
  unfold inline.day_button, mbind, result_bind, rbind in Hb. change (Z.of_nat 0) with 0%Z in Hb.
  destruct (datetime.add_days today 0) as [day|e]; [|discriminate].
  assert (b = inline.button (datetime.strftime_d_m day)
                (lit "date_selected:" ++ datetime.isoformat day)) as -> by congruence.
  exists day. split; [done|].
  unfold inline.buttons. apply in_concat.
  eexists. split; [right; cbn [length inline.chunks app]; left; reflexivity|].
  by left.
Qed.

Section Cutoff.
#[local] Existing Instance sample.plain_tables.

(** C2, at a run of the code.  The order is started at 18:30.  The row of
    quick choices has no "today", but the first button of the calendar is
    the current date, and pressing it stores the current date as the
    delivery date. *)
Theorem C2_calendar_offers_today_after_cutoff :
  let w0 := sample.world sample.evening in
  let today := datetime.date_of (clock w0) in
  let w1 := sample.then_ w0 (catalog.order_start sample.press_order) in
  let w2 := sample.then_ w1
              (orders.date_selected (sample.press (lit "date_selected:2024-05-10"))) in
  helpers.is_after_six_pm None (clock w0) = true
  ∧ (∃ text kb,
       outbox w1 = [answer text (Some kb); cb_answer None false]
       ∧ ¬ In (inline.button (lit "🚀 Сегодня") (lit "date_selected:today"))
              (inline.buttons kb)
       ∧ In (inline.button (lit "10.05") (lit "date_selected:2024-05-10"))
            (inline.buttons kb))
  ∧ fsm_state w1 = Some (order_state OrderStates.waiting_for_delivery_date)
  ∧ fsm_data w2 !! "delivery_date"%string = Some (v_str (datetime.isoformat today))
  ∧ fsm_state w2 = Some (order_state OrderStates.waiting_for_delivery_time).
Proof.
  vm_compute. split; [reflexivity|]. split.
  - eexists _, _. split; [reflexivity|]. split.
    + simpl. intuition discriminate.
    + simpl. tauto.
  - repeat split; reflexivity.
Qed.

End Cutoff.

(** ** The price step of the add-product dialogue *)

Section PriceFacts.
Context {U : UnicodeData}.

Lemma plain_digit_decimal c : (48 ≤ c ≤ 57)%N → decimal_value c = Some (c - 48)%N.
Proof.
  intros Hc. unfold decimal_value, in_ascii.
  rewrite (proj2 (N.ltb_lt c 128)) by lia.
  rewrite (proj2 (N.leb_le 48 c)), (proj2 (N.leb_le c 57)) by lia. done.
Qed.

Lemma plain_digit_solid c : (48 ≤ c ≤ 57)%N → isspace_char c = false.
Proof.
  intros Hc. unfold isspace_char.
  repeat match goal with
         | |- context [(?a <=? ?b)%N] => destruct (N.leb_spec a b); try lia
         | |- context [(?a =? ?b)%N] => destruct (N.eqb_spec a b); try lia
         end; done.
Qed.

Lemma plain_digits_isdigit ds : admin.plain_digits ds → isdigit ds = true.
Proof.
  intros [Hne Hall]. unfold isdigit. destruct ds as [|c ds]; [done|].
  apply forallb_forall. intros x Hx%list_elem_of_In.
  rewrite Forall_forall in Hall. unfold isdigit_char, isdecimal_char.
  by rewrite plain_digit_decimal by auto.
Qed.

Lemma int_digits_plain ds : ∀ acc,
  Forall (λ c, (48 ≤ c ≤ 57)%N) ds →
  int_digits acc ds = Ok (fold_left (λ acc c, (10 * acc + Z.of_N (c - 48))%Z) ds acc).
Proof.
  induction ds as [|c ds IH]; intros acc Hall; simpl; [done|].
  inversion Hall; subst. rewrite plain_digit_decimal by done. by apply IH.
Qed.

Lemma int_plain ds : admin.plain_digits ds → int ds = Ok (admin.number_of ds).
Proof.
  intros [Hne Hall]. unfold int, admin.number_of.
  destruct ds as [|c ds]; [done|]. by apply int_digits_plain.
Qed.

Lemma plain_digits_strip ds : admin.plain_digits ds → strip ds = ds.
Proof.
  intros [_ Hall]. rewrite Forall_forall in Hall. apply strip_fixed.
  - intros c r ->. apply plain_digit_solid, Hall. by left.
  - intros u c ->. apply plain_digit_solid, Hall.
    apply elem_of_app. right. by left.
Qed.

Lemma plain_digits_not_prefixed ds :
  admin.plain_digits ds → startswith (lower ds) (lit "от") = false.
Proof.
  intros [Hne Hall]. destruct ds as [|c ds]; [done|].
  inversion Hall as [|? ? Hc _]; subst.
  unfold lower. cbn [lower_from]. unfold lower_char, in_ascii.
  rewrite (proj2 (N.ltb_lt c 128)) by lia.
  rewrite (proj2 (N.leb_gt 65 c)) by lia. cbn [andb app].
  replace (lit "от") with [1086%N; 1090%N] by (by vm_compute).
  cbn [startswith].
  by rewrite (proj2 (N.eqb_neq 1086 c)) by lia.
Qed.

Lemma ot_prefix_lower p rest :
  admin.ot_prefix p → startswith (lower (p ++ rest)) (lit "от") = true.
Proof. intros [->|[->|[->| ->]]]; by vm_compute. Qed.

Lemma ot_prefix_slice p rest : admin.ot_prefix p → slice_from 2 (p ++ rest) = rest.
Proof. intros [->|[->|[->| ->]]]; by vm_compute. Qed.

Lemma ot_prefix_strip p m ds :
  admin.ot_prefix p → admin.plain_digits ds → strip (p ++ m ++ ds) = p ++ m ++ ds.
Proof.
  intros Hp [Hne Hall]. rewrite Forall_forall in Hall. apply strip_fixed.
  - intros c r Hc. destruct Hp as [->|[->|[->| ->]]]; vm_compute in Hc;
      injection Hc as <- _; reflexivity.
  - intros u c Hc. destruct (exists_last Hne) as (ds' & d & ->).
    rewrite !app_assoc in Hc. apply app_inj_tail in Hc as [_ <-].
    apply plain_digit_solid, Hall. apply elem_of_app. right. by left.
Qed.

Lemma price_step w message text :
  Message.text message = Some text →
  let raw := strip text in
  let prefixed := startswith (lower raw) (lit "от") in
  let number := if prefixed then strip (slice_from 2 raw) else raw in
  (isdigit number = false → admin.admin_add_price message w = admin.asked_again w)
  ∧ (∀ price, isdigit number = true → int number = Ok price →
       admin.admin_add_price message w = admin.advanced w price prefixed).
Proof.
  intros Htext raw prefixed number. unfold admin.admin_add_price. rewrite Htext.
  erewrite bind_ok; [|reflexivity]. fold raw. fold prefixed. fold number. split.
  - by intros ->.
  - intros price -> Hint. simpl. erewrite bind_ok; [|unfold lift; by rewrite Hint].
    reflexivity.
Qed.

Lemma int_digits_decimal ds : ∀ acc,
  Forall (λ c, isdecimal_char c = true) ds →
  int_digits acc ds
  = Ok (fold_left (λ acc c, (10 * acc + Z.of_N (default 0%N (decimal_value c)))%Z) ds acc).
Proof.
  induction ds as [|c ds IH]; intros acc Hds; simpl; [done|].
  apply Forall_cons in Hds as [Hc Hds]. unfold isdecimal_char in Hc.
  destruct (decimal_value c) as [d|]; [|done]. simpl. by apply IH.
Qed.

Lemma int_digits_raises ds : ∀ acc,
  Exists (λ c, isdecimal_char c = false) ds → int_digits acc ds = Raise ValueError.
Proof.
  induction ds as [|c ds IH]; intros acc Hds; simpl.
  - by apply Exists_nil in Hds.
  - unfold isdecimal_char in Hds. destruct (decimal_value c) as [d|] eqn:Hc; [|done].
    apply IH. apply Exists_cons in Hds as [Hhead|Htail]; [|done].
    by rewrite Hc in Hhead.
Qed.

Lemma decimal_isdigit ds :
  ds ≠ [] → Forall (λ c, isdecimal_char c = true) ds → isdigit ds = true.
Proof.
  intros Hne Hds. destruct ds as [|c ds]; [done|]. unfold isdigit.
  apply forallb_forall. intros x Hx. rewrite List.Forall_forall in Hds.
  unfold isdigit_char. by rewrite (Hds x Hx).
Qed.

Lemma price_decimal w message text :
  Message.text message = Some text →
  let raw := strip text in
  let prefixed := startswith (lower raw) (lit "от") in
  let number := if prefixed then strip (slice_from 2 raw) else raw in
  (number ≠ [] → Forall (λ c, isdecimal_char c = true) number →
   admin.admin_add_price message w = admin.advanced w (admin.decimal_number number) prefixed)
  ∧ (isdigit number = true → Exists (λ c, isdecimal_char c = false) number →
     admin.admin_add_price message w = (Raise ValueError, w)).
Proof.
  intros Htext raw prefixed number. unfold admin.admin_add_price. rewrite Htext.
  erewrite bind_ok; [|reflexivity]. fold raw. fold prefixed. fold number. split.
  - intros Hne Hds. rewrite decimal_isdigit by done. simpl.
    erewrite bind_ok; [reflexivity|]. unfold lift, int.
    destruct number as [|c ds]; [done|]. by rewrite int_digits_decimal.
  - intros -> Hbad. simpl. erewrite bind_raise; [reflexivity|]. unfold lift, int.
    destruct number as [|c ds]; [done|]. by rewrite int_digits_raises.
Qed.

Lemma price_bare w message l ds r :
  Message.text message = Some (l ++ ds ++ r) → blank l → blank r → admin.plain_digits ds →
  admin.admin_add_price message w = admin.advanced w (admin.number_of ds) false.
Proof.
  intros Htext Hl Hr Hds.
  destruct (price_step w message _ Htext) as [_ Hgo].
  rewrite strip_blank_around, plain_digits_strip, plain_digits_not_prefixed in Hgo by done.
  apply Hgo; [by apply plain_digits_isdigit|by apply int_plain].
Qed.

Lemma price_prefixed w message l p m ds r :
  Message.text message = Some (l ++ (p ++ m ++ ds) ++ r) →
  blank l → blank m → blank r → admin.ot_prefix p → admin.plain_digits ds →
  admin.admin_add_price message w = admin.advanced w (admin.number_of ds) true.
Proof.
  intros Htext Hl Hm Hr Hp Hds.
  destruct (price_step w message _ Htext) as [_ Hgo].
  rewrite strip_blank_around, ot_prefix_strip, ot_prefix_lower, ot_prefix_slice in Hgo
    by done.
  assert (Hrest : strip (m ++ ds) = ds).
  { rewrite <- (app_nil_r ds) at 1. rewrite strip_blank_around by (done || constructor).
    by apply plain_digits_strip. }
  rewrite Hrest in Hgo.
  apply Hgo; [by apply plain_digits_isdigit|by apply int_plain].
Qed.

Lemma price_from_word w message :
  Message.text message = Some (lit "from 1800000") →
  admin.admin_add_price message w = admin.asked_again w.
Proof.
  intros Htext. destruct (price_step w message _ Htext) as [Hstop _].
  by apply Hstop.
Qed.

End PriceFacts.

(** ** Callback data written by the keyboards and read by the handlers *)

Lemma split_plain sep w : Forall (λ c, c ≠ sep) w → split sep w = [w].
Proof.
  induction 1 as [|c w Hc _ IH]; simpl; [done|].
  rewrite (proj2 (N.eqb_neq c sep)) by done. by rewrite IH.
Qed.

Lemma split_at sep a b :
  Forall (λ c, c ≠ sep) a → split sep (a ++ sep :: b) = a :: split sep b.
Proof.
  induction 1 as [|c a Hc _ IH]; simpl.
  - by rewrite N.eqb_refl.
  - rewrite (proj2 (N.eqb_neq c sep)) by done. by rewrite IH.
Qed.

Lemma digit_code r : (r < 10)%N → (48 ≤ 48 + r ≤ 57)%N ∧ (48 + r - 48 = r)%N.
Proof. lia. Qed.

Lemma digits_of_pos_spec fuel : ∀ n acc,
  (n < 10 ^ N.of_nat (S fuel))%N →
  ∃ ds, digits_of_pos (S fuel) n acc = ds ++ acc
        ∧ admin.plain_digits ds
        ∧ ∀ a, fold_left (λ acc c, (10 * acc + Z.of_N (c - 48))%Z) ds a
               = (a * 10 ^ Z.of_nat (length ds) + Z.of_N n)%Z.
Proof.
  induction fuel as [|fuel IH]; intros n acc Hn; cbn [digits_of_pos].
  all: destruct (digit_code (n mod 10)%N (N.mod_lt n 10 ltac:(lia))) as [Hcode Hback].
  all: pose proof (N.div_mod n 10 ltac:(lia)) as Hdiv.
  all: destruct (N.ltb_spec n 10) as [Hsmall|Hbig].
  1,3: exists [(48 + n mod 10)%N]; split; [done|]; split;
       [split; [done|]; apply Forall_cons; split; [exact Hcode|constructor]
       |intros a; cbn [fold_left length]; rewrite Hback, N.mod_small by done;
        change (10 ^ Z.of_nat 1)%Z with 10%Z; clear; lia].
  - change (10 ^ N.of_nat 1)%N with 10%N in Hn. clear -Hn Hbig. lia.
  - assert (Hq : (n / 10 < 10 ^ N.of_nat (S fuel))%N).
    { apply N.Div0.div_lt_upper_bound.
      rewrite (Nat2N.inj_succ (S fuel)), N.pow_succ_r' in Hn. exact Hn. }
    destruct (IH (n / 10)%N ((48 + n mod 10)%N :: acc) Hq) as (ds & Hds & [Hne Hall] & Hval).
    cbn [digits_of_pos] in Hds. rewrite Hds.
    exists (ds ++ [(48 + n mod 10)%N]). split; [by rewrite <- app_assoc|]. split.
    + split; [by destruct ds|]. apply Forall_app. split; [done|].
      apply Forall_cons. split; [exact Hcode|constructor].
    + intros a. rewrite fold_left_app, Hval, length_app. cbn [fold_left length].
      rewrite Hback, Nat2Z.inj_add, Z.pow_add_r by lia.
      change (10 ^ Z.of_nat 1)%Z with 10%Z.
      rewrite Hdiv at 3. rewrite N2Z.inj_add, N2Z.inj_mul. change (Z.of_N 10) with 10%Z.
      generalize (Z.of_N (n / 10)) (Z.of_N (n mod 10)) (10 ^ Z.of_nat (length ds))%Z.
      clear. intros. lia.
Qed.

Lemma str_of_N_plain n :
  admin.plain_digits (str_of_N n) ∧ admin.number_of (str_of_N n) = Z.of_N n.
Proof.
  unfold str_of_N.
  assert (Hfuel : (n < 10 ^ N.of_nat (S (N.to_nat (N.log2 n))))%N).
  { rewrite Nat2N.inj_succ, N2Nat.id.
    destruct (N.eq_dec n 0%N) as [->|Hn]; [done|].
    pose proof (N.log2_spec n ltac:(lia)) as [_ Hlt].
    eapply N.lt_le_trans; [exact Hlt|].
    apply N.pow_le_mono_l. lia. }
  destruct (digits_of_pos_spec _ n [] Hfuel) as (ds & -> & Hplain & Hval).
  rewrite app_nil_r. split; [done|]. unfold admin.number_of. rewrite Hval. lia.
Qed.

Lemma int_str_of_Z {U : UnicodeData} z : (0 ≤ z)%Z → int (str_of_Z z) = Ok z.
Proof.
  intros Hz. unfold str_of_Z. rewrite (proj2 (Z.ltb_ge z 0)) by done.
  destruct (str_of_N_plain (Z.to_N z)) as [Hplain Hval].
  rewrite int_plain by done. rewrite Hval. f_equal. lia.
Qed.

Lemma str_of_Z_no_colon z : (0 ≤ z)%Z → Forall (λ c, c ≠ 58%N) (str_of_Z z).
Proof.
  intros Hz. unfold str_of_Z. rewrite (proj2 (Z.ltb_ge z 0)) by done.
  destruct (str_of_N_plain (Z.to_N z)) as [[_ Hall] _].
  eapply Forall_impl; [exact Hall|]. simpl. lia.
Qed.

(** The moderation buttons that order_confirm sends carry the id of the
    order, and the moderation handlers read it back. *)
Lemma callback_id_of_button {U : UnicodeData} user action order_id :
  Forall (λ c, c ≠ 58%N) action → (0 ≤ order_id)%Z →
  orders.callback_id (CallbackQuery.mk user (action ++ lit ":" ++ str_of_Z order_id))
  = Ok order_id.
Proof.
  intros Haction Hid. unfold orders.callback_id. cbn [CallbackQuery.data].
  change (lit ":") with [58%N]. cbn [app].
  rewrite split_at by done. rewrite split_plain by by apply str_of_Z_no_colon.
  cbn [lookup list_lookup]. by apply int_str_of_Z.
Qed.


(** C8, as the code has it.  The price step strips the input and takes
    the prefix "от" off it, in any letter case and with white space allowed
    after it; what is left is the number.  A number that str.isdigit refuses,
    because it is empty or has a character that is no digit, is asked again,
    with the state and the data as they were; "from 1800000" is such an input.
    A number written in decimal digits, those of 0 to 9 or of another script,
    zero included, is stored with the value int reads from it, and the
    price_from flag is true with the prefix and false without it.  A number
    that passes str.isdigit with a digit that has no decimal value, as
    superscript two, makes int raise ValueError: the handler ends with that
    error, nothing is stored and nothing is sent. *)
Theorem C8_price_step {U : UnicodeData} :
  (∀ w message text,
     Message.text message = Some text →
     let raw := strip text in
     let prefixed := startswith (lower raw) (lit "от") in
     let number := if prefixed then strip (slice_from 2 raw) else raw in
     (isdigit number = false → admin.admin_add_price message w = admin.asked_again w)
     ∧ (∀ price, isdigit number = true → int number = Ok price →
          admin.admin_add_price message w = admin.advanced w price prefixed))
  ∧ (∀ w message l ds r,
       Message.text message = Some (l ++ ds ++ r) →
       blank l → blank r → admin.plain_digits ds →
       admin.admin_add_price message w = admin.advanced w (admin.number_of ds) false)
  ∧ (∀ w message l p m ds r,
       Message.text message = Some (l ++ (p ++ m ++ ds) ++ r) →
       blank l → blank m → blank r → admin.ot_prefix p → admin.plain_digits ds →
       admin.admin_add_price message w = admin.advanced w (admin.number_of ds) true)
  ∧ (∀ w message,
       Message.text message = Some (lit "0") →
       admin.admin_add_price message w = admin.advanced w 0 false)
  ∧ (∀ w message,
       Message.text message = Some (lit "from 1800000") →
       admin.admin_add_price message w = admin.asked_again w)
  ∧ (∀ w message text,
       Message.text message = Some text →
       let raw := strip text in
       let prefixed := startswith (lower raw) (lit "от") in
       let number := if prefixed then strip (slice_from 2 raw) else raw in
       (number ≠ [] → Forall (λ c, isdecimal_char c = true) number →
        admin.admin_add_price message w
        = admin.advanced w (admin.decimal_number number) prefixed)
       ∧ (isdigit number = true → Exists (λ c, isdecimal_char c = false) number →
          admin.admin_add_price message w = (Raise ValueError, w))
       ∧ (∀ e, isdigit number = true → int number = Raise e →
            admin.admin_add_price message w = (Raise e, w))).
Proof.
  split; [apply price_step|]. split; [apply price_bare|]. split; [apply price_prefixed|].
  split; [|split; [apply price_from_word|]].
  - intros w message Htext.
    apply (price_bare w message [] (lit "0") []); [done|constructor|constructor|].
    split; [done|]. repeat constructor; done.
  - intros w message text Htext raw prefixed number.
    destruct (price_decimal w message text Htext) as [Hdecimal Hraises].
    split; [exact Hdecimal|]. split; [exact Hraises|].
    intros e Hdigit Hint. unfold admin.admin_add_price. rewrite Htext.
    erewrite bind_ok; [|reflexivity]. fold raw. fold prefixed. fold number.
    rewrite Hdigit. simpl. erewrite bind_raise; [reflexivity|].
    unfold lift. by rewrite Hint.
Qed.

(** * The claims at work in the sample shop *)

Lemma C1_price_raised_before_confirmation :
  fsm_data sample.at_confirmation !! "product_price"%string = Some (v_int 1800000)
  ∧ ∃ row c',
      Database._conn
        (db (snd (orders.order_confirm (sample.press (lit "order_confirm")) sample.settings
                    sample.at_confirmation)))
      = Some c'
      ∧ Database.orders c' = [row] ∧ Order.price row = 2000000%Z.
Proof.
  split; [by vm_compute|].
  destruct (C1_order_price_at_confirmation (U := sample.plain_tables)
              sample.at_confirmation (sample.press (lit "order_confirm")) sample.settings
              (Database.with_products sample.stored [sample.repriced]) sample.repriced
              7 1800000 (lit "2024-05-11") (lit "12:00-15:00")
              (lit "123 Main Street Apt 4") (lit "0912345678") None)
    as (_ & (c' & Hc' & Horders) & Hprice & _); try (vm_compute; reflexivity).
  eexists _, c'. split; [exact Hc'|]. split; [exact Horders|]. exact Hprice.
Defined.

Lemma C3_nothing_runs_before_connect :
  Database.call Database.op_create_schema sample.not_connected
  = (Raise Database.not_initialized, sample.not_connected)
  ∧ snd (Database.call Database.op_get_categories sample.not_connected)
    = sample.not_connected.
Proof.
  destruct (C3_before_connect sample.not_connected eq_refl) as (Hschema & _ & Hother).
  split; [exact Hschema|].
  destruct (Hother Database.op_get_categories) as [e He]; [discriminate|].
  rewrite He. reflexivity.
Defined.

Lemma C3_other_errors_before_connect :
  fst (Database.call (Database.op_add_category (lit "🌷 Тюльпаны")) sample.not_connected)
  ≠ Raise Database.not_initialized
  ∧ fst (Database.call (Database.op_update_product 7 []) sample.not_connected) = Ok ().
Proof. split; [discriminate|reflexivity]. Qed.

Lemma C5_accepted_though_customer_blocked_bot :
  unreachable sample.with_order (Order.user_id sample.placed) = true
  ∧ fst (Database.get_order 1
           (db (snd (orders.admin_order_accept (U := sample.plain_tables)
                       (sample.florist_presses (lit "admin_order_accept:1"))
                       sample.settings sample.with_order))))
    = Ok (Some (Order.mk 1 42 (Some (lit "anna")) 7 1800000 (lit "2024-05-11")
                  (lit "12:00-15:00") (lit "123 Main Street Apt 4") None
                  (lit "0912345678") (lit "🔵 В работе") 1715335200)).
Proof.
  split; [reflexivity|].
  refine (proj1 (proj2 (proj2 (proj1
    (C5_order_moderation (U := sample.plain_tables) sample.with_order
       (sample.florist_presses (lit "admin_order_accept:1")) sample.settings
       (Database.mkConnection [sample.roses] [sample.bouquet] [sample.placed] [] 1 7 1 0 1
          1715335300)
       1 sample.placed _ eq_refl eq_refl eq_refl))))).
  vm_compute. by left.
Defined.

Lemma C6_grouped_number_has_the_shape :
  helpers.shapes.phone (U := sample.plain_tables) (strip (lit "+84 912 345 6789")).
Proof.
  apply (proj1 (C6_phone_validation_shapes (U := sample.plain_tables))).
  reflexivity.
Defined.

Lemma C6_more_than_the_three_shapes :
  (helpers.is_phone_valid (U := sample.plain_tables) (lit " 0912345678 ") = true
   ∧ ¬ helpers.shapes.literal.phone (lit " 0912345678 ")
   ∧ ¬ helpers.shapes.phone (U := sample.plain_tables) (lit " 0912345678 "))
  ∧ (helpers.is_phone_valid (U := sample.plain_tables) scene.tabbed_number = true
     ∧ ¬ helpers.shapes.literal.phone scene.tabbed_number)
  ∧ (helpers.is_phone_valid (U := scene.more_digits) (lit "+٨٤ ٩١٢ ٣٤٥ ٦٧٨٩") = true
     ∧ ¬ helpers.shapes.literal.phone (lit "+٨٤ ٩١٢ ٣٤٥ ٦٧٨٩")).
Proof.
  split; [|split].
  - split; [by vm_compute|]. split.
    + intros [H|H]%literal_phone_starts; vm_compute in H; discriminate.
    + intros [H|H]%shapes_phone_starts; vm_compute in H; discriminate.
  - split; [by vm_compute|].
    intros H%literal_phone_alphabet. vm_compute in H. discriminate.
  - split; [by vm_compute|].
    intros H%literal_phone_alphabet. vm_compute in H. discriminate.
Qed.

Lemma C8_prefixed_price :
  admin.admin_add_price (U := sample.plain_tables) (sample.florist_says (lit "От 1800000"))
    sample.at_price
  = admin.advanced sample.at_price 1800000 true.
Proof.
  apply (proj1 (proj2 (proj2 (C8_price_step (U := sample.plain_tables))))
           sample.at_price (sample.florist_says (lit "От 1800000"))
           [] (lit "От") (lit " ") (lit "1800000") []).
  - reflexivity.
  - constructor.
  - by repeat constructor.
  - constructor.
  - right. by left.
  - split; [discriminate|]. repeat constructor; done.
Defined.

Lemma C8_from_is_turned_away_and_zero_is_taken :
  admin.admin_add_price (U := sample.plain_tables) (sample.florist_says (lit "from 1800000"))
    sample.at_price
  = admin.asked_again sample.at_price
  ∧ fsm_state (snd (admin.admin_add_price (U := sample.plain_tables)
                      (sample.florist_says (lit "from 1800000")) sample.at_price))
    = Some (admin_add_product_state AdminAddProductStates.waiting_for_price)
  ∧ fsm_data (snd (admin.admin_add_price (U := sample.plain_tables)
                     (sample.florist_says (lit "from 1800000")) sample.at_price))
      !! "price_from"%string = None
  ∧ fsm_data (snd (admin.admin_add_price (U := sample.plain_tables)
                     (sample.florist_says (lit "0")) sample.at_price))
      !! "price"%string = Some (v_int 0)
  ∧ admin.admin_add_price (U := scene.more_digits) (sample.florist_says (lit "²"))
      sample.at_price
    = (Raise ValueError, sample.at_price)
  ∧ admin.admin_add_price (U := scene.more_digits) (sample.florist_says (lit "١٢٣"))
      sample.at_price
    = admin.advanced sample.at_price 123 false.
Proof. vm_compute. repeat split; reflexivity. Qed.

Lemma C9_names_distinct_after_a_run :
  Database.category_names_distinct
    (Database.perform
       [Database.op_add_category (lit "🌷 Тюльпаны");
        Database.op_add_category (lit "🌹 Розы");
        Database.op_rename_category 2 (lit "🌹 Розы");
        Database.op_delete_category 1;
        Database.op_create_schema]
       sample.storage).
Proof.
  apply (proj1 C9_category_names_stay_distinct).
  - vm_compute. repeat constructor. apply not_elem_of_nil.
  - vm_compute. repeat constructor. apply not_elem_of_nil.
Defined.

(** An insert that is ignored uses up a rowid all the same: after the name
    of the roses has been added twice more, the next category gets the id 4. *)
Lemma ignored_inserts_use_up_rowids :
  fst (Database.add_category (lit "🌷 Тюльпаны")
         (snd (Database.add_category (lit "🌹 Розы")
                 (snd (Database.add_category (lit "🌹 Розы") sample.storage)))))
  = Ok 4%Z.
Proof. vm_compute. reflexivity. Qed.

Lemma C10_blanks_around_a_local_number :
  helpers.is_phone_valid (U := sample.plain_tables) (lit "  " ++ lit "0912345678" ++ lit " ")
  = helpers.is_phone_valid (U := sample.plain_tables) (lit "0912345678").
Proof.
  apply (proj2 (C10_phone_validation_strip (U := sample.plain_tables))).
  - by repeat constructor.
  - by repeat constructor.
Defined.

(** * Further properties of the storage layer *)

Lemma find_snoc_fresh {A} (f : A → bool) (l : list A) (x : A) :
  (∀ y, In y l → f y = false) → f x = true → List.find f (l ++ [x]) = Some x.
Proof.
  intros Hl Hx. induction l as [|y l IH]; simpl.
  - by rewrite Hx.
  - rewrite (Hl y) by (by left). apply IH. intros z Hz. apply Hl. by right.
Qed.

Lemma find_snoc_other {A} (f : A → bool) (l : list A) (x : A) :
  f x = false → List.find f (l ++ [x]) = List.find f l.
Proof.
  intros Hx. induction l as [|y l IH]; simpl; [by rewrite Hx|].
  by destruct (f y).
Qed.

Lemma fresh_rowid_unused {A} (id : A → Z) seq (rows : list A) :
  ∀ row, In row rows → (id row =? Database.next_rowid seq (map id rows))%Z = false.
Proof.
  intros row Hrow. apply Z.eqb_neq.
  pose proof (next_rowid_fresh seq (map id rows) (id row) (in_map id rows row Hrow)). lia.
Qed.

(** Adding a product and reading it back, for a category id and a price
    that fit in 64 bits and a table whose next rowid does.  With a category
    that exists, add_product returns a rowid that no product had, get_product
    of that id returns exactly the fields given, and every other id that fits
    in 64 bits reads as before; with a category that does not exist it fails
    on the foreign key and changes nothing. *)
Theorem add_product_then_get self c category_id name price price_from description photo
    is_active :
  Database._conn self = Some c →
  int64 category_id → int64 price →
  let added :=
    Database.add_product category_id name price price_from description photo is_active self in
  let rowid := Database.next_rowid (Database.seq_products c)
                 (map Product.id (Database.products c)) in
  int64 rowid →
  (Database.category_exists c category_id = false → added = (Raise IntegrityError, self))
  ∧ (Database.category_exists c category_id = true →
     fst added = Ok rowid
     ∧ (∀ row, In row (Database.products c) → Product.id row ≠ rowid)
     ∧ fst (Database.get_product rowid (snd added))
       = Ok (Some (Product.mk rowid category_id name price price_from description photo
                     is_active (Database.current_timestamp c)))
     ∧ (∀ other, int64 other → other ≠ rowid →
          fst (Database.get_product other (snd added))
          = fst (Database.get_product other self))).
Proof.
  intros Hc _ _ added rowid _. destruct self as [path conn]. simpl in Hc. subst conn.
  unfold added, Database.add_product, Database.get_product. step_m. split.
  - by intros ->.
  - intros ->. simpl. split; [done|]. split; [|split].
    + intros row Hrow Heq.
      pose proof (fresh_rowid_unused Product.id (Database.seq_products c) _ row Hrow) as Hne.
      apply Z.eqb_neq in Hne. by apply Hne.
    + f_equal. apply find_snoc_fresh.
      * intros row Hrow. by apply fresh_rowid_unused.
      * simpl. apply Z.eqb_refl.
    + intros other _ Hother. f_equal. apply find_snoc_other. simpl.
      apply Z.eqb_neq. fold rowid. lia.
Qed.

(** Creating an order and reading it back, for a user id, a product id and
    a price that fit in 64 bits and a table whose next rowid does.  For a
    product that exists, create_order returns a fresh rowid and get_order of
    it returns the fields given, with the status passed in, and every other
    id that fits in 64 bits reads as before; for a product that does not
    exist it fails on the foreign key and changes nothing. *)
Theorem create_order_then_get self c user_id username product_id price delivery_date
    delivery_time address card_text phone status :
  Database._conn self = Some c →
  int64 user_id → int64 product_id → int64 price →
  let created :=
    Database.create_order user_id username product_id price delivery_date delivery_time
      address card_text phone status self in
  let rowid := Database.next_rowid (Database.seq_orders c) (map Order.id (Database.orders c)) in
  int64 rowid →
  (Database.product_exists c product_id = false → created = (Raise IntegrityError, self))
  ∧ (Database.product_exists c product_id = true →
     fst created = Ok rowid
     ∧ fst (Database.get_order rowid (snd created))
       = Ok (Some (Order.mk rowid user_id username product_id price delivery_date
                     delivery_time address card_text phone status
                     (Database.current_timestamp c)))
     ∧ (∀ other, int64 other → other ≠ rowid →
          fst (Database.get_order other (snd created)) = fst (Database.get_order other self))).
Proof.
  intros Hc _ _ _ created rowid _. destruct self as [path conn]. simpl in Hc. subst conn.
  unfold created, Database.create_order, Database.get_order. step_m. split.
  - by intros ->.
  - intros ->. simpl. split; [done|]. split.
    + f_equal. apply find_snoc_fresh.
      * intros row Hrow. by apply fresh_rowid_unused.
      * simpl. apply Z.eqb_refl.
    + intros other _ Hother. f_equal. apply find_snoc_other. simpl.
      apply Z.eqb_neq. fold rowid. lia.
Qed.




(** Deleting a category.  When no order refers to one of its products the
    category goes and its products go with it: none of them can be counted,
    listed or fetched any more, and the products of the other categories and
    all orders stay.  When an order still refers to one of its products the
    deletion fails and changes nothing. *)
Theorem delete_category_cascades self c category_id :
  Database._conn self = Some c →
  Database.category_exists c category_id = true →
  let deleted := Database.delete_category category_id self in
  let doomed := filter (λ p, Product.category_id p = category_id) (Database.products c) in
  let blocked :=
    existsb (λ o, existsb (λ p, (Product.id p =? Order.product_id o)%Z) doomed)
      (Database.orders c) in
  (blocked = true → deleted = (Raise IntegrityError, self))
  ∧ (blocked = false →
     fst deleted = Ok ()
     ∧ fst (Database.count_products_in_category category_id (snd deleted)) = Ok 0%Z
     ∧ (∀ limit offset,
          fst (Database.get_products_by_category category_id limit offset (snd deleted))
          = Ok [])
     ∧ (∀ row, In row (Database.products c) → Product.category_id row = category_id →
          (∀ other, In other (Database.products c) →
             Product.id other = Product.id row → Product.category_id other = category_id) →
          fst (Database.get_product (Product.id row) (snd deleted)) = Ok None)
     ∧ (∃ c', Database._conn (snd deleted) = Some c'
              ∧ Database.products c'
                = filter (λ p, Product.category_id p ≠ category_id) (Database.products c)
              ∧ Database.categories c'
                = filter (λ row, Category.id row ≠ category_id) (Database.categories c)
              ∧ Database.orders c' = Database.orders c)).
Proof.
  intros Hc Hexists deleted doomed blocked.
  destruct self as [path conn]. simpl in Hc. subst conn.
  unfold Database.category_exists in Hexists.
  unfold deleted, Database.delete_category, Database.count_products_in_category,
    Database.get_products_by_category, Database.get_product. step_m.
  rewrite Hexists. simpl. fold doomed. fold blocked. split.
  - by intros ->.
  - intros ->. simpl.
    assert (Hnone : List.filter (Database.active_in category_id)
                      (filter (λ p, Product.category_id p ≠ category_id)
                         (Database.products c)) = []).
    { induction (Database.products c) as [|p ps IH]; [done|].
      rewrite filter_cons. destruct (decide (Product.category_id p ≠ category_id)) as [Hp|Hp];
        [|exact IH].
      simpl. unfold Database.active_in at 1.
      by rewrite (proj2 (Z.eqb_neq _ _) Hp). }
    split; [done|]. split; [by rewrite Hnone|]. split; [|split].
    + intros limit offset. rewrite Hnone. unfold Database.limit_offset. simpl.
      rewrite skipn_nil. by destruct (limit <? 0)%Z; [|rewrite firstn_nil].
    + intros row Hrow Hcat Hsame. f_equal.
      destruct (List.find _ _) as [found|] eqn:Hfound; [|done].
      apply find_some in Hfound as [Hin Hid].
      apply list_elem_of_In, list_elem_of_filter in Hin as [Hne Hin%list_elem_of_In].
      apply Z.eqb_eq in Hid. by apply Hsame in Hin.
    + eexists. split; [reflexivity|]. done.
Qed.

(** * The catalogue listing *)

Lemma insert_desc_perm {A} (key : A → Z) x l : Database.insert_desc key x l ≡ₚ x :: l.
Proof.
  induction l as [|y l IH]; simpl; [done|]. case_match; [done|].
  rewrite IH. apply Permutation_swap.
Qed.

Lemma order_by_desc_perm {A} (key : A → Z) l : Database.order_by_desc key l ≡ₚ l.
Proof.
  unfold Database.order_by_desc. induction l as [|x l IH]; simpl; [done|].
  rewrite insert_desc_perm. by f_equiv.
Qed.

Lemma insert_desc_sorted {A} (key : A → Z) x l :
  StronglySorted (λ a b, (key b ≤ key a)%Z) l →
  StronglySorted (λ a b, (key b ≤ key a)%Z) (Database.insert_desc key x l).
Proof.
  induction 1 as [|y l Hl IH Hy]; simpl.
  - repeat constructor.
  - destruct (key y <=? key x)%Z eqn:Hk.
    + apply Z.leb_le in Hk. constructor; [by constructor|].
      constructor; [done|]. eapply Forall_impl; [exact Hy|]. simpl. intros; lia.
    + apply Z.leb_gt in Hk. constructor; [done|].
      rewrite insert_desc_perm. constructor; [lia|done].
Qed.

Lemma order_by_desc_sorted {A} (key : A → Z) l :
  StronglySorted (λ a b, (key b ≤ key a)%Z) (Database.order_by_desc key l).
Proof.
  unfold Database.order_by_desc. induction l as [|x l IH]; simpl; [constructor|].
  by apply insert_desc_sorted.
Qed.



(** C4. With n active products in the category, the list has
    max(1, ceiling(n / 5)) pages, one even for n = 0; the page asked for is
    clamped into [1, pages]; the query of page p returns, and the page shows,
    the rows from offset (p - 1) * 5 on, at most 5 of them, of the list of the
    products that are in the category and active, each of them once, the
    newest first; n is what count_products_in_category returns.  With n = 12
    there are 3 pages, pages 0 and 99 become pages 1 and 3, and page 3 shows
    exactly 2 products. *)
Theorem C4_pagination (w : World) (c : Database.Connection) (category_id page : Z) :
  Database._conn (db w) = Some c →
  let active :=
    List.filter (λ row, (Product.category_id row =? category_id)%Z && Product.is_active row)
      (Database.products c) in
  let n := Z.of_nat (length active) in
  let total_pages := Z.max 1 ((n + 4) / 5) in
  let p := Z.min (Z.max 1 page) total_pages in
  ∃ all rows,
    all ≡ₚ active
    ∧ StronglySorted (λ a b, (Product.created_at b ≤ Product.created_at a)%Z) all
    ∧ all = Database.order_by_desc Product.created_at active
    ∧ rows = firstn 5 (skipn (Z.to_nat ((p - 1) * 5)) all)
    ∧ catalog.send_products_page category_id page w
      = (Ok (),
         put_outbox w
           (outbox w
            ++ [catalog.page_header (Database.categories c) category_id p total_pages]
            ++ map (catalog.product_card category_id p) rows
            ++ [catalog.page_navigation category_id p total_pages]))
    ∧ (∀ row, In row rows →
         In row (Database.products c)
         ∧ Product.category_id row = category_id ∧ Product.is_active row = true)
    ∧ total_pages = Z.max 1 (catalog.ceil_div n catalog.PAGE_SIZE)
    ∧ (n = 0%Z → total_pages = 1%Z)
    ∧ (1 ≤ p ≤ total_pages)%Z
    ∧ (length rows ≤ 5)%nat
    ∧ Z.of_nat (length rows) = Z.min 5 (n - (p - 1) * 5)
    ∧ (n = 12%Z →
       total_pages = 3%Z ∧ (page = 0%Z → p = 1%Z) ∧ (page = 99%Z → p = 3%Z)
       ∧ (page = 3%Z → length rows = 2%nat))
    ∧ Database.count_products_in_category category_id (db w) = (Ok n, db w)
    ∧ Database.get_products_by_category category_id 5 ((p - 1) * 5) (db w)
      = (Ok rows, db w).
Proof.
  intros Hc active n total_pages p.
  pose proof (pagination_runs w c category_id page Hc) as Hrun. cbv zeta in Hrun.
  change (List.filter (Database.active_in category_id) (Database.products c))
    with active in Hrun.
  fold n in Hrun.
  destruct Hrun as (Hsent & Htotal & Hzero & Hp & Hfive & Hlen & Htwelve).
  rewrite Htotal in Hsent, Hzero, Hp, Hfive, Hlen, Htwelve.
  fold total_pages in Hsent, Hzero, Hp, Hfive, Hlen, Htwelve.
  fold p in Hsent, Hp, Hfive, Hlen, Htwelve.
  exists (Database.order_by_desc Product.created_at active),
    (firstn 5 (skipn (Z.to_nat ((p - 1) * 5))
                 (Database.order_by_desc Product.created_at active))).
  split; [apply order_by_desc_perm|]. split; [apply order_by_desc_sorted|].
  split; [done|]. split; [done|]. split; [exact Hsent|]. split.
  - intros row Hrow%list_elem_of_In.
    eapply elem_of_sublist in Hrow;
      [|etrans; [apply sublist_take|apply sublist_drop]].
    rewrite order_by_desc_perm in Hrow.
    apply list_elem_of_In, filter_In in Hrow as [Hin Hrow].
    apply andb_true_iff in Hrow as [Hcat%Z.eqb_eq Hactive]. done.
  - split; [by rewrite Htotal|]. split; [exact Hzero|]. split; [exact Hp|].
    split; [exact Hfive|]. split; [exact Hlen|]. split; [exact Htwelve|].
    unfold Database.count_products_in_category, Database.get_products_by_category.
    step_m. rewrite Hc. simpl. split; [reflexivity|]. unfold Database.limit_offset.
    reflexivity.
Qed.

Lemma C4_page_99_of_twelve :
  outbox (snd (catalog.send_products_page 1 99 scene.mixed_shop))
  = [catalog.page_header [sample.roses; scene.seasonal] 1 3 3;
     catalog.product_card 1 3
       (Product.mk 2 1 (lit "Букет") 900000 false (lit "Сезонный букет")
          (lit "AgACAgIAAxkBAAIC") true 1715000002);
     catalog.product_card 1 3
       (Product.mk 1 1 (lit "Букет") 900000 false (lit "Сезонный букет")
          (lit "AgACAgIAAxkBAAIC") true 1715000001);
     catalog.page_navigation 1 3 3].
Proof.
  pose proof (C4_pagination scene.mixed_shop scene.mixed_shelves 1 99 eq_refl) as H.
  cbv zeta in H. destruct H as (all & rows & _ & _ & -> & -> & Hsent & _).
  rewrite Hsent. vm_compute. reflexivity.
Defined.





(** * Seeding the categories *)




(** * The helpers *)

Lemma group_rev_spec : ∀ n r,
  length r ≤ n → Forall (λ ch, ch ≠ 32%N) r →
  List.filter (λ ch, negb (ch =? 32)%N) (helpers.group_rev r) = r
  ∧ (∀ i, i < length (helpers.group_rev r) →
          (helpers.group_rev r !! i = Some 32%N ↔ i mod 4 = 3))
  ∧ List.last (helpers.group_rev r) 0%N = List.last r 0%N.
Proof.
  assert (Hkeep : ∀ ch, ch ≠ 32%N → negb (ch =? 32)%N = true).
  { intros ch Hch. by rewrite (proj2 (N.eqb_neq _ _) Hch). }
  induction n as [|n IH]; intros r Hlen Hr.
  { destruct r; [|simpl in Hlen; lia]. split; [done|]. split; [simpl; lia|done]. }
  destruct r as [|a [|b [|c [|d rest]]]].
  - split; [done|]. split; [simpl; lia|done].
  - apply Forall_cons in Hr as [Ha _]. simpl. rewrite Hkeep by done.
    split; [done|]. split; [|done]. intros [|i] Hi; [|simpl in Hi; lia]. simpl.
    split; [congruence|discriminate].
  - apply Forall_cons in Hr as [Ha [Hb _]%Forall_cons]. simpl. rewrite !Hkeep by done.
    split; [done|]. split; [|done]. intros [|[|i]] Hi; [..|simpl in Hi; lia]; simpl;
      (split; [congruence|discriminate]).
  - apply Forall_cons in Hr as [Ha [Hb [Hc _]%Forall_cons]%Forall_cons].
    simpl. rewrite !Hkeep by done.
    split; [done|]. split; [|done]. intros [|[|[|i]]] Hi; [..|simpl in Hi; lia]; simpl;
      (split; [congruence|discriminate]).
  - apply Forall_cons in Hr as [Ha [Hb [Hc Hrest]%Forall_cons]%Forall_cons].
    change (helpers.group_rev (a :: b :: c :: d :: rest))
      with (a :: b :: c :: 32%N :: helpers.group_rev (d :: rest)).
    destruct (IH (d :: rest)) as (Hfilter & Hplaces & Hlast); [simpl in *; lia|done|].
    split; [|split].
    + cbn [List.filter]. rewrite !Hkeep by done. rewrite N.eqb_refl. cbn [negb].
      by rewrite Hfilter.
    + intros [|[|[|[|i]]]] Hi.
      * simpl. split; [congruence|discriminate].
      * simpl. split; [congruence|discriminate].
      * simpl. split; [congruence|discriminate].
      * done.
      * change ((a :: b :: c :: 32%N :: helpers.group_rev (d :: rest)) !! S (S (S (S i))))
          with (helpers.group_rev (d :: rest) !! i).
        replace (S (S (S (S i)))) with (i + 1 * 4) by lia.
        rewrite Nat.Div0.mod_add. apply Hplaces. cbn [length] in Hi. lia.
    + destruct (helpers.group_rev (d :: rest)) as [|g gs] eqn:Hg.
      { apply (f_equal (@length N)) in Hfilter. simpl in Hfilter. lia. }
      change (List.last (a :: b :: c :: 32%N :: g :: gs) 0%N) with (List.last (g :: gs) 0%N).
      by rewrite Hlast.
Qed.

(** format_price loses no digit and groups by thousands: without its
    spaces the amount is the decimal writing of the price; counted from the
    right, the amount of a price that is not negative has a space at every
    fourth place and nowhere else, and it does not begin with one.  The
    amount is followed by " VND" and, for a starting price, preceded by
    "от ". *)
Theorem format_price_groups_thousands price price_from :
  let amount := helpers.grouped_amount price in
  helpers.format_price price price_from
  = (if price_from then lit "от " else []) ++ amount ++ lit " VND"
  ∧ List.filter (λ ch, negb (ch =? 32)%N) amount = str_of_Z price
  ∧ ((0 ≤ price)%Z →
     (∀ i, i < length amount → (rev amount !! i = Some 32%N ↔ i mod 4 = 3))
     ∧ ∀ rest, amount ≠ 32%N :: rest).
Proof.
  intros amount. split; [by destruct price_from|].
  assert (Hdigits : ∀ n, Forall (λ ch, ch ≠ 32%N) (rev (str_of_N n))).
  { intros n. apply Forall_rev. destruct (str_of_N_plain n) as [[_ Hall] _].
    eapply Forall_impl; [exact Hall|]. simpl. lia. }
  assert (Hfilter : ∀ n,
            List.filter (λ ch, negb (ch =? 32)%N)
              (rev (helpers.group_rev (rev (str_of_N n)))) = str_of_N n).
  { intros n.
    destruct (group_rev_spec _ (rev (str_of_N n)) (le_n _) (Hdigits n)) as [Hf _].
    rewrite <- (rev_involutive (str_of_N n)) at 2.
    rewrite <- Hf at 2. clear.
    induction (helpers.group_rev (rev (str_of_N n))) as [|x l IH]; [done|].
    simpl. rewrite List.filter_app, IH. simpl.
    destruct (negb (x =? 32)%N); simpl; [done|apply app_nil_r]. }
  split.
  - unfold amount, helpers.grouped_amount, str_of_Z.
    destruct (price <? 0)%Z eqn:Hneg.
    + apply Z.ltb_lt in Hneg. simpl. rewrite Hfilter. do 3 f_equal. lia.
    + apply Z.ltb_ge in Hneg. rewrite Hfilter. do 2 f_equal. lia.
  - intros Hprice. unfold amount, helpers.grouped_amount.
    rewrite (proj2 (Z.ltb_ge _ _) Hprice). rewrite rev_involutive, length_rev.
    set (digits := rev (str_of_N (Z.to_N (Z.abs price)))).
    destruct (group_rev_spec _ digits (le_n _) (Hdigits _)) as (_ & Hplaces & Hlast).
    split; [exact Hplaces|].
    intros rest Hrev.
    apply (f_equal (@rev N)) in Hrev. rewrite rev_involutive in Hrev. simpl in Hrev.
    rewrite Hrev, last_last in Hlast.
    destruct (str_of_N_plain (Z.to_N (Z.abs price))) as [[Hne Hall] _].
    unfold digits in Hlast. destruct (str_of_N _) as [|x l]; [done|].
    simpl in Hlast. rewrite last_last in Hlast.
    apply Forall_cons in Hall as [Hx _]. lia.
Qed.

(** is_after_six_pm looks at the hour alone: for a time of day whose minute,
    second and microsecond are not negative it answers whether the hour is 18
    or later, so 18:00:00 sharp counts as after six.  The time looked at is
    the one given, and the clock's only when none is given. *)
Theorem is_after_six_pm_from_the_hour now clock :
  let t := datetime.time_of (default clock now) in
  (0 ≤ datetime.minute t)%Z → (0 ≤ datetime.second t)%Z → (0 ≤ datetime.microsecond t)%Z →
  helpers.is_after_six_pm now clock = (18 <=? datetime.hour t)%Z.
Proof.
  intros t Hminute Hsecond Hmicro. unfold helpers.is_after_six_pm, datetime.time_ge.
  fold t. simpl.
  destruct (Z.compare_spec (datetime.hour t) 18) as [Heq|Hlt|Hgt].
  - rewrite Heq. simpl.
    destruct (Z.compare_spec (datetime.minute t) 0) as [H0|?|?]; [|lia|done].
    destruct (Z.compare_spec (datetime.second t) 0) as [H1|?|?]; [|lia|done].
    apply Z.leb_le. lia.
  - symmetry. apply Z.leb_gt. lia.
  - symmetry. apply Z.leb_le. lia.
Qed.

(** * Steps of the order dialogue *)

Section OrderSteps.
Context {U : UnicodeData}.

Lemma show_summary_frame w :
  db (snd (orders.show_summary w)) = db w
  ∧ fsm_data (snd (orders.show_summary w)) = fsm_data w.
Proof.
  unfold orders.show_summary, state.get_data, as_int, emit, state.set_state. step_m.
  by destruct (default (v_int 0) (fsm_data w !! "product_price"%string)).
Qed.


(** phone_text never touches the storage, and the only phone number it puts
    into the data of the dialogue is the trimmed text of a message that
    is_phone_valid accepts; for any other text it asks again and changes
    nothing else. *)
Theorem phone_text_stores_valid_numbers message w :
  let after := snd (orders.phone_text message w) in
  db after = db w
  ∧ (fsm_data after = fsm_data w
     ∨ ∃ text, Message.text message = Some text
               ∧ helpers.is_phone_valid (strip text) = true
               ∧ fsm_data after = <["phone"%string := v_str (strip text)]> (fsm_data w))
  ∧ (∀ text, Message.text message = Some text →
       helpers.is_phone_valid (strip text) = false →
       orders.phone_text message w
       = (Ok (),
          put_outbox w
            (outbox w
             ++ [answer (lit "Введите номер в формате +XX XXX XXX XXXX или 0XXXXXXXXX.")
                   None]))).
Proof.
  intros after. unfold after. clear after.
  destruct (Message.text message) as [text|] eqn:Htext; cycle 1.
  { unfold orders.phone_text, text_of. rewrite Htext. step_m.
    split; [done|]. split; [by left|done]. }
  destruct (helpers.is_phone_valid (strip text)) eqn:Hvalid.
  - assert (Hrun : orders.phone_text message w
                   = orders.show_summary
                       (mkWorld (db w) (fsm_state w)
                          (<["phone"%string := v_str (strip text)]> (fsm_data w))
                          (clock w) (unreachable w) (outbox w))).
    { unfold orders.phone_text, text_of. rewrite Htext.
      erewrite bind_ok; [|reflexivity]. rewrite Hvalid. cbn [negb].
      erewrite bind_ok; [|reflexivity]. done. }
    rewrite Hrun.
    match goal with |- context [orders.show_summary ?w1] =>
      destruct (show_summary_frame w1) as [Hdb Hdata] end.
    rewrite Hdb, Hdata. simpl. split; [done|]. split; [|congruence]. right. eauto.
  - assert (Hrun : orders.phone_text message w
                   = (Ok (),
                      put_outbox w
                        (outbox w
                         ++ [answer
                               (lit "Введите номер в формате +XX XXX XXX XXXX или 0XXXXXXXXX.")
                               None]))).
    { unfold orders.phone_text, text_of. rewrite Htext.
      erewrite bind_ok; [|reflexivity]. by rewrite Hvalid. }
    rewrite Hrun. simpl. split; [done|]. split; [by left|done].
Qed.

End OrderSteps.

(** * What the handlers keep *)

Section Frames.
Context {U : UnicodeData}.

Lemma preserves_bind {A B} P (m : M World A) (k : A → M World B) :
  preserves P m → (∀ a, preserves P (k a)) → preserves P (m ≫= k).
Proof.
  intros Hm Hk w Hw. unfold mbind, M_bind. specialize (Hm w Hw).
  destruct (m w) as [[a|e] w']; simpl in *; [by apply Hk|done].
Qed.

Lemma preserves_same {A} P (m : M World A) : (∀ w, snd (m w) = w) → preserves P m.
Proof. intros Hm w Hw. by rewrite Hm. Qed.

Lemma preserves_ret {A} P (a : A) : preserves P (mret a : M World A).
Proof. by apply preserves_same. Qed.

Lemma preserves_raise {A} P e : preserves P (raise e : M World A).
Proof. by apply preserves_same. Qed.

Lemma preserves_lift {A} P (r : result A) : preserves P (lift r : M World A).
Proof. by apply preserves_same. Qed.

Lemma preserves_item P d key : preserves P (item d key).
Proof. apply preserves_same. intros w. unfold item. by destruct (d !! key). Qed.

Lemma preserves_as_int P v : preserves P (as_int v).
Proof. apply preserves_same. intros w. by destruct v. Qed.

Lemma preserves_as_str P v : preserves P (as_str v).
Proof. apply preserves_same. intros w. by destruct v. Qed.

Lemma preserves_as_opt_str P v : preserves P (as_opt_str v).
Proof. apply preserves_same. intros w. by destruct v. Qed.

Lemma preserves_as_bool P v : preserves P (as_bool v).
Proof. apply preserves_same. intros w. by destruct v. Qed.

Lemma preserves_text_of P text : preserves P (text_of text : M World str).
Proof. apply preserves_same. intros w. by destruct text. Qed.

Lemma preserves_index P parts i : preserves P (index parts i : M World str).
Proof. apply preserves_same. intros w. unfold index. by destruct (parts !! i). Qed.

Lemma preserves_get_data P : preserves P state.get_data.
Proof. by apply preserves_same. Qed.

Lemma preserves_get P : preserves P (get : M World World).
Proof. by apply preserves_same. Qed.

Lemma preserves_date_today P : preserves P date_today.
Proof. by apply preserves_same. Qed.

Lemma preserves_emit Q x : preserves (on_storage Q) (emit x).
Proof. by intros w Hw. Qed.

Lemma preserves_update_data Q items : preserves (on_storage Q) (state.update_data items).
Proof. by intros w Hw. Qed.

Lemma preserves_set_data Q d : preserves (on_storage Q) (state.set_data d).
Proof. by intros w Hw. Qed.

Lemma preserves_set_state Q st : preserves (on_storage Q) (state.set_state st).
Proof. by intros w Hw. Qed.

Lemma preserves_clear Q : preserves (on_storage Q) state.clear.
Proof. by intros w Hw. Qed.

Lemma preserves_on_db {A} Q (m : M Database.t A) :
  (∀ d, Q d → Q (snd (m d))) → preserves (on_storage Q) (on_db m).
Proof.
  intros Hm w Hw. unfold on_storage, on_db in *. specialize (Hm (db w) Hw).
  by destruct (m (db w)).
Qed.

Lemma preserves_send_best_effort Q chat text kb :
  preserves (on_storage Q) (try_except (bot.send_message chat text kb) (mret ())).
Proof. intros w Hw. by rewrite send_best_effort. Qed.

Lemma preserves_for_each {A} P (l : list A) (body : A → M World unit) :
  (∀ x, preserves P (body x)) → preserves P (for_each l body).
Proof.
  intros Hbody. induction l as [|x l IH]; simpl; [apply preserves_ret|].
  apply preserves_bind; [apply Hbody|done].
Qed.

Lemma preserves_notify_admins Q admin_ids text kb :
  preserves (on_storage Q) (notify_admins admin_ids text kb).
Proof. intros w Hw. by rewrite notify_admins_runs. Qed.

(** The reading operations of the storage give back the storage they were
    given, open or not. *)
Lemma reads_keep (self : Database.t) :
  snd (Database.get_categories self) = self
  ∧ (∀ i, snd (Database.get_product i self) = self)
  ∧ (∀ i, snd (Database.get_order i self) = self)
  ∧ (∀ c, snd (Database.count_products_in_category c self) = self)
  ∧ (∀ c l o, snd (Database.get_products_by_category c l o self) = self)
  ∧ (∀ u l, snd (Database.get_user_orders u l self) = self)
  ∧ (∀ u l, snd (Database.get_last_completed_orders u l self) = self).
Proof.
  unfold Database.get_categories, Database.get_product, Database.get_order,
    Database.count_products_in_category, Database.get_products_by_category,
    Database.get_user_orders, Database.get_last_completed_orders.
  destruct self as [path [c|]]; step_m; repeat split; done.
Qed.

End Frames.

Create HintDb frames.

#[local] Hint Resolve preserves_ret preserves_raise preserves_lift preserves_item
  preserves_as_int preserves_as_str preserves_as_opt_str preserves_as_bool
  preserves_text_of preserves_index preserves_get_data preserves_get preserves_date_today
  preserves_emit preserves_update_data preserves_set_data preserves_set_state
  preserves_clear preserves_send_best_effort preserves_notify_admins : frames.

Ltac frame_step :=
  first
    [ apply preserves_bind; [|intros ?]
    | apply preserves_for_each; intros ?
    | solve [auto with frames]
    | match goal with
      | |- preserves _ (match ?x with _ => _ end) => destruct x
      | |- preserves _ (if ?b then _ else _) => destruct b
      | |- preserves _ (let _ := _ in _) => cbv zeta
      end ].

Lemma reads_preserve Q :
  preserves (on_storage Q) (on_db Database.get_categories)
  ∧ (∀ i, preserves (on_storage Q) (on_db (Database.get_product i)))
  ∧ (∀ i, preserves (on_storage Q) (on_db (Database.get_order i)))
  ∧ (∀ c, preserves (on_storage Q) (on_db (Database.count_products_in_category c)))
  ∧ (∀ c l o, preserves (on_storage Q) (on_db (Database.get_products_by_category c l o)))
  ∧ (∀ u l, preserves (on_storage Q) (on_db (Database.get_user_orders u l)))
  ∧ (∀ u l, preserves (on_storage Q) (on_db (Database.get_last_completed_orders u l))).
Proof.
  repeat split; intros; apply preserves_on_db; intros d Hd;
    destruct (reads_keep d) as (H1 & H2 & H3 & H4 & H5 & H6 & H7);
    by rewrite ?H1, ?H2, ?H3, ?H4, ?H5, ?H6, ?H7.
Qed.

Lemma preserves_get_categories Q : preserves (on_storage Q) (on_db Database.get_categories).
Proof. apply reads_preserve. Qed.

Lemma preserves_get_product Q i : preserves (on_storage Q) (on_db (Database.get_product i)).
Proof. apply reads_preserve. Qed.

Lemma preserves_get_order Q i : preserves (on_storage Q) (on_db (Database.get_order i)).
Proof. apply reads_preserve. Qed.

Lemma preserves_count Q c :
  preserves (on_storage Q) (on_db (Database.count_products_in_category c)).
Proof. apply reads_preserve. Qed.

Lemma preserves_get_products Q c l o :
  preserves (on_storage Q) (on_db (Database.get_products_by_category c l o)).
Proof. apply reads_preserve. Qed.

Lemma preserves_get_user_orders Q u l :
  preserves (on_storage Q) (on_db (Database.get_user_orders u l)).
Proof. apply reads_preserve. Qed.

Lemma preserves_get_last_completed Q u l :
  preserves (on_storage Q) (on_db (Database.get_last_completed_orders u l)).
Proof. apply reads_preserve. Qed.

#[local] Hint Resolve preserves_get_categories preserves_get_product preserves_get_order
  preserves_count preserves_get_products preserves_get_user_orders
  preserves_get_last_completed : frames.

Section Writers.
Context {U : UnicodeData}.

Lemma create_order_never_completes u un p pr dd dt a ct ph self :
  never_completed self →
  never_completed (snd (Database.create_order u un p pr dd dt a ct ph status_new self)).
Proof.
  unfold never_completed, Database.create_order.
  destruct self as [path [c|]]; step_m; [|done].
  intros Hself. destruct (negb (Database.product_exists c p)); simpl; [eauto|].
  intros c' o [= <-]. simpl. rewrite in_app_iff. intros [Ho|[<-|[]]]; [eauto|].
  simpl. by vm_compute.
Qed.

Lemma update_order_status_never_completes i status self :
  status ≠ status_completed →
  never_completed self →
  never_completed (snd (Database.update_order_status i status self)).
Proof.
  unfold never_completed, Database.update_order_status.
  destruct self as [path [c|]]; step_m; [|done].
  intros Hstatus Hself c' o [= <-]. simpl. rewrite in_map_iff.
  intros (o0 & <- & Ho0). destruct (Order.id o0 =? i)%Z; simpl; eauto.
Qed.

Lemma add_product_never_completes c n p pf d ph a self :
  never_completed self →
  never_completed (snd (Database.add_product c n p pf d ph a self)).
Proof.
  unfold never_completed, Database.add_product.
  destruct self as [path [conn|]]; step_m; [|done].
  intros Hself. destruct (negb (Database.category_exists conn c)); simpl; [eauto|].
  intros c' o [= <-]. simpl. eauto.
Qed.

Lemma add_category_never_completes name self :
  never_completed self → never_completed (snd (Database.add_category name self)).
Proof.
  unfold never_completed, Database.add_category.
  destruct self as [path [conn|]]; step_m; [|done].
  intros Hself. destruct (existsb _ _); simpl; intros c' o [= <-]; simpl; eauto.
Qed.

(** No handler ever gives an order the status "🟢 Завершён", the one
    repeat_order looks for: the handlers that write to the storage
    (order_confirm, admin_order_accept, admin_order_reject,
    admin_save_product, admin_category_name) keep the orders free of it.  So
    in a shop whose orders were all made by the bot, repeat_order finds
    nothing to repeat for any customer and only says so. *)
Theorem no_handler_completes_an_order settings w :
  on_storage never_completed w →
  (∀ cb, on_storage never_completed (snd (orders.order_confirm cb settings w)))
  ∧ (∀ cb, on_storage never_completed (snd (orders.admin_order_accept cb settings w)))
  ∧ (∀ cb, on_storage never_completed (snd (orders.admin_order_reject cb settings w)))
  ∧ (∀ cb, on_storage never_completed (snd (admin.admin_save_product cb settings w)))
  ∧ (∀ message, on_storage never_completed (snd (admin.admin_category_name message w)))
  ∧ (∀ message c, Database._conn (db w) = Some c →
       orders.repeat_order message w
       = (Ok (),
          put_outbox w
            (outbox w
             ++ [answer (lit "У вас пока нет завершённых заказов для повтора 😊") None]))).
Proof.
  intros Hw.
  assert (Hmoderate : ∀ i status, status ≠ status_completed →
            preserves (on_storage never_completed)
              (on_db (Database.update_order_status i status))).
  { intros. apply preserves_on_db. intros d. by apply update_order_status_never_completes. }
  split; [|split; [|split; [|split; [|split]]]].
  - intros cb. revert w Hw. change (preserves (on_storage never_completed)
                                      (orders.order_confirm cb settings)).
    unfold orders.order_confirm. repeat frame_step.
    apply preserves_on_db. intros d. apply create_order_never_completes.
  - intros cb. revert w Hw. change (preserves (on_storage never_completed)
                                      (orders.admin_order_accept cb settings)).
    unfold orders.admin_order_accept. repeat frame_step.
    all: try (apply Hmoderate; by vm_compute).
  - intros cb. revert w Hw. change (preserves (on_storage never_completed)
                                      (orders.admin_order_reject cb settings)).
    unfold orders.admin_order_reject. repeat frame_step.
    all: try (apply Hmoderate; by vm_compute).
  - intros cb. revert w Hw. change (preserves (on_storage never_completed)
                                      (admin.admin_save_product cb settings)).
    unfold admin.admin_save_product. repeat frame_step.
    apply preserves_on_db. intros d. apply add_product_never_completes.
  - intros message. revert w Hw. change (preserves (on_storage never_completed)
                                           (admin.admin_category_name message)).
    unfold admin.admin_category_name. repeat frame_step.
    apply preserves_on_db. intros d. apply add_category_never_completes.
  - intros message c Hc. unfold orders.repeat_order.
    erewrite bind_ok; cycle 1.
    { apply on_db_read. unfold Database.get_last_completed_orders. step_m.
      rewrite Hc. simpl. reflexivity. }
    assert (Hnone : List.filter
                      (λ o, (Order.user_id o =? User.id (Message.from_user message))%Z
                            && Database.str_eqb (Order.status o) status_completed)
                      (Database.orders c) = []).
    { specialize (Hw c). unfold on_storage in Hw.
      induction (Database.orders c) as [|o os IH]; [done|]. simpl.
      destruct (Database.str_eqb (Order.status o) status_completed) eqn:Hs.
      - apply str_eqb_eq in Hs. destruct (Hw o Hc); [by left|done].
      - rewrite andb_false_r. apply IH. intros o' Hc' Ho'. apply Hw; [done|by right]. }
    rewrite Hnone. done.
Qed.

End Writers.

Section Readers.
Context {U : UnicodeData}.

#[local] Abbreviation same w := (on_storage (λ d, d = db w)).

(** Browsing and filling in an order never write to the storage: after any
    handler of the catalogue, any step of the order dialogue short of the
    confirmation, the list of orders and the offer to repeat one, however the
    handler ends, the storage is the one it started with. *)
Theorem only_confirmation_writes w :
  (∀ message : Message.t,
     db (snd (catalog.show_categories message w)) = db w
     ∧ db (snd (orders.address_location message w)) = db w
     ∧ db (snd (orders.address_text message w)) = db w
     ∧ db (snd (orders.card_text message w)) = db w
     ∧ db (snd (orders.phone_contact message w)) = db w
     ∧ db (snd (orders.phone_text message w)) = db w
     ∧ db (snd (orders.show_orders message w)) = db w
     ∧ db (snd (orders.repeat_order message w)) = db w)
  ∧ (∀ cb : CallbackQuery.t,
       db (snd (catalog.cb_back_to_categories cb w)) = db w
       ∧ db (snd (catalog.open_category cb w)) = db w
       ∧ db (snd (catalog.paginate_products cb w)) = db w
       ∧ db (snd (catalog.back_to_products cb w)) = db w
       ∧ db (snd (catalog.product_view cb w)) = db w
       ∧ db (snd (catalog.order_start cb w)) = db w
       ∧ db (snd (catalog.to_main_menu cb w)) = db w
       ∧ db (snd (orders.date_selected cb w)) = db w
       ∧ db (snd (orders.time_selected cb w)) = db w
       ∧ db (snd (orders.card_skip cb w)) = db w
       ∧ db (snd (orders.repeat_order_callback cb w)) = db w
       ∧ db (snd (orders.back_to_date cb w)) = db w
       ∧ db (snd (orders.cancel_order cb w)) = db w
       ∧ db (snd (orders.card_write cb w)) = db w
       ∧ db (snd (orders.card_back cb w)) = db w
       ∧ db (snd (orders.order_edit cb w)) = db w).
Proof.
  assert (Hrun : ∀ m : M World unit, preserves (same w) m → db (snd (m w)) = db w).
  { intros m Hm. by apply Hm. }
  assert (Hpage : ∀ c p, preserves (same w) (catalog.send_products_page c p)).
  { intros. unfold catalog.send_products_page. repeat frame_step. }
  assert (Hsummary : preserves (same w) orders.show_summary).
  { unfold orders.show_summary. repeat frame_step. }
  assert (Hblocks : ∀ os lines idx, preserves (same w) (orders.order_blocks lines idx os)).
  { induction os as [|o os IH]; intros lines idx; simpl; [apply preserves_ret|].
    repeat frame_step. all: try apply IH. }
  assert (Hoffer : ∀ o, preserves (same w) (orders.repeat_offer o)).
  { intros. unfold orders.repeat_offer. repeat frame_step. }
  split.
  - intros message. repeat (match goal with |- _ ∧ _ => split end); apply Hrun.
    + unfold catalog.show_categories. repeat frame_step.
    + unfold orders.address_location. repeat frame_step.
    + unfold orders.address_text. repeat frame_step.
    + unfold orders.card_text, orders.ask_phone. repeat frame_step.
    + unfold orders.phone_contact. repeat frame_step. all: try apply Hsummary.
    + unfold orders.phone_text. repeat frame_step. all: try apply Hsummary.
    + unfold orders.show_orders. repeat frame_step. all: try apply Hblocks.
    + unfold orders.repeat_order. repeat frame_step. all: try apply Hoffer.
  - intros cb. repeat (match goal with |- _ ∧ _ => split end); apply Hrun.
    + unfold catalog.cb_back_to_categories. repeat frame_step.
    + unfold catalog.open_category. repeat frame_step. all: try apply Hpage.
    + unfold catalog.paginate_products. repeat frame_step. all: try apply Hpage.
    + unfold catalog.back_to_products. repeat frame_step. all: try apply Hpage.
    + unfold catalog.product_view. repeat frame_step.
    + unfold catalog.order_start. repeat frame_step.
    + unfold catalog.to_main_menu. repeat frame_step.
    + unfold orders.date_selected. repeat frame_step.
    + unfold orders.time_selected. repeat frame_step.
    + unfold orders.card_skip, orders.ask_phone. repeat frame_step.
    + unfold orders.repeat_order_callback. repeat frame_step.
    + unfold orders.back_to_date. repeat frame_step.
    + unfold orders.cancel_order. repeat frame_step.
    + unfold orders.card_write. repeat frame_step.
    + unfold orders.card_back. repeat frame_step.
    + unfold orders.order_edit. repeat frame_step.
Qed.

(** Someone who is not among the administrators gets nowhere with the
    administrator's actions: accepting or rejecting an order and starting to
    add a product only answer "Недостаточно прав" as an alert, the command
    /admin answers nothing at all, and neither the storage nor the dialogue
    changes. *)
Theorem outsiders_change_nothing settings user w :
  User.id user ∉ Settings.admin_ids settings →
  let refused :=
    (Ok (), put_outbox w (outbox w ++ [cb_answer (Some (lit "Недостаточно прав")) true])) in
  (∀ data, orders.admin_order_accept (CallbackQuery.mk user data) settings w = refused)
  ∧ (∀ data, orders.admin_order_reject (CallbackQuery.mk user data) settings w = refused)
  ∧ (∀ data, admin.admin_add_product_start (CallbackQuery.mk user data) settings w = refused)
  ∧ (∀ text location contact,
       admin.admin_entry (Message.mk user text location contact) settings w = (Ok (), w)).
Proof.
  intros Hout refused.
  assert (Hno : bool_decide (User.id user ∈ Settings.admin_ids settings) = false)
    by by apply bool_decide_eq_false.
  unfold orders.admin_order_accept, orders.admin_order_reject,
    admin.admin_add_product_start, admin.admin_entry, orders._ensure_admin, admin.is_admin.
  cbn [CallbackQuery.from_user Message.from_user]. rewrite Hno. done.
Qed.

End Readers.

(** * From a keyboard to the handler of its buttons *)

Section Buttons.
Context {U : UnicodeData}.

Lemma fields2 a x :
  Forall (λ c, c ≠ 58%N) a → (0 ≤ x)%Z →
  split 58 (a ++ 58%N :: str_of_Z x) = [a; str_of_Z x].
Proof.
  intros Ha Hx. rewrite split_at by done. by rewrite split_plain by by apply str_of_Z_no_colon.
Qed.

Lemma fields3 a x y :
  Forall (λ c, c ≠ 58%N) a → (0 ≤ x)%Z → (0 ≤ y)%Z →
  split 58 (a ++ 58%N :: str_of_Z x ++ 58%N :: str_of_Z y) = [a; str_of_Z x; str_of_Z y].
Proof.
  intros Ha Hx Hy. rewrite split_at by done. f_equal.
  apply fields2; [by apply str_of_Z_no_colon|done].
Qed.

Lemma fields4 a x y z :
  Forall (λ c, c ≠ 58%N) a → (0 ≤ x)%Z → (0 ≤ y)%Z → (0 ≤ z)%Z →
  split 58 (a ++ 58%N :: str_of_Z x ++ 58%N :: str_of_Z y ++ 58%N :: str_of_Z z)
  = [a; str_of_Z x; str_of_Z y; str_of_Z z].
Proof.
  intros Ha Hx Hy Hz. rewrite split_at by done. f_equal.
  apply fields3; [by apply str_of_Z_no_colon|done..].
Qed.

Lemma no_colon_in (a : str) : forallb (λ c, negb (c =? 58)%N) a = true → Forall (λ c, c ≠ 58%N) a.
Proof.
  rewrite forallb_forall, Forall_forall. intros Ha c Hc%list_elem_of_In.
  specialize (Ha c Hc). apply negb_true_iff in Ha. by apply N.eqb_neq.
Qed.

Lemma open_category_runs user category_id w :
  (0 ≤ category_id)%Z →
  catalog.open_category (CallbackQuery.mk user (lit "category:" ++ str_of_Z category_id)) w
  = (catalog.send_products_page category_id 1;; emit (cb_answer None false)) w.
Proof.
  intros Hc. unfold catalog.open_category. cbn [CallbackQuery.data].
  change (lit "category:") with (lit "category" ++ [58%N]).
  rewrite <- app_assoc. cbn [app].
  rewrite fields2; [|by apply no_colon_in|done].
  erewrite bind_ok; [|unfold lift; by rewrite int_str_of_Z]. done.
Qed.

Lemma page_button_runs user action category_id page w :
  forallb (λ c, negb (c =? 58)%N) action = true →
  (0 ≤ category_id)%Z → (0 ≤ page)%Z →
  let cb := CallbackQuery.mk user
              (action ++ 58%N :: str_of_Z category_id ++ 58%N :: str_of_Z page) in
  catalog.paginate_products cb w
  = (catalog.send_products_page category_id page;; emit (cb_answer None false)) w
  ∧ catalog.back_to_products cb w
    = (catalog.send_products_page category_id page;; emit (cb_answer None false)) w.
Proof.
  intros Ha Hc Hp cb. unfold catalog.paginate_products, catalog.back_to_products, cb.
  cbn [CallbackQuery.data].
  rewrite fields3; [|by apply no_colon_in|done..].
  split.
  - erewrite bind_ok; [|unfold lift; by rewrite int_str_of_Z].
    erewrite bind_ok; [|unfold lift; by rewrite int_str_of_Z]. done.
  - erewrite bind_ok; [|unfold lift; by rewrite int_str_of_Z].
    erewrite bind_ok; [|unfold lift; by rewrite int_str_of_Z]. done.
Qed.

(** Every button of the catalogue's keyboards leads where it says.  On the
    keyboard of categories a button other than "main menu" carries the name of
    a category and, pressed, shows page 1 of that category.  On the
    navigation row under page p, "back" shows page p - 1 and "next" shows page
    p + 1 of the same category; the other two buttons go to the categories and
    to the main menu. *)
Theorem catalogue_buttons_show_their_page user w :
  let press b := CallbackQuery.mk user (InlineKeyboardButton.callback_data b) in
  let shows category_id page :=
    (catalog.send_products_page category_id page;; emit (cb_answer None false)) w in
  (∀ categories b,
     (∀ category, In category categories → (0 ≤ Category.id category)%Z) →
     In b (inline.buttons (inline.categories_kb categories)) →
     InlineKeyboardButton.callback_data b = lit "main_menu"
     ∨ ∃ category, In category categories
                   ∧ InlineKeyboardButton.text b = Category.name category
                   ∧ catalog.open_category (press b) w = shows (Category.id category) 1%Z)
  ∧ (∀ category_id page has_prev has_next b,
       (0 ≤ category_id)%Z → (1 ≤ page)%Z →
       In b (inline.buttons
               (inline.products_navigation_kb category_id page has_prev has_next)) →
       InlineKeyboardButton.callback_data b = lit "back_to_categories"
       ∨ InlineKeyboardButton.callback_data b = lit "main_menu"
       ∨ (has_prev = true ∧ InlineKeyboardButton.text b = lit "⬅️ Назад"
          ∧ catalog.paginate_products (press b) w = shows category_id (page - 1)%Z)
       ∨ (has_next = true ∧ InlineKeyboardButton.text b = lit "➡️ Далее"
          ∧ catalog.paginate_products (press b) w = shows category_id (page + 1)%Z)).
Proof.
  intros press shows. split.
  - intros categories b Hids Hb. unfold inline.buttons, inline.categories_kb in Hb.
    rewrite concat_app, in_app_iff in Hb. destruct Hb as [Hb|Hb].
    + right. apply in_concat in Hb as (row & Hrow & Hb).
      apply in_map_iff in Hrow as (category & <- & Hcategory).
      destruct Hb as [<-|[]]. exists category. split; [done|]. split; [done|].
      unfold press. cbn [InlineKeyboardButton.callback_data inline.button].
      apply open_category_runs. auto.
    + left. simpl in Hb. by destruct Hb as [<-|[]].
  - intros category_id page has_prev has_next b Hc Hp Hb.
    assert (Hprev : ∀ b0, b0 = inline.button (lit "⬅️ Назад")
                            (lit "prev_page:" ++ str_of_Z category_id ++ lit ":"
                             ++ str_of_Z (page - 1)) →
              catalog.paginate_products (press b0) w = shows category_id (page - 1)%Z).
    { intros b0 ->. unfold press. cbn [InlineKeyboardButton.callback_data inline.button].
      change (lit "prev_page:") with (lit "prev_page" ++ [58%N]).
      change (lit ":") with [58%N]. rewrite <- app_assoc. cbn [app].
      apply page_button_runs; [done|lia..]. }
    assert (Hnext : ∀ b0, b0 = inline.button (lit "➡️ Далее")
                            (lit "next_page:" ++ str_of_Z category_id ++ lit ":"
                             ++ str_of_Z (page + 1)) →
              catalog.paginate_products (press b0) w = shows category_id (page + 1)%Z).
    { intros b0 ->. unfold press. cbn [InlineKeyboardButton.callback_data inline.button].
      change (lit "next_page:") with (lit "next_page" ++ [58%N]).
      change (lit ":") with [58%N]. rewrite <- app_assoc. cbn [app].
      apply page_button_runs; [done|lia..]. }
    unfold inline.buttons, inline.products_navigation_kb in Hb.
    assert (Hfixed : ∀ b0,
              In b0 [inline.button (lit "📂 К категориям") (lit "back_to_categories");
                     inline.button (lit "🏠 Главное меню") (lit "main_menu")] →
              InlineKeyboardButton.callback_data b0 = lit "back_to_categories"
              ∨ InlineKeyboardButton.callback_data b0 = lit "main_menu").
    { intros b0 [<-|[<-|[]]]; [by left|by right]. }
    destruct has_prev, has_next; cbn [app concat] in Hb.
    + destruct Hb as [<-|[<-|Hb]].
      * do 2 right. left. split; [done|]. split; [done|]. by apply Hprev.
      * do 3 right. split; [done|]. split; [done|]. by apply Hnext.
      * destruct (Hfixed b Hb); auto.
    + destruct Hb as [<-|Hb].
      * do 2 right. left. split; [done|]. split; [done|]. by apply Hprev.
      * destruct (Hfixed b Hb); auto.
    + destruct Hb as [<-|Hb].
      * do 3 right. split; [done|]. split; [done|]. by apply Hnext.
      * destruct (Hfixed b Hb); auto.
    + destruct (Hfixed b Hb); auto.
Qed.

End Buttons.

Lemma find_by_id {A} (id : A → Z) (l : list A) (x : A) :
  NoDup (map id l) → In x l → List.find (λ y, (id y =? id x)%Z) l = Some x.
Proof.
  induction l as [|y l IH]; simpl; [done|].
  intros [Hy Hl]%NoDup_cons [->|Hx]; [by rewrite Z.eqb_refl|].
  destruct (id y =? id x)%Z eqn:Hid; [|auto].
  apply Z.eqb_eq in Hid. destruct Hy. rewrite Hid.
  apply list_elem_of_In, in_map_iff. eauto.
Qed.

Section ProductButtons.
Context {U : UnicodeData}.

Lemma get_product_stored w c product :
  Database._conn (db w) = Some c →
  NoDup (map Product.id (Database.products c)) → In product (Database.products c) →
  on_db (Database.get_product (Product.id product)) w = (Ok (Some product), w).
Proof.
  intros Hc Hids Hin. apply on_db_read. unfold Database.get_product. step_m.
  rewrite Hc. simpl. by rewrite (find_by_id Product.id).
Qed.

(** From a product card to the order.  For a stored product (ids of
    products being distinct), the button under its card in the list opens the
    detailed card of that product; there the button "back" shows the page of
    the list the customer came from, and the button "order" starts the order
    of that product: its id, the price and name it has at that moment, the
    category and the page are put into the data of the dialogue, the calendar
    is sent and the dialogue waits for the date. *)
Theorem product_buttons_lead_to_the_order user w c product category_id page :
  Database._conn (db w) = Some c →
  NoDup (map Product.id (Database.products c)) → In product (Database.products c) →
  (0 ≤ Product.id product)%Z → (0 ≤ category_id)%Z → (0 ≤ page)%Z →
  let press b := CallbackQuery.mk user (InlineKeyboardButton.callback_data b) in
  let caption :=
    Product.name product ++ nl ++ lit "Цена: "
    ++ helpers.format_price (Product.price product) (Product.price_from product)
    ++ nl ++ nl ++ Product.description product in
  (∀ b, In b (inline.buttons
                (inline.product_list_action_kb (Product.id product) category_id page)) →
        catalog.product_view (press b) w
        = (Ok (),
           put_outbox w
             (outbox w
              ++ [answer_photo (Product.photo_file_id product) caption
                    (Some (inline.product_detail_kb (Product.id product) category_id page));
                  cb_answer None false])))
  ∧ (∀ b, In b (inline.buttons
                  (inline.product_detail_kb (Product.id product) category_id page)) →
          (InlineKeyboardButton.text b = lit "⬅️ Назад к товарам"
           ∧ catalog.back_to_products (press b) w
             = (catalog.send_products_page category_id page;; emit (cb_answer None false)) w)
          ∨ (InlineKeyboardButton.text b = lit "✅ Заказать"
             ∧ ∀ kb,
                 inline.order_date_kb (datetime.date_of (clock w))
                   (negb (helpers.is_after_six_pm None (clock w))) = Ok kb →
                 catalog.order_start (press b) w
                 = (Ok (),
                    mkWorld (db w)
                      (Some (order_state OrderStates.waiting_for_delivery_date))
                      (<["category_page"%string := v_int page]>
                         (<["category_id"%string := v_int category_id]>
                            (<["product_name"%string := v_str (Product.name product)]>
                               (<["product_price"%string := v_int (Product.price product)]>
                                  (<["product_id"%string := v_int (Product.id product)]>
                                     (fsm_data w))))))
                      (clock w) (unreachable w)
                      (outbox w
                       ++ [answer (lit "📅 Выберите дату доставки:") (Some kb);
                           cb_answer None false])))).
Proof.
  intros Hc Hids Hin Hid Hcat Hpage press caption.
  pose proof (get_product_stored w c product Hc Hids Hin) as Hget.
  split.
  - intros b [<-|[]]. unfold press, catalog.product_view.
    cbn [InlineKeyboardButton.callback_data inline.button CallbackQuery.data].
    change (lit "product_view:") with (lit "product_view" ++ [58%N]).
    change (lit ":") with [58%N]. rewrite <- app_assoc. cbn [app].
    rewrite fields4; [|by apply no_colon_in|done..].
    erewrite bind_ok; [|unfold lift; by rewrite int_str_of_Z].
    erewrite bind_ok; [|exact Hget]. cbv beta iota.
    erewrite bind_ok; [|unfold lift; by rewrite int_str_of_Z].
    erewrite bind_ok; [|unfold lift; by rewrite int_str_of_Z].
    erewrite bind_ok; [|reflexivity].
    unfold emit, put_outbox. cbn [outbox db fsm_state fsm_data clock unreachable].
    by rewrite <- app_assoc.
  - intros b [<-|[<-|[]]].
    + right. split; [done|]. intros kb Hkb. unfold press, catalog.order_start.
      cbn [InlineKeyboardButton.callback_data inline.button CallbackQuery.data].
      change (lit "order_start:") with (lit "order_start" ++ [58%N]).
      change (lit ":") with [58%N]. rewrite <- app_assoc. cbn [app].
      rewrite fields4; [|by apply no_colon_in|done..].
      erewrite bind_ok; [|unfold lift; by rewrite int_str_of_Z].
      erewrite bind_ok; [|exact Hget]. cbv beta iota.
      erewrite bind_ok; [|unfold lift; by rewrite int_str_of_Z].
      erewrite bind_ok; [|unfold lift; by rewrite int_str_of_Z].
      erewrite bind_ok; [|reflexivity].
      erewrite bind_ok; [|reflexivity].
      erewrite bind_ok; [|reflexivity].
      cbn [clock db fsm_state fsm_data unreachable outbox].
      erewrite bind_ok; [|unfold lift; by rewrite Hkb].
      erewrite bind_ok; [|reflexivity].
      erewrite bind_ok; [|reflexivity].
      unfold emit. cbn [outbox db fsm_state fsm_data clock unreachable foldl fst snd].
      by rewrite <- app_assoc.
    + left. split; [done|]. unfold press.
      cbn [InlineKeyboardButton.callback_data inline.button].
      change (lit "back_to_products:") with (lit "back_to_products" ++ [58%N]).
      change (lit ":") with [58%N]. rewrite <- app_assoc. cbn [app].
      apply page_button_runs; done.
Qed.

End ProductButtons.

(** * The administrator's dialogues *)

Section AdminDialogues.
Context {U : UnicodeData}.

Lemma item_int w key z :
  fsm_data w !! key = Some (v_int z) →
  (v ← item (fsm_data w) key; as_int v) w = (Ok z, w).
Proof. intros Hkey. unfold item, mbind, M_bind. by rewrite Hkey. Qed.

Lemma item_str w key t :
  fsm_data w !! key = Some (v_str t) →
  (v ← item (fsm_data w) key; as_str v) w = (Ok t, w).
Proof. intros Hkey. unfold item, mbind, M_bind. by rewrite Hkey. Qed.

Lemma item_bool w key b :
  fsm_data w !! key = Some (v_bool b) →
  (v ← item (fsm_data w) key; as_bool v) w = (Ok b, w).
Proof. intros Hkey. unfold item, mbind, M_bind. by rewrite Hkey. Qed.

Lemma item_found w key v : fsm_data w !! key = Some v → item (fsm_data w) key w = (Ok v, w).
Proof. intros Hkey. unfold item. by rewrite Hkey. Qed.

(** Saving the product of the add-product dialogue.  With the six answers
    in the data of the dialogue, a category id and a price among them that fit
    in 64 bits, and a table whose next rowid does, admin_save_product fails on
    a category that does not exist (any more) and then changes nothing;
    otherwise it stores one new product with these answers, active, under a
    fresh id, reports that id and ends the dialogue, and the product can be
    fetched by the id and is in the list of its category, which has one
    product more. *)
Theorem saved_product_is_on_sale settings cb w c category_id name price price_from
    description photo :
  Database._conn (db w) = Some c →
  fsm_data w !! "category_id"%string = Some (v_int category_id) →
  fsm_data w !! "name"%string = Some (v_str name) →
  fsm_data w !! "price"%string = Some (v_int price) →
  fsm_data w !! "price_from"%string = Some (v_bool price_from) →
  fsm_data w !! "description"%string = Some (v_str description) →
  fsm_data w !! "photo_file_id"%string = Some (v_str photo) →
  int64 category_id → int64 price →
  let rowid := Database.next_rowid (Database.seq_products c)
                 (map Product.id (Database.products c)) in
  let product :=
    Product.mk rowid category_id name price price_from description photo true
      (Database.current_timestamp c) in
  int64 rowid →
  (Database.category_exists c category_id = false →
   admin.admin_save_product cb settings w = (Raise IntegrityError, w))
  ∧ (Database.category_exists c category_id = true →
     ∃ w',
       admin.admin_save_product cb settings w = (Ok (), w')
       ∧ fsm_state w' = None ∧ fsm_data w' = ∅
       ∧ outbox w'
         = outbox w
           ++ [answer (lit "✅ Товар '" ++ name ++ lit "' успешно добавлен! (ID: "
                       ++ str_of_Z rowid ++ lit ")") None;
               cb_answer None false]
       ∧ (∀ row, In row (Database.products c) → Product.id row ≠ rowid)
       ∧ on_db (Database.get_product rowid) w' = (Ok (Some product), w')
       ∧ (∃ n rows,
            on_db (Database.count_products_in_category category_id) w = (Ok n, w)
            ∧ on_db (Database.count_products_in_category category_id) w'
              = (Ok (n + 1)%Z, w')
            ∧ on_db (Database.get_products_by_category category_id (-1) 0) w'
              = (Ok rows, w')
            ∧ In product rows)).
Proof.
  intros Hc Hcat Hname Hprice Hfrom Hdescr Hphoto _ _ rowid product _.
  assert (Hrun : admin.admin_save_product cb settings w
                 = (product_id ← on_db (Database.add_product category_id name price price_from
                                          description photo true);
                    emit (answer (lit "✅ Товар '" ++ name ++ lit "' успешно добавлен! (ID: "
                                  ++ str_of_Z product_id ++ lit ")") None);;
                    state.clear;;
                    emit (cb_answer None false)) w).
  { unfold admin.admin_save_product.
    erewrite bind_ok; [|reflexivity].
    erewrite bind_ok; [|by apply item_int].
    erewrite bind_ok; [|by apply item_found].
    erewrite bind_ok; [|by apply item_int].
    erewrite bind_ok; [|by apply item_bool].
    erewrite bind_ok; [|by apply item_str].
    erewrite bind_ok; [|by apply item_str].
    erewrite bind_ok; [|reflexivity]. done. }
  rewrite Hrun. clear Hrun.
  destruct w as [[path conn] st data now unreach out]. simpl in Hc. subst conn.
  split.
  - intros Hmissing. erewrite bind_raise; [done|].
    unfold on_db, Database.add_product. step_m. by rewrite Hmissing.
  - intros Hexists.
    assert (Hfresh : ∀ row, In row (Database.products c) → Product.id row ≠ rowid).
    { intros row Hrow Hid.
      pose proof (next_rowid_fresh (Database.seq_products c)
                    (map Product.id (Database.products c)) (Product.id row)
                    (in_map Product.id _ _ Hrow)). unfold rowid in Hid. lia. }
    eexists. split.
    { erewrite bind_ok; cycle 1.
      { unfold on_db, Database.add_product. step_m. rewrite Hexists. simpl. reflexivity. }
      erewrite bind_ok; [|reflexivity].
      erewrite bind_ok; [|reflexivity]. reflexivity. }
    cbn [fsm_state fsm_data outbox db state.clear emit snd fst].
    split; [done|]. split; [done|]. split; [by rewrite <- app_assoc|]. split; [done|].
    split.
    { unfold on_db, Database.get_product. step_m. do 2 f_equal.
      fold rowid. fold product.
      apply find_snoc_fresh; [|simpl; apply Z.eqb_refl].
      intros row Hrow. apply Z.eqb_neq. by apply Hfresh. }
    eexists _, _. split; [|split; [|split]].
    + unfold on_db, Database.count_products_in_category. step_m. reflexivity.
    + unfold on_db, Database.count_products_in_category. step_m. do 2 f_equal.
      fold rowid. fold product. rewrite List.filter_app, length_app. simpl.
      unfold Database.active_in at 2. simpl. rewrite Z.eqb_refl. simpl. lia.
    + unfold on_db, Database.get_products_by_category. step_m. reflexivity.
    + unfold Database.limit_offset. simpl. fold rowid. fold product.
      apply list_elem_of_In. rewrite order_by_desc_perm. apply list_elem_of_In.
      apply filter_In. split; [apply in_app_iff; right; by left|].
      unfold Database.active_in. simpl. by rewrite Z.eqb_refl.
Qed.


End AdminDialogues.

(** * The list of a customer's orders *)

Section OrderList.
Context {U : UnicodeData}.



End OrderList.

(** * The calendar *)

Lemma month_and_day_in_range (y n : Z) (leap : bool) :
  (0 ≤ n < 365)%Z →
  let m := Z.shiftr (n + 50) 5 in
  let preceding :=
    (nth (Z.to_nat m) datetime.DAYS_BEFORE_MONTH 0 + (if (2 <? m) && leap then 1 else 0))%Z in
  let d :=
    if (n <? preceding)%Z
    then
      let m := (m - 1)%Z in
      let preceding :=
        (preceding - (nth (Z.to_nat m) datetime.DAYS_IN_MONTH 0
                      + (if (m =? 2) && leap then 1 else 0)))%Z in
      datetime.mkdate y m (n - preceding + 1)
    else datetime.mkdate y m (n - preceding + 1) in
  datetime.year d = y
  ∧ (1 ≤ datetime.month d ≤ 12)%Z
  ∧ (1 ≤ datetime.day d
     ≤ if (datetime.month d =? 2)%Z && leap then 29
       else nth (Z.to_nat (datetime.month d)) datetime.DAYS_IN_MONTH 0)%Z.
Proof.
  intros Hn m preceding d.
  assert (Hall : forallb
            (λ k,
               let n := Z.of_nat k in
               let m := Z.shiftr (n + 50) 5 in
               let preceding :=
                 (nth (Z.to_nat m) datetime.DAYS_BEFORE_MONTH 0
                  + (if (2 <? m) && leap then 1 else 0))%Z in
               let d :=
                 if (n <? preceding)%Z
                 then
                   let m := (m - 1)%Z in
                   let preceding :=
                     (preceding - (nth (Z.to_nat m) datetime.DAYS_IN_MONTH 0
                                   + (if (m =? 2) && leap then 1 else 0)))%Z in
                   datetime.mkdate 0 m (n - preceding + 1)
                 else datetime.mkdate 0 m (n - preceding + 1) in
               (1 <=? datetime.month d)%Z && (datetime.month d <=? 12)%Z
               && (1 <=? datetime.day d)%Z
               && (datetime.day d
                   <=? if (datetime.month d =? 2)%Z && leap then 29
                       else nth (Z.to_nat (datetime.month d)) datetime.DAYS_IN_MONTH 0)%Z)
            (seq 0 365) = true).
  { destruct leap; vm_compute; reflexivity. }
  rewrite forallb_forall in Hall.
  specialize (Hall (Z.to_nat n) ltac:(apply in_seq; lia)).
  rewrite Z2Nat.id in Hall by lia. cbv zeta in Hall.
  fold m in Hall. fold preceding in Hall.
  rewrite !andb_true_iff, !Z.leb_le in Hall.
  unfold d. destruct (n <? preceding)%Z;
    cbn [datetime.year datetime.month datetime.day] in *; (split; [done|lia]).
Qed.

Lemma leap_from_the_cycle (n400 n100 n4 n1 : Z) :
  (0 ≤ n100 ≤ 3)%Z → (0 ≤ n4 ≤ 24)%Z → (0 ≤ n1 ≤ 3)%Z →
  datetime.is_leap (n400 * 400 + 1 + n100 * 100 + n4 * 4 + n1)
  = ((n1 =? 3)%Z && (negb (n4 =? 24)%Z || (n100 =? 3)%Z)).
Proof.
  intros H100 H4 H1. unfold datetime.is_leap.
  set (y := (n400 * 400 + 1 + n100 * 100 + n4 * 4 + n1)%Z).
  assert (E4 : (y mod 4 = 0 ↔ n1 = 3)%Z).
  { unfold y. pose proof (Z.div_mod (n400 * 400 + 1 + n100 * 100 + n4 * 4 + n1) 4 ltac:(lia)).
    pose proof (Z.mod_pos_bound (n400 * 400 + 1 + n100 * 100 + n4 * 4 + n1) 4 ltac:(lia)). lia. }
  assert (E100 : (y mod 100 = 0 ↔ n1 = 3 ∧ n4 = 24)%Z).
  { unfold y. pose proof (Z.div_mod (n400 * 400 + 1 + n100 * 100 + n4 * 4 + n1) 100 ltac:(lia)).
    pose proof (Z.mod_pos_bound (n400 * 400 + 1 + n100 * 100 + n4 * 4 + n1) 100 ltac:(lia)). lia. }
  assert (E400 : (y mod 400 = 0 ↔ n1 = 3 ∧ n4 = 24 ∧ n100 = 3)%Z).
  { unfold y. pose proof (Z.div_mod (n400 * 400 + 1 + n100 * 100 + n4 * 4 + n1) 400 ltac:(lia)).
    pose proof (Z.mod_pos_bound (n400 * 400 + 1 + n100 * 100 + n4 * 4 + n1) 400 ltac:(lia)). lia. }
  destruct (Z.eqb_spec (y mod 4) 0), (Z.eqb_spec (y mod 100) 0), (Z.eqb_spec (y mod 400) 0),
    (Z.eqb_spec n1 3), (Z.eqb_spec n4 24), (Z.eqb_spec n100 3); simpl; try done; lia.
Qed.

Lemma ord2ymd_in_range o :
  (1 ≤ o ≤ datetime.MAXORDINAL)%Z →
  let d := datetime.ord2ymd o in
  (1 ≤ datetime.year d ≤ 9999)%Z
  ∧ (1 ≤ datetime.month d ≤ 12)%Z
  ∧ (1 ≤ datetime.day d ≤ datetime.days_in_month (datetime.year d) (datetime.month d))%Z.
Proof.
  intros Ho. unfold datetime.MAXORDINAL in Ho. unfold datetime.ord2ymd.
  change datetime.DI400Y with 146097%Z. change datetime.DI100Y with 36524%Z.
  change datetime.DI4Y with 1461%Z.
  pose proof (Z.div_mod (o - 1) 146097 ltac:(lia)) as E400.
  pose proof (Z.mod_pos_bound (o - 1) 146097 ltac:(lia)) as B400.
  set (n400 := ((o - 1) / 146097)%Z) in *. set (r400 := ((o - 1) mod 146097)%Z) in *.
  pose proof (Z.div_mod r400 36524 ltac:(lia)) as E100.
  pose proof (Z.mod_pos_bound r400 36524 ltac:(lia)) as B100.
  set (n100 := (r400 / 36524)%Z) in *. set (r100 := (r400 mod 36524)%Z) in *.
  pose proof (Z.div_mod r100 1461 ltac:(lia)) as E4.
  pose proof (Z.mod_pos_bound r100 1461 ltac:(lia)) as B4.
  set (n4 := (r100 / 1461)%Z) in *. set (r4 := (r100 mod 1461)%Z) in *.
  pose proof (Z.div_mod r4 365 ltac:(lia)) as E1.
  pose proof (Z.mod_pos_bound r4 365 ltac:(lia)) as B1.
  set (n1 := (r4 / 365)%Z) in *. set (n := (r4 mod 365)%Z) in *.
  assert (0 ≤ n400 ∧ 0 ≤ n100 ≤ 4 ∧ 0 ≤ n4 ≤ 24 ∧ 0 ≤ n1 ≤ 4)%Z as (H400 & H100 & H4 & H1) by lia.
  cbv zeta.
  destruct ((n1 =? 4)%Z || (n100 =? 4)%Z) eqn:Hlast.
  - cbn [datetime.year datetime.month datetime.day].
    assert (n1 = 4 ∨ n100 = 4)%Z as Hcase.
    { apply orb_true_iff in Hlast as [?%Z.eqb_eq|?%Z.eqb_eq]; auto. }
    split; [lia|]. split; [lia|]. unfold datetime.days_in_month. simpl. lia.
  - apply orb_false_iff in Hlast as [Hn1%Z.eqb_neq Hn100%Z.eqb_neq].
    rewrite <- (leap_from_the_cycle n400 n100 n4 n1) by lia.
    set (y := (n400 * 400 + 1 + n100 * 100 + n4 * 4 + n1)%Z).
    pose proof (month_and_day_in_range y n (datetime.is_leap y) B1) as Hmd.
    cbv zeta in Hmd. destruct Hmd as (Hyear & Hmonth & Hday).
    rewrite Hyear. split; [unfold y; lia|]. split; [done|].
    unfold datetime.days_in_month. exact Hday.
Qed.

Lemma four_digits y :
  (1 ≤ y ≤ 9999)%Z →
  ∃ a b c d, zfill 4 (str_of_Z y) = [a; b; c; d]
             ∧ datetime.ascii_number [a; b; c; d] = Some y.
Proof.
  intros Hy.
  assert (Hall : forallb
            (λ k, match zfill 4 (str_of_Z (Z.pos k)) with
                  | [a; b; c; d] =>
                    bool_decide (datetime.ascii_number [a; b; c; d] = Some (Z.pos k))
                  | _ => false
                  end)
            (map Pos.of_nat (seq 1 (Z.to_nat 9999))) = true).
  { vm_compute. reflexivity. }
  rewrite forallb_forall in Hall. specialize (Hall (Z.to_pos y)).
  rewrite Z2Pos.id in Hall by lia.
  assert (Hin : In (Z.to_pos y) (map Pos.of_nat (seq 1 (Z.to_nat 9999)))).
  { apply in_map_iff. exists (Z.to_nat y). split; [lia|apply in_seq; lia]. }
  specialize (Hall Hin).
  destruct (zfill 4 (str_of_Z y)) as [|a [|b [|c [|d [|]]]]]; try discriminate Hall.
  exists a, b, c, d. split; [done|]. by eapply bool_decide_eq_true_1.
Qed.

Lemma two_digits n :
  (1 ≤ n ≤ 31)%Z →
  ∃ a b, datetime.two n = [a; b] ∧ datetime.ascii_number [a; b] = Some n.
Proof.
  intros Hn.
  assert (Hall : forallb
            (λ k, match datetime.two (Z.pos k) with
                  | [a; b] => bool_decide (datetime.ascii_number [a; b] = Some (Z.pos k))
                  | _ => false
                  end)
            (map Pos.of_nat (seq 1 31)) = true).
  { vm_compute. reflexivity. }
  rewrite forallb_forall in Hall. specialize (Hall (Z.to_pos n)).
  rewrite Z2Pos.id in Hall by lia.
  assert (Hin : In (Z.to_pos n) (map Pos.of_nat (seq 1 31))).
  { apply in_map_iff. exists (Z.to_nat n). split; [lia|apply in_seq; lia]. }
  specialize (Hall Hin).
  destruct (datetime.two n) as [|a [|b [|]]]; try discriminate Hall.
  exists a, b. split; [done|]. by eapply bool_decide_eq_true_1.
Qed.

Lemma fromisoformat_isoformat d :
  (1 ≤ datetime.year d ≤ 9999)%Z → (1 ≤ datetime.month d ≤ 12)%Z →
  (1 ≤ datetime.day d ≤ datetime.days_in_month (datetime.year d) (datetime.month d))%Z →
  datetime.fromisoformat (datetime.isoformat d) = Ok d
  ∧ length (datetime.isoformat d) = 10
  ∧ Forall (λ c, c ≠ 58%N) (datetime.isoformat d).
Proof.
  intros Hy Hm Hd. destruct d as [y m d]. cbn [datetime.year datetime.month datetime.day] in *.
  assert (Hdim : (datetime.days_in_month y m ≤ 31)%Z).
  { unfold datetime.days_in_month. destruct ((m =? 2)%Z && datetime.is_leap y); [lia|].
    assert (Hk : Z.to_nat m < 13) by lia. revert Hk. generalize (Z.to_nat m). intros k Hk.
    do 13 (destruct k as [|k]; [simpl; lia|]). lia. }
  destruct (four_digits y Hy) as (y1 & y2 & y3 & y4 & Hys & Hyn).
  destruct (two_digits m ltac:(lia)) as (m1 & m2 & Hms & Hmn).
  destruct (two_digits d ltac:(lia)) as (d1 & d2 & Hds & Hdn).
  unfold datetime.isoformat. cbn [datetime.year datetime.month datetime.day].
  rewrite Hys, Hms, Hds. cbn [app].
  split; [|split; [done|]].
  - unfold datetime.fromisoformat. rewrite Hyn, Hmn, Hdn.
    replace ((1 <=? y)%Z && (1 <=? m)%Z && (m <=? 12)%Z && (1 <=? d)%Z
             && (d <=? datetime.days_in_month y m)%Z) with true; [done|].
    symmetry. rewrite !andb_true_iff, !Z.leb_le. lia.
  - assert (Hdigit : ∀ w n c, datetime.ascii_number w = Some n → In c w → c ≠ 58%N).
    { intros w n c Hw Hc. unfold datetime.ascii_number in Hw.
      destruct (forallb _ w) eqn:Hall; [|done].
      rewrite forallb_forall in Hall. specialize (Hall c Hc).
      apply andb_true_iff in Hall as [_ Hle%N.leb_le]. lia. }
    repeat constructor; try done.
    + eapply Hdigit; [exact Hyn|]. by left.
    + eapply Hdigit; [exact Hyn|]. right; by left.
    + eapply Hdigit; [exact Hyn|]. do 2 right; by left.
    + eapply Hdigit; [exact Hyn|]. do 3 right; by left.
    + eapply Hdigit; [exact Hmn|]. by left.
    + eapply Hdigit; [exact Hmn|]. right; by left.
    + eapply Hdigit; [exact Hdn|]. by left.
    + eapply Hdigit; [exact Hdn|]. right; by left.
Qed.

Lemma split1_at sep a rest :
  Forall (λ c, c ≠ sep) a → split1 sep (a ++ sep :: rest) = [a; rest].
Proof.
  induction 1 as [|c a Hc _ IH]; simpl.
  - by rewrite N.eqb_refl.
  - rewrite (proj2 (N.eqb_neq c sep)) by done. by rewrite IH.
Qed.

Lemma concat_chunks {A} n : ∀ fuel (l : list A),
  0 < n → length l ≤ fuel → concat (inline.chunks fuel n l) = l.
Proof.
  induction fuel as [|fuel IH]; intros l Hn Hl.
  - destruct l; [done|simpl in Hl; lia].
  - destruct l as [|x l]; [done|].
    cbn [inline.chunks concat]. rewrite IH; [apply firstn_skipn|done|].
    rewrite length_skipn. simpl in *. lia.
Qed.

Lemma traverse_each {A B} (f : A → result B) l : ∀ ys,
  traverse f l = Ok ys → length ys = length l ∧ ∀ y, In y ys → ∃ x, In x l ∧ f x = Ok y.
Proof.
  induction l as [|x l IH]; intros ys Hys.
  - injection Hys as <-. split; [done|]. intros y [].
  - apply traverse_cons in Hys as (y & ys' & Hy & Hys' & ->).
    destruct (IH ys' Hys') as [Hlen Hall]. split; [simpl; lia|].
    intros y0 [<-|Hy0]; [exists x; split; [by left|done]|].
    destruct (Hall y0 Hy0) as (x0 & Hx0 & Hf). exists x0. split; [by right|done].
Qed.

Section Calendar.
Context {U : UnicodeData}.

Lemma date_selected_runs user value w selected :
  (if Database.str_eqb value (lit "today") then Ok (datetime.date_of (clock w))
   else if Database.str_eqb value (lit "tomorrow")
        then datetime.add_days (datetime.date_of (clock w)) 1
        else datetime.fromisoformat value) = Ok selected →
  orders.date_selected (CallbackQuery.mk user (lit "date_selected:" ++ value)) w
  = (Ok (),
     mkWorld (db w) (Some (order_state OrderStates.waiting_for_delivery_time))
       (<["delivery_date"%string := v_str (datetime.isoformat selected)]> (fsm_data w))
       (clock w) (unreachable w)
       (outbox w ++ [answer (lit "⏰ Выберите время доставки:") (Some inline.order_time_kb);
                     cb_answer None false])).
Proof.
  intros Hselected. unfold orders.date_selected. cbn [CallbackQuery.data].
  change (lit "date_selected:") with (lit "date_selected" ++ [58%N]).
  rewrite <- app_assoc. cbn [app].
  rewrite split1_at by by apply no_colon_in.
  erewrite bind_ok; [|reflexivity].
  erewrite bind_ok; [|reflexivity].
  erewrite bind_ok; cycle 1.
  { instantiate (1 := w). instantiate (1 := selected).
    destruct (Database.str_eqb value (lit "today")); [by injection Hselected as ->|].
    destruct (Database.str_eqb value (lit "tomorrow")); unfold lift; by rewrite Hselected. }
  erewrite bind_ok; [|reflexivity].
  erewrite bind_ok; [|reflexivity].
  erewrite bind_ok; [|reflexivity].
  unfold emit. cbn [outbox db fsm_state fsm_data clock unreachable foldl fst snd].
  by rewrite <- app_assoc.
Qed.

(** Every date the calendar offers is accepted.  Whichever button of the
    keyboard of dates is pressed, and whenever: a day of the grid stores the
    very date it shows, in ISO form, whatever the clock says by then; "today"
    and "tomorrow" store the day of the press and the day after it; the
    remaining button cancels.  In each case the dialogue then asks for the
    time of delivery. *)
Theorem calendar_dates_are_accepted built include_today kb user w b :
  inline.order_date_kb built include_today = Ok kb →
  In b (inline.buttons kb) →
  let press := CallbackQuery.mk user (InlineKeyboardButton.callback_data b) in
  let chosen d :=
    (Ok (),
     mkWorld (db w) (Some (order_state OrderStates.waiting_for_delivery_time))
       (<["delivery_date"%string := v_str (datetime.isoformat d)]> (fsm_data w))
       (clock w) (unreachable w)
       (outbox w ++ [answer (lit "⏰ Выберите время доставки:") (Some inline.order_time_kb);
                     cb_answer None false])) in
  InlineKeyboardButton.callback_data b = lit "order_cancel"
  ∨ (include_today = true ∧ InlineKeyboardButton.text b = lit "🚀 Сегодня"
     ∧ orders.date_selected press w = chosen (datetime.date_of (clock w)))
  ∨ (InlineKeyboardButton.text b = lit "📆 Завтра"
     ∧ ∀ d, datetime.add_days (datetime.date_of (clock w)) 1 = Ok d →
            orders.date_selected press w = chosen d)
  ∨ (∃ i target,
       i < 14 ∧ datetime.add_days built (Z.of_nat i) = Ok target
       ∧ InlineKeyboardButton.text b = datetime.strftime_d_m target
       ∧ orders.date_selected press w = chosen target).
Proof.
  intros Hkb Hb press chosen.
  unfold inline.order_date_kb, mbind, result_bind, rbind in Hkb.
  destruct (traverse (inline.day_button built) (seq 0 14)) as [days|e] eqn:Hdays;
    [|discriminate].
  injection Hkb as <-.
  destruct (traverse_each _ _ _ Hdays) as [Hlen Heach].
  unfold inline.buttons in Hb. cbn [concat] in Hb. rewrite concat_app in Hb.
  rewrite concat_chunks in Hb by (rewrite ?Hlen; simpl; lia).
  apply in_app_iff in Hb as [Hb|Hb]; [|apply in_app_iff in Hb as [Hb|Hb]].
  - assert (Htomorrow :
      b = inline.button (lit "📆 Завтра") (lit "date_selected:tomorrow") →
      InlineKeyboardButton.text b = lit "📆 Завтра"
      ∧ ∀ d, datetime.add_days (datetime.date_of (clock w)) 1 = Ok d →
             orders.date_selected press w = chosen d).
    { intros ->. split; [done|]. intros d Hd. unfold press.
      cbn [InlineKeyboardButton.callback_data inline.button].
      change (lit "date_selected:tomorrow") with (lit "date_selected:" ++ lit "tomorrow").
      apply date_selected_runs.
      replace (Database.str_eqb (lit "tomorrow") (lit "today")) with false
        by (symmetry; by vm_compute).
      replace (Database.str_eqb (lit "tomorrow") (lit "tomorrow")) with true
        by (symmetry; by vm_compute).
      done. }
    destruct include_today; cbn [app concat] in Hb.
    + destruct Hb as [<-|[<-|[]]].
      * right. left. split; [done|]. split; [done|]. unfold press.
        cbn [InlineKeyboardButton.callback_data inline.button].
        change (lit "date_selected:today") with (lit "date_selected:" ++ lit "today").
        apply date_selected_runs.
        replace (Database.str_eqb (lit "today") (lit "today")) with true
          by (symmetry; by vm_compute).
        done.
      * do 2 right. left. by apply Htomorrow.
    + destruct Hb as [<-|[]]. do 2 right. left. by apply Htomorrow.
  - do 3 right. destruct (Heach b Hb) as (i & Hi%in_seq & Hbutton).
    unfold inline.day_button, mbind, result_bind, rbind in Hbutton.
    destruct (datetime.add_days built (Z.of_nat i)) as [target|e] eqn:Htarget; [|discriminate].
    injection Hbutton as <-. exists i, target. split; [lia|]. split; [done|]. split; [done|].
    assert (Hvalid : datetime.fromisoformat (datetime.isoformat target) = Ok target
                     ∧ length (datetime.isoformat target) = 10
                     ∧ Forall (λ c, c ≠ 58%N) (datetime.isoformat target)).
    { unfold datetime.add_days in Htarget.
      destruct ((0 <? datetime.toordinal built + Z.of_nat i)%Z
                && (datetime.toordinal built + Z.of_nat i <=? datetime.MAXORDINAL)%Z)
        eqn:Hrange; [|discriminate].
      injection Htarget as <-.
      apply andb_true_iff in Hrange as [Hlow%Z.ltb_lt Hhigh%Z.leb_le].
      destruct (ord2ymd_in_range (datetime.toordinal built + Z.of_nat i) ltac:(lia))
        as (Hy & Hm & Hd).
      by apply fromisoformat_isoformat. }
    destruct Hvalid as (Hround & Hlength & _).
    unfold press. cbn [InlineKeyboardButton.callback_data inline.button].
    apply date_selected_runs.
    assert (Hnot : ∀ word, length word ≠ 10 →
              Database.str_eqb (datetime.isoformat target) word = false).
    { intros word Hword. apply bool_decide_eq_false. intros Heq. by rewrite Heq in Hlength. }
    rewrite !Hnot by (by vm_compute). done.
  - left. simpl in Hb. by destruct Hb as [<-|[]].
Qed.

End Calendar.

(** * Further steps and edges *)

Section Slots.
Context {U : UnicodeData}.

(** The time slot is stored whole.  Whatever follows the first colon of the
    callback data is what time_selected stores, further colons included, and
    the dialogue goes on to the address.  The four slots of the keyboard of
    times are written that way: the stored slot is the text of the button
    without its spaces. *)
Theorem time_slot_is_stored_whole user w :
  (∀ slot,
     orders.time_selected (CallbackQuery.mk user (lit "time_selected:" ++ slot)) w
     = (Ok (),
        mkWorld (db w) (Some (order_state OrderStates.waiting_for_address))
          (<["delivery_time"%string := v_str slot]> (fsm_data w)) (clock w) (unreachable w)
          (outbox w ++ [answer (lit "📍 Укажите адрес доставки:")
                          (Some reply.location_request_kb);
                        cb_answer None false])))
  ∧ (∀ b, In b (inline.buttons inline.order_time_kb) →
          InlineKeyboardButton.callback_data b = lit "back_to_date"
          ∨ InlineKeyboardButton.callback_data b = lit "order_cancel"
          ∨ InlineKeyboardButton.callback_data b
            = lit "time_selected:"
              ++ List.filter (λ ch, negb (ch =? 32)%N) (InlineKeyboardButton.text b)).
Proof.
  split.
  - intros slot. unfold orders.time_selected. cbn [CallbackQuery.data].
    change (lit "time_selected:") with (lit "time_selected" ++ [58%N]).
    rewrite <- app_assoc. cbn [app].
    rewrite split1_at by by apply no_colon_in.
    erewrite bind_ok; [|reflexivity].
    erewrite bind_ok; [|reflexivity].
    erewrite bind_ok; [|reflexivity].
    erewrite bind_ok; [|reflexivity].
    unfold emit. cbn [outbox db fsm_state fsm_data clock unreachable foldl fst snd].
    by rewrite <- app_assoc.
  - intros b Hb. unfold inline.buttons, inline.order_time_kb in Hb. cbn [concat app] in Hb.
    destruct Hb as [<-|[<-|[<-|[<-|[<-|[<-|[]]]]]]];
      [do 2 right; by vm_compute..|by left|right; by left].
Qed.

End Slots.

Section AdminTexts.
Context {U : UnicodeData}.

(** The texts of the add-product dialogue are checked by their trimmed
    length.  admin_add_name keeps a name of 3 to 50 characters and
    admin_add_description a description of at most 500; each then stores the
    trimmed text and moves the dialogue on.  Any other text is turned away
    with a notice and changes nothing.  Neither step writes to the
    storage. *)
Theorem admin_texts_are_checked message w :
  let named := snd (admin.admin_add_name message w) in
  let described := snd (admin.admin_add_description message w) in
  db named = db w ∧ db described = db w
  ∧ (∀ text, Message.text message = Some text →
       let kept := strip text in
       (if (3 <=? length kept) && (length kept <=? 50)
        then fsm_data named = <["name"%string := v_str kept]> (fsm_data w)
             ∧ (∀ c, Database._conn (db w) = Some c →
                     fsm_state named
                     = Some (admin_add_product_state
                               AdminAddProductStates.waiting_for_category))
        else admin.admin_add_name message w
             = (Ok (),
                put_outbox w
                  (outbox w
                   ++ [answer (lit "Название должно быть от 3 до 50 символов.") None])))
       ∧ (if length kept <=? 500
          then fsm_data described = <["description"%string := v_str kept]> (fsm_data w)
               ∧ fsm_state described
                 = Some (admin_add_product_state
                           AdminAddProductStates.waiting_for_confirmation)
          else admin.admin_add_description message w
               = (Ok (),
                  put_outbox w
                    (outbox w
                     ++ [answer (lit "Описание должно быть до 500 символов.") None])))).
Proof.
  intros named described.
  assert (Hname : preserves (on_storage (λ d, d = db w)) (admin.admin_add_name message)).
  { unfold admin.admin_add_name. repeat frame_step. }
  assert (Hdescr : preserves (on_storage (λ d, d = db w))
                     (admin.admin_add_description message)).
  { unfold admin.admin_add_description. repeat frame_step. }
  split; [by apply Hname|]. split; [by apply Hdescr|].
  intros text Htext kept. split.
  - unfold named, admin.admin_add_name, text_of. rewrite Htext.
    erewrite bind_ok; [|reflexivity]. fold kept.
    destruct ((3 <=? length kept) && (length kept <=? 50)); cbn [negb]; [|done].
    erewrite bind_ok; [|reflexivity].
    unfold on_db, Database.get_categories, mbind at 1, M_bind at 1.
    destruct w as [[path [c|]] st data now unreach out]; step_m; [|done].
    split; [done|]. by intros ? [= <-].
  - unfold described, admin.admin_add_description, text_of. rewrite Htext.
    erewrite bind_ok; [|reflexivity]. fold kept.
    rewrite Nat.ltb_antisym. destruct (length kept <=? 500); cbn [negb]; [|done].
    erewrite bind_ok; [|reflexivity].
    erewrite bind_ok; [|reflexivity].
    erewrite bind_ok; [|reflexivity].
    cbn [fsm_data foldl fst snd].
    set (w1 := mkWorld _ _ _ _ _ _).
    assert (Hrest : ∀ m : M World unit,
              preserves (λ w', fsm_data w' = fsm_data w1 ∧ fsm_state w' = fsm_state w1) m →
              fsm_data (snd (m w1)) = fsm_data w1 ∧ fsm_state (snd (m w1)) = fsm_state w1).
    { intros m Hm. by apply Hm. }
    apply Hrest.
    repeat first [ apply preserves_bind; [|intros ?] | solve [auto with frames] ].
    by intros w' Hw'.
Qed.

End AdminTexts.



Section Vanished.
Context {U : UnicodeData}.

(** A product that is gone.  When no product has the id that a button or
    the data of the dialogue names, an id from 0 that fits in 64 bits,
    product_view, order_start and order_confirm only show the alert
    "Товар не найден": nothing is stored, nobody is notified and the dialogue
    stays where it is. *)
Theorem vanished_product_is_reported user settings w c product_id category_id page :
  Database._conn (db w) = Some c →
  Database.product_exists c product_id = false →
  (0 ≤ product_id)%Z → int64 product_id → (0 ≤ category_id)%Z → (0 ≤ page)%Z →
  let alert :=
    (Ok (), put_outbox w (outbox w ++ [cb_answer (Some (lit "Товар не найден")) true])) in
  let fields := str_of_Z product_id ++ lit ":" ++ str_of_Z category_id ++ lit ":"
                ++ str_of_Z page in
  catalog.product_view (CallbackQuery.mk user (lit "product_view:" ++ fields)) w = alert
  ∧ catalog.order_start (CallbackQuery.mk user (lit "order_start:" ++ fields)) w = alert
  ∧ (fsm_data w !! "product_id"%string = Some (v_int product_id) →
     ∀ data, orders.order_confirm (CallbackQuery.mk user data) settings w = alert).
Proof.
  intros Hc Hgone Hid _ Hcat Hpage alert fields.
  assert (Hget : on_db (Database.get_product product_id) w = (Ok None, w)).
  { apply on_db_read. unfold Database.get_product. step_m. rewrite Hc. simpl.
    do 2 f_equal. destruct (List.find _ _) as [row|] eqn:Hfind; [|done].
    apply find_some in Hfind as [Hin Hrow].
    assert (Database.product_exists c product_id = true); [|congruence].
    unfold Database.product_exists. apply existsb_exists. eauto. }
  unfold fields. change (lit ":") with [58%N]. split; [|split].
  - unfold catalog.product_view. cbn [CallbackQuery.data].
    change (lit "product_view:") with (lit "product_view" ++ [58%N]).
    rewrite <- app_assoc. cbn [app].
    rewrite fields4; [|by apply no_colon_in|done..].
    erewrite bind_ok; [|unfold lift; by rewrite int_str_of_Z].
    erewrite bind_ok; [|exact Hget]. done.
  - unfold catalog.order_start. cbn [CallbackQuery.data].
    change (lit "order_start:") with (lit "order_start" ++ [58%N]).
    rewrite <- app_assoc. cbn [app].
    rewrite fields4; [|by apply no_colon_in|done..].
    erewrite bind_ok; [|unfold lift; by rewrite int_str_of_Z].
    erewrite bind_ok; [|exact Hget]. done.
  - intros Hdata data. unfold orders.order_confirm.
    erewrite bind_ok; [|reflexivity].
    erewrite bind_ok; [|by apply item_int].
    erewrite bind_ok; [|exact Hget]. done.
Qed.

End Vanished.

(** notify_admins reaches whom it can.  It never raises: every
    administrator the bot can write to gets the text with the keyboard, in the
    order of the list and once for each time they are listed, an
    administrator it cannot write to is passed over, and nothing but the
    outbox changes. *)
Theorem notify_admins_reaches_whom_it_can admin_ids text kb w :
  ∃ delivered,
    notify_admins admin_ids text kb w = (Ok (), put_outbox w (outbox w ++ delivered))
    ∧ delivered
      = map (λ admin_id, send_message admin_id text kb)
          (List.filter (λ admin_id, negb (unreachable w admin_id)) admin_ids)
    ∧ (∀ admin_id, In (send_message admin_id text kb) delivered
                   ↔ In admin_id admin_ids ∧ unreachable w admin_id = false)
    ∧ length delivered ≤ length admin_ids
    ∧ ((∀ admin_id, In admin_id admin_ids → unreachable w admin_id = true) →
       notify_admins admin_ids text kb w = (Ok (), w)).
Proof.
  eexists. split; [apply notify_admins_runs|]. split; [done|]. split; [|split].
  - intros admin_id. rewrite in_map_iff. split.
    + intros (a & [= ->] & [Hin Hok%negb_true_iff]%filter_In). done.
    + intros [Hin Hok]. exists admin_id. split; [done|]. apply filter_In.
      split; [done|]. by rewrite Hok.
  - rewrite length_map. apply List.filter_length_le.
  - intros Hall. rewrite notify_admins_runs.
    replace (List.filter (λ admin_id, negb (unreachable w admin_id)) admin_ids) with (@nil Z).
    + unfold put_outbox. simpl. rewrite app_nil_r. by destruct w.
    + symmetry. induction admin_ids as [|a l IH]; [done|]. simpl.
      rewrite (Hall a) by by left. simpl. apply IH. intros b Hb. apply Hall. by right.
Qed.

(** * The further properties at work in the sample shop *)

Lemma a_new_bouquet_reads_back :
  fst (Database.get_product 8
         (snd (Database.add_product 1 (lit "Пионы") 950000 false (lit "Сезонный букет")
                 (lit "AgACAgIAAxkBAAIC") true sample.storage)))
  = Ok (Some (Product.mk 8 1 (lit "Пионы") 950000 false (lit "Сезонный букет")
                (lit "AgACAgIAAxkBAAIC") true 1715335200)).
Proof.
  pose proof (add_product_then_get sample.storage sample.stored 1 (lit "Пионы") 950000 false
                (lit "Сезонный букет") (lit "AgACAgIAAxkBAAIC") true eq_refl) as H.
  cbv zeta in H. destruct H as [_ Hadded]; [unfold int64; lia..|vm_compute; by split|].
  destruct (Hadded eq_refl) as (_ & _ & Hget & _). exact Hget.
Defined.

Lemma a_new_order_reads_back :
  fst (Database.get_order 1
         (snd (Database.create_order 42 (Some (lit "anna")) 7 1800000 (lit "2024-05-11")
                 (lit "12:00-15:00") (lit "123 Main Street Apt 4") None (lit "0912345678")
                 status_new sample.storage)))
  = Ok (Some (Order.mk 1 42 (Some (lit "anna")) 7 1800000 (lit "2024-05-11")
                (lit "12:00-15:00") (lit "123 Main Street Apt 4") None (lit "0912345678")
                status_new 1715335200)).
Proof.
  pose proof (create_order_then_get sample.storage sample.stored 42 (Some (lit "anna")) 7
                1800000 (lit "2024-05-11") (lit "12:00-15:00") (lit "123 Main Street Apt 4")
                None (lit "0912345678") status_new eq_refl) as H.
  cbv zeta in H. destruct H as [_ Hadded]; [unfold int64; lia..|vm_compute; by split|].
  destruct (Hadded eq_refl) as (_ & Hget & _). exact Hget.
Defined.


Lemma roses_stay_while_ordered :
  Database.delete_category 1 (db sample.with_order)
  = (Raise IntegrityError, db sample.with_order)
  ∧ fst (Database.get_product 7 (snd (Database.delete_category 1 sample.storage))) = Ok None.
Proof.
  split.
  - pose proof (delete_category_cascades (db sample.with_order)
                  (Database.mkConnection [sample.roses] [sample.bouquet] [sample.placed] [] 1 7
                     1 0 1 1715335300) 1 eq_refl eq_refl) as H.
    cbv zeta in H. destruct H as [Hblocked _]. apply Hblocked. vm_compute. reflexivity.
  - pose proof (delete_category_cascades sample.storage sample.stored 1 eq_refl eq_refl) as H.
    cbv zeta in H. destruct H as [_ Hgone].
    destruct Hgone as (_ & _ & _ & Hget & _); [vm_compute; reflexivity|].
    apply (Hget sample.bouquet).
    + left. reflexivity.
    + reflexivity.
    + intros other [<-|[]] _. reflexivity.
Defined.




Lemma the_price_of_the_bouquet_in_groups :
  List.filter (λ ch, negb (ch =? 32)%N) (helpers.grouped_amount 1800000) = str_of_Z 1800000
  ∧ ∀ rest, helpers.grouped_amount 1800000 ≠ 32%N :: rest.
Proof.
  pose proof (format_price_groups_thousands 1800000 false) as H.
  cbv zeta in H. destruct H as (_ & Hdigits & Hplaces).
  split; [exact Hdigits|]. apply Hplaces. lia.
Defined.

Lemma half_past_six_is_after_six :
  helpers.is_after_six_pm None sample.evening = true.
Proof.
  rewrite (is_after_six_pm_from_the_hour None sample.evening); [reflexivity|simpl; lia..].
Defined.


Lemma five_digits_are_no_phone :
  orders.phone_text (U := sample.plain_tables) (sample.says (lit "12345"))
    (sample.world sample.noon)
  = (Ok (),
     put_outbox (sample.world sample.noon)
       [answer (lit "Введите номер в формате +XX XXX XXX XXXX или 0XXXXXXXXX.") None]).
Proof.
  pose proof (phone_text_stores_valid_numbers (U := sample.plain_tables)
                (sample.says (lit "12345")) (sample.world sample.noon)) as H.
  cbv zeta in H. destruct H as (_ & _ & Hagain).
  apply (Hagain (lit "12345")); [reflexivity|vm_compute; reflexivity].
Defined.

Lemma nothing_to_repeat_in_the_sample_shop :
  orders.repeat_order (sample.says (lit "🔁 Повторить заказ")) sample.with_order
  = (Ok (),
     put_outbox sample.with_order
       [answer (lit "У вас пока нет завершённых заказов для повтора 😊") None]).
Proof.
  assert (Hnone : on_storage never_completed sample.with_order).
  { intros c o [= <-] [<-|[]]. vm_compute. discriminate. }
  pose proof (no_handler_completes_an_order (U := sample.plain_tables) sample.settings
                sample.with_order Hnone) as H.
  destruct H as (_ & _ & _ & _ & _ & Hrepeat).
  exact (Hrepeat (sample.says (lit "🔁 Повторить заказ")) _ eq_refl).
Defined.

Lemma a_customer_is_no_moderator :
  orders.admin_order_accept (U := sample.plain_tables)
    (CallbackQuery.mk sample.customer (lit "admin_order_accept:1")) sample.settings
    sample.with_order
  = (Ok (),
     put_outbox sample.with_order [cb_answer (Some (lit "Недостаточно прав")) true]).
Proof.
  pose proof (outsiders_change_nothing (U := sample.plain_tables) sample.settings
                sample.customer sample.with_order) as H.
  cbv zeta in H. destruct H as (Haccept & _).
  - apply (bool_decide_unpack _). vm_compute. reflexivity.
  - apply Haccept.
Defined.

Lemma the_roses_button_opens_page_one :
  catalog.open_category (U := sample.plain_tables)
    (CallbackQuery.mk sample.customer (lit "category:1")) sample.full_shop
  = (catalog.send_products_page 1 1;; emit (cb_answer None false))
      sample.full_shop.
Proof.
  pose proof (catalogue_buttons_show_their_page (U := sample.plain_tables) sample.customer
                sample.full_shop) as H.
  cbv zeta in H. destruct H as [Hcategories _].
  destruct (Hcategories [sample.roses]
              (inline.button (lit "🌹 Розы") (lit "category:1")))
    as [Hmenu|(category & [<-|[]] & _ & Hopens)].
  - intros category [<-|[]]. simpl. lia.
  - left. vm_compute. reflexivity.
  - vm_compute in Hmenu. discriminate Hmenu.
  - exact Hopens.
Defined.

Lemma the_button_under_the_bouquet :
  ∃ b, In b (inline.buttons (inline.product_list_action_kb 7 1 1))
       ∧ fst (catalog.product_view (U := sample.plain_tables)
                (CallbackQuery.mk sample.customer (InlineKeyboardButton.callback_data b))
                (sample.world sample.noon))
         = Ok ().
Proof.
  pose proof (product_buttons_lead_to_the_order (U := sample.plain_tables) sample.customer
                (sample.world sample.noon) sample.stored sample.bouquet 1 1 eq_refl) as H.
  cbv zeta in H. destruct H as [Hview _].
  - vm_compute. repeat constructor. intros Hin. inversion Hin.
  - left. reflexivity.
  - simpl. lia.
  - lia.
  - lia.
  - eexists. split; [left; reflexivity|].
    rewrite Hview; [reflexivity|left; reflexivity].
Defined.

Lemma peonies_go_on_sale :
  ∃ w', admin.admin_save_product (sample.florist_presses (lit "admin:product_save"))
          sample.settings scene.ready_to_save = (Ok (), w')
        ∧ on_db (Database.get_product 8) w'
          = (Ok (Some (Product.mk 8 1 (lit "Пионы") 950000 true (lit "Сезонный букет")
                         (lit "AgACAgIAAxkBAAIC") true 1715335200)), w').
Proof.
  pose proof (saved_product_is_on_sale sample.settings
                (sample.florist_presses (lit "admin:product_save")) scene.ready_to_save
                sample.stored 1 (lit "Пионы") 950000 true (lit "Сезонный букет")
                (lit "AgACAgIAAxkBAAIC") eq_refl) as H.
  cbv zeta in H.
  destruct H as [_ Hsaved];
    try (vm_compute; reflexivity); try (unfold int64; lia); try (vm_compute; by split).
  destruct Hsaved as (w' & Hrun & _ & _ & _ & _ & Hget & _); [vm_compute; reflexivity|].
  exists w'. split; [exact Hrun|exact Hget].
Defined.



Lemma saturday_is_accepted :
  fst (orders.date_selected
         (CallbackQuery.mk sample.customer
            (InlineKeyboardButton.callback_data scene.saturday_button))
         (sample.world sample.evening))
  = Ok ().
Proof.
  destruct (inline.order_date_kb scene.friday false) as [kb|e] eqn:Hkb;
    [|vm_compute in Hkb; discriminate Hkb].
  pose proof (calendar_dates_are_accepted scene.friday false kb sample.customer
                (sample.world sample.evening) scene.saturday_button Hkb) as H.
  cbv zeta in H.
  destruct H as [Hcancel|[(Htoday & _)|[(Htomorrow & _)|(i & target & _ & _ & _ & Hrun)]]].
  - vm_compute in Hkb. injection Hkb as <-. vm_compute.
    do 2 right. left. reflexivity.
  - vm_compute in Hcancel. discriminate Hcancel.
  - discriminate Htoday.
  - vm_compute in Htomorrow. discriminate Htomorrow.
  - rewrite Hrun. reflexivity.
Defined.

Lemma the_noon_slot :
  fsm_data (snd (orders.time_selected
                   (CallbackQuery.mk sample.customer (lit "time_selected:" ++ lit "12:00-15:00"))
                   (sample.world sample.noon)))
  !! "delivery_time"%string
  = Some (v_str (lit "12:00-15:00")).
Proof.
  rewrite (proj1 (time_slot_is_stored_whole sample.customer (sample.world sample.noon))).
  cbn [snd fsm_data]. apply lookup_insert_eq.
Defined.

Lemma a_name_of_two_letters :
  admin.admin_add_name (sample.florist_says (lit " Ро ")) sample.at_price
  = (Ok (),
     put_outbox sample.at_price
       (outbox sample.at_price
        ++ [answer (lit "Название должно быть от 3 до 50 символов.") None])).
Proof.
  pose proof (admin_texts_are_checked (sample.florist_says (lit " Ро ")) sample.at_price) as H.
  cbv zeta in H. destruct H as (_ & _ & Htexts).
  destruct (Htexts (lit " Ро ") eq_refl) as [Hname _].
  replace ((3 <=? length (strip (lit " Ро "))) && (length (strip (lit " Ро ")) <=? 50))
    with false in Hname by (vm_compute; reflexivity).
  exact Hname.
Defined.



Lemma a_stale_confirmation :
  orders.order_confirm (sample.press (lit "order_confirm")) sample.settings scene.stale
  = (Ok (),
     put_outbox scene.stale
       (outbox scene.stale ++ [cb_answer (Some (lit "Товар не найден")) true])).
Proof.
  pose proof (vanished_product_is_reported (U := sample.plain_tables) sample.customer
                sample.settings scene.stale sample.stored 99 1 1 eq_refl) as H.
  cbv zeta in H. destruct H as (_ & _ & Hconfirm); try lia; try (unfold int64; lia).
  - vm_compute. reflexivity.
  - apply Hconfirm. vm_compute. reflexivity.
Defined.

Lemma the_florist_is_told :
  notify_admins [1001%Z] (lit "🔔 НОВЫЙ ЗАКАЗ #") None sample.with_order
  = (Ok (),
     put_outbox sample.with_order
       (outbox sample.with_order ++ [send_message 1001 (lit "🔔 НОВЫЙ ЗАКАЗ #") None])).
Proof.
  destruct (notify_admins_reaches_whom_it_can [1001%Z] (lit "🔔 НОВЫЙ ЗАКАЗ #") None
              sample.with_order) as (delivered & Hrun & -> & _).
  exact Hrun.
Defined.

Lemma the_bouquet_stays_as_it_is_while_browsing :
  db (snd (catalog.open_category (U := sample.plain_tables)
             (sample.press (lit "category:1")) sample.full_shop))
  = db sample.full_shop.
Proof.
  destruct (only_confirmation_writes (U := sample.plain_tables) sample.full_shop)
    as [_ Hcallbacks].
  destruct (Hcallbacks (sample.press (lit "category:1"))) as (_ & Hopen & _).
  exact Hopen.
Defined.
